(** * Link shortener: the link store, the server actions and the redirect route

    A shallow embedding of

    - [db/schema.ts]: the [links] table and its constraints;
    - [data/links.ts]: [getUserLinks], [insertLink], [updateLink] and
      [deleteLinkById];
    - the server actions [createLink], [editLink] and [deleteLinkAction]
      with their zod schemas (the module the dialogs import as
      [@/app/dashboard/actions]);
    - the route handler [GET] that redirects a short code.

    JavaScript strings are modelled by [string]; the integer column [id] and
    the two timestamps (milliseconds) by [Z].  An [await]ed call is a plain
    call: [serveAll] runs one request after the other, and [runSchedule]
    runs the ownership-checked data-layer functions one store statement at a
    time, to study concurrent requests. *)

From Stdlib Require Import ZArith List String Ascii Bool Lia.
From Stdlib Require Import Sorting.Sorted Sorting.Permutation.
Import ListNotations.
Local Open Scope string_scope.
Local Open Scope list_scope.
Local Open Scope Z_scope.

(** ** JavaScript string helpers *)

(** [s.includes(sub)]: [sub] occurs somewhere in [s]. *)
Fixpoint includes (s sub : string) : bool :=
  String.prefix sub s ||
  match s with
  | EmptyString => false
  | String _ rest => includes rest sub
  end.

(** The characters of a string, to state properties character by character. *)
Fixpoint chars (s : string) : list ascii :=
  match s with
  | EmptyString => []
  | String c rest => c :: chars rest
  end.

(** [s.length] as used by zod's [min] and [max] checks. *)
Definition strlen (s : string) : Z := Z.of_nat (String.length s).

Definition inRange (lo hi c : ascii) : bool :=
  ((nat_of_ascii lo <=? nat_of_ascii c)%nat && (nat_of_ascii c <=? nat_of_ascii hi)%nat).

(** The character class [[a-zA-Z0-9-_]] of the short-code pattern. *)
Definition shortCodeChar (c : ascii) : bool :=
  inRange "a" "z" c || inRange "A" "Z" c || inRange "0" "9" c
  || Ascii.eqb c "-" || Ascii.eqb c "_".

Fixpoint allChars (p : ascii -> bool) (s : string) : bool :=
  match s with
  | EmptyString => true
  | String c rest => p c && allChars p rest
  end.

(** [/^[a-zA-Z0-9-_]+$/.test(s)]: one or more characters, all in the class. *)
Definition shortCodeRegex (s : string) : bool :=
  match s with
  | EmptyString => false
  | String _ _ => allChars shortCodeChar s
  end.

(** ** db/schema.ts: the [links] table *)

Record Link := mkLink {
  id : Z;
  userId : string;
  shortCode : string;
  url : string;
  createdAt : Z;
  updatedAt : Z
}.

(** The table in storage order, and the identity sequence that feeds [id]
    ([generatedAlwaysAsIdentity]). *)
Record Db := mkDb {
  rows : list Link;
  nextId : Z
}.

Definition emptyDb : Db := mkDb [] 1.

(** What a [catch] clause can receive: an [Error] with its message, or some
    other thrown value. *)
Inductive Thrown :=
| JsError (message : string)
| NotAnError.

(** [ActionResult<T>] of the server actions. *)
Inductive ActionResult (T : Type) :=
| Success (data : T)
| Failure (error : string).
Arguments Success {T} data.
Arguments Failure {T} error.

(** ** The messages of the server actions *)

Definition msgUnauthorized := "Unauthorized".
Definition msgInvalidUrl := "Invalid URL format".
Definition msgShortCodeMin := "Short code must be at least 3 characters".
Definition msgShortCodeMax := "Short code must be at most 20 characters".
Definition msgShortCodeRegex :=
  "Short code can only contain letters, numbers, hyphens, and underscores".
Definition msgNotFoundOrNotOwned := "Link not found or not owned by user".
Definition msgShortCodeTaken :=
  "This short code is already in use. Please try another one.".
Definition msgCreateFailed := "Failed to create link".
Definition msgUpdateFailed := "Failed to update link".
Definition msgDeleteFailed := "Failed to delete link".

(** The three messages with which the schema rejects a short code. *)
Definition InvalidShortCode (msg : string) : Prop :=
  msg = msgShortCodeMin \/ msg = msgShortCodeMax \/ msg = msgShortCodeRegex.

(** ** zod: the checks of the [shortCode] field

    A zod string schema runs its checks in the order they were chained and
    records an issue for each one that fails. *)
Definition shortCodeIssues (s : string) : list string :=
  (if strlen s <? 3 then [msgShortCodeMin] else []) ++
  (if 20 <? strlen s then [msgShortCodeMax] else []) ++
  (if shortCodeRegex s then [] else [msgShortCodeRegex]).

(** ** Inputs of the data layer and of the server actions *)

Module NewLink.
Record t := mk { userId : string; url : string; shortCode : string }.
End NewLink.

Module CreateLinkInput.
Record t := mk { url : string; shortCode : string }.
End CreateLinkInput.

Module EditLinkInput.
Record t := mk { id : Z; url : string; shortCode : string }.
End EditLinkInput.

Module DeleteLinkInput.
Record t := mk { id : Z }.
End DeleteLinkInput.

(** ** PostgreSQL: the errors the [links] table can raise *)

Inductive PgError :=
| UniqueViolation (constraint : string)
| StringTooLong.

Definition links_pkey := "links_pkey".
Definition links_short_code_unique := "links_short_code_unique".

(** [WHERE id = $1 AND user_id = $2]. *)
Definition ownedBy (i : Z) (u : string) (r : Link) : bool :=
  (id r =? i) && (userId r =? u)%string.

Definition hasShortCode (code : string) (r : Link) : bool :=
  (shortCode r =? code)%string.

(** [UPDATE links SET ... WHERE p RETURNING *], row by row in storage order.
    The unique index on [short_code] is checked as each new row version is
    written, against every other row of the table ([done] holds the rows
    already visited, [todo] the rows still to visit); an error aborts the
    statement as a whole.  The result is the returned rows and the new
    table. *)
Fixpoint updateRows (p : Link -> bool) (f : Link -> Link)
    (done todo : list Link) : PgError + (list Link * list Link) :=
  match todo with
  | [] => inr ([], done)
  | r :: rest =>
    if p r then
      let r' := f r in
      if 20 <? strlen (shortCode r') then inl StringTooLong
      else if existsb (hasShortCode (shortCode r')) (done ++ rest)
      then inl (UniqueViolation links_short_code_unique)
      else match updateRows p f (done ++ [r']) rest with
           | inl e => inl e
           | inr (returned, table) => inr (r' :: returned, table)
           end
    else updateRows p f (done ++ [r]) rest
  end.

(** [ORDER BY key DESC], as an insertion sort.  The store leaves the order
    among rows with equal keys open; the sort takes one such order. *)
Fixpoint insertDesc (key : Link -> Z) (x : Link) (l : list Link) : list Link :=
  match l with
  | [] => [x]
  | y :: rest => if key y <? key x then x :: l else y :: insertDesc key x rest
  end.

Definition orderByDesc (key : Link -> Z) (l : list Link) : list Link :=
  fold_right (insertDesc key) [] l.

(** The [userId] that [auth()] yields, a [string | null], when it passes the
    test [if (!userId) return ...]: [null] and the empty string are falsy. *)
Definition signedIn (auth : option string) : option string :=
  match auth with
  | None => None
  | Some u => if (u =? "")%string then None else Some u
  end.

(** [z.number()] on an [id] that is a number by its type: no issue.  (The
    ids of the model are integers; [NaN], which zod refuses, is not one of
    them.) *)
Definition idIssues (i : Z) : list string := [].

(** ** The store, the data layer and the actions *)

Section LinkShortener.

(** The URL parser of the platform: [isUrl s] when [new URL(s)] succeeds.
    It is what zod's [z.string().url()] check runs, and what
    [NextResponse.redirect] runs on its target before it builds the
    response. *)
Variable isUrl : string -> bool.

(** The [message] of the [Error] thrown by a failed store statement. *)
Variable pgMessage : PgError -> string.

Definition raise {A : Type} (e : PgError) : Thrown + A :=
  inl (JsError (pgMessage e)).

(** *** Store statements *)

(** [INSERT INTO links (user_id, url, short_code) VALUES (...) RETURNING *]:
    [id] takes the next identity value and both timestamps default to
    [now()].  A short code too long for the column is refused before an
    identity value is taken; a row refused by a unique index has taken its
    identity value, which is then gone. *)
Definition insertRow (now : Z) (db : Db) (data : NewLink.t)
    : (Thrown + Link) * Db :=
  let r := mkLink (nextId db) (NewLink.userId data) (NewLink.shortCode data)
                  (NewLink.url data) now now in
  let failed := mkDb (rows db) (nextId db + 1) in
  if 20 <? strlen (shortCode r) then (raise StringTooLong, db)
  else if existsb (fun x => id x =? id r) (rows db)
  then (raise (UniqueViolation links_pkey), failed)
  else if existsb (hasShortCode (shortCode r)) (rows db)
  then (raise (UniqueViolation links_short_code_unique), failed)
  else (inr r, mkDb (rows db ++ [r]) (nextId db + 1)).

(** [SELECT * FROM links WHERE id = $1 AND user_id = $2]. *)
Definition selectOwned (db : Db) (i : Z) (u : string) : list Link :=
  filter (ownedBy i u) (rows db).

(** [.set({ url, shortCode, updatedAt: new Date() })]. *)
Definition setFields (url' code : string) (now : Z) (r : Link) : Link :=
  mkLink (id r) (userId r) code url' (createdAt r) now.

(** [UPDATE links SET ... WHERE id = $1 AND user_id = $2 RETURNING *]. *)
Definition updateOwned (now : Z) (db : Db) (i : Z) (u url' code : string)
    : (Thrown + list Link) * Db :=
  match updateRows (ownedBy i u) (setFields url' code now) [] (rows db) with
  | inl e => (raise e, db)
  | inr (returned, table) => (inr returned, mkDb table (nextId db))
  end.

(** [DELETE FROM links WHERE id = $1 AND user_id = $2]. *)
Definition deleteOwned (db : Db) (i : Z) (u : string) : Db :=
  mkDb (filter (fun r => negb (ownedBy i u r)) (rows db)) (nextId db).

(** *** data/links.ts *)

Definition getUserLinks (db : Db) (u : string) : list Link :=
  orderByDesc updatedAt (filter (fun r => (userId r =? u)%string) (rows db)).

Definition insertLink (now : Z) (db : Db) (data : NewLink.t)
    : (Thrown + Link) * Db :=
  insertRow now db data.

(** [null] and [undefined] are both [None]: the caller only tests
    [!updatedLink]. *)
Definition updateLink (now : Z) (db : Db) (i : Z) (u url' code : string)
    : (Thrown + option Link) * Db :=
  match selectOwned db i u with
  | [] => (inr None, db)
  | _ :: _ =>
    match updateOwned now db i u url' code with
    | (inl e, db') => (inl e, db')
    | (inr returned, db') => (inr (hd_error returned), db')
    end
  end.

Definition deleteLinkById (db : Db) (i : Z) (u : string) : bool * Db :=
  match selectOwned db i u with
  | [] => (false, db)
  | _ :: _ => (true, deleteOwned db i u)
  end.

(** Modelled from the spec: [getLinkByShortCode], which the route imports
    from [data/links.ts] and which is not in the sources at hand.  The
    spec's [findByShortCode(code)] returns the Link with that short code
    or "not found". *)
Definition getLinkByShortCode (db : Db) (code : string) : option Link :=
  find (hasShortCode code) (rows db).

(** *** The zod schemas: the issues of an input, in the order zod reports
    them (fields in the order of the schema, checks in the order they
    were chained); [safeParse] succeeds when there is none. *)

Definition createLinkSchema (url' code : string) : list string :=
  (if isUrl url' then [] else [msgInvalidUrl]) ++ shortCodeIssues code.

Definition editLinkSchema (i : Z) (url' code : string) : list string :=
  createLinkSchema url' code ++ idIssues i.

Definition deleteLinkSchema (i : Z) : list string := idIssues i.

(** *** The server actions *)

Definition createLink (auth : option string) (now : Z) (db : Db)
    (input : CreateLinkInput.t) : ActionResult Link * Db :=
  match signedIn auth with
  | None => (Failure msgUnauthorized, db)
  | Some userId =>
    match createLinkSchema (CreateLinkInput.url input)
                           (CreateLinkInput.shortCode input) with
    | issue :: _ => (Failure issue, db)
    | [] =>
      match insertLink now db
              (NewLink.mk userId (CreateLinkInput.url input)
                          (CreateLinkInput.shortCode input)) with
      | (inr newLink, db') => (Success newLink, db')
      | (inl (JsError message), db') =>
        if includes message "unique" then (Failure msgShortCodeTaken, db')
        else (Failure message, db')
      | (inl NotAnError, db') => (Failure msgCreateFailed, db')
      end
    end
  end.

Definition editLink (auth : option string) (now : Z) (db : Db)
    (input : EditLinkInput.t) : ActionResult Link * Db :=
  match signedIn auth with
  | None => (Failure msgUnauthorized, db)
  | Some userId =>
    match editLinkSchema (EditLinkInput.id input) (EditLinkInput.url input)
                         (EditLinkInput.shortCode input) with
    | issue :: _ => (Failure issue, db)
    | [] =>
      match updateLink now db (EditLinkInput.id input) userId
              (EditLinkInput.url input) (EditLinkInput.shortCode input) with
      | (inr None, db') => (Failure msgNotFoundOrNotOwned, db')
      | (inr (Some updatedLink), db') => (Success updatedLink, db')
      | (inl (JsError message), db') =>
        if includes message "unique" then (Failure msgShortCodeTaken, db')
        else (Failure message, db')
      | (inl NotAnError, db') => (Failure msgUpdateFailed, db')
      end
    end
  end.

Definition deleteLinkAction (auth : option string) (db : Db)
    (input : DeleteLinkInput.t) : ActionResult unit * Db :=
  match signedIn auth with
  | None => (Failure msgUnauthorized, db)
  | Some userId =>
    match deleteLinkSchema (DeleteLinkInput.id input) with
    | issue :: _ => (Failure issue, db)
    | [] =>
      match deleteLinkById db (DeleteLinkInput.id input) userId with
      | (false, db') => (Failure msgNotFoundOrNotOwned, db')
      | (true, db') => (Success tt, db')
      end
    end
  end.

(** *** The redirect route *)

(** The two responses the route builds: [Redirect target status] is the
    response of [NextResponse.redirect(target, status)] (its [Location]
    header is the parsed target, serialised), and [Json key value status]
    is [NextResponse.json({ key: value }, { status })]. *)
Inductive Response :=
| Redirect (target : string) (status : Z)
| Json (key value : string) (status : Z).

(** [NextResponse.redirect(url, status)] parses its target and throws on
    a malformed one. *)
Definition NextResponse_redirect (target : string) (status : Z)
    : Thrown + Response :=
  if isUrl target then inr (Redirect target status)
  else inl (JsError "URL is malformed").

Definition GET (db : Db) (shortcode : string) : Thrown + Response :=
  match getLinkByShortCode db shortcode with
  | None => inr (Json "error" "Link not found" 404)
  | Some link => NextResponse_redirect (url link) 307
  end.

(** *** Requests one after the other *)

Inductive Call :=
| CreateCall (input : CreateLinkInput.t)
| EditCall (input : EditLinkInput.t)
| DeleteCall (input : DeleteLinkInput.t).

(** A request: who calls ([auth()]), when, and what. *)
Record Request := mkRequest {
  caller : option string;
  time : Z;
  call : Call
}.

Definition serve (db : Db) (rq : Request) : Db :=
  match call rq with
  | CreateCall input => snd (createLink (caller rq) (time rq) db input)
  | EditCall input => snd (editLink (caller rq) (time rq) db input)
  | DeleteCall input => snd (deleteLinkAction (caller rq) db input)
  end.

Definition serveAll (db : Db) (rqs : list Request) : Db :=
  fold_left serve rqs db.

(** *** Concurrent requests: one store statement at a time

    Each [await db...] of [updateLink] and [deleteLinkById] is one
    statement sent to the store; between two statements of a call the
    statements of other calls may run.  A [Task] is a call of one of the
    two functions together with the point it has reached. *)

Inductive Task :=
| UpdateCheck (i : Z) (u url' code : string)
    (** [updateLink] entered, the ownership [SELECT] not yet run *)
| UpdateWrite (i : Z) (u url' code : string)
    (** [existing] was found, the [UPDATE] not yet run *)
| UpdateReturned (result : Thrown + option Link)
| DeleteCheck (i : Z) (u : string)
    (** [deleteLinkById] entered, the ownership [SELECT] not yet run *)
| DeleteWrite (i : Z) (u : string)
    (** [existing] was found, the [DELETE] not yet run *)
| DeleteReturned (result : bool).

(** The next statement of a task, run at time [now] on the store [db]. *)
Definition advance (now : Z) (db : Db) (t : Task) : Task * Db :=
  match t with
  | UpdateCheck i u url' code =>
    match selectOwned db i u with
    | [] => (UpdateReturned (inr None), db)
    | _ :: _ => (UpdateWrite i u url' code, db)
    end
  | UpdateWrite i u url' code =>
    match updateOwned now db i u url' code with
    | (inl e, db') => (UpdateReturned (inl e), db')
    | (inr returned, db') => (UpdateReturned (inr (hd_error returned)), db')
    end
  | DeleteCheck i u =>
    match selectOwned db i u with
    | [] => (DeleteReturned false, db)
    | _ :: _ => (DeleteWrite i u, db)
    end
  | DeleteWrite i u => (DeleteReturned true, deleteOwned db i u)
  | UpdateReturned _ | DeleteReturned _ => (t, db)
  end.

(** The rows a task may still write: those its [WHERE] clause matches. *)
Definition inScope (t : Task) (r : Link) : bool :=
  match t with
  | UpdateCheck i u _ _ | UpdateWrite i u _ _
  | DeleteCheck i u | DeleteWrite i u => ownedBy i u r
  | UpdateReturned _ | DeleteReturned _ => false
  end.

(** Replace the [n]-th task of the pool. *)
Fixpoint setTask (n : nat) (t : Task) (pool : list Task) : list Task :=
  match pool with
  | [] => []
  | t0 :: rest =>
    match n with
    | O => t :: rest
    | S n' => t0 :: setTask n' t rest
    end
  end.

(** One turn of the schedule: task [n] runs its next statement at [now]. *)
Definition turn (st : Db * list Task) (who : nat * Z) : Db * list Task :=
  let (db, pool) := st in
  let (n, now) := who in
  match nth_error pool n with
  | None => st
  | Some t => let (t', db') := advance now db t in (db', setTask n t' pool)
  end.

Definition runSchedule (st : Db * list Task) (schedule : list (nat * Z))
    : Db * list Task :=
  fold_left turn schedule st.

End LinkShortener.

(** ** The dashboard page and the seed script *)

(** What a card of the dashboard shows of a Link: its React [key], the
    title (the short code), the description (the url), the text after
    "Short Code:" and the creation time (shown as a local date and time). *)
Record Card := mkCard {
  cardKey : Z;
  cardTitle : string;
  cardDescription : string;
  cardShortCode : string;
  cardCreated : Z
}.

Definition linkCard (link : Link) : Card :=
  mkCard (id link) (shortCode link) (url link)
         (String "/" (shortCode link)) (createdAt link).

(** What [DashboardPage] comes to: [redirect(path)], the "No links yet"
    card, or the "Your Links" grid. *)
Inductive DashboardView :=
| RedirectTo (path : string)
| NoLinksYet
| YourLinks (cards : list Card).

Definition DashboardPage (auth : option string) (db : Db) : DashboardView :=
  match signedIn auth with
  | None => RedirectTo "/"
  | Some userId =>
    let userLinks := getUserLinks db userId in
    if (List.length userLinks =? 0)%nat then NoLinksYet
    else YourLinks (map linkCard userLinks)
  end.

(** db/seed.ts *)

Definition SEED_USER_ID : string := "user_37eJO4MXCcqwUtDj0UFOGKuARUV".

Definition seedData : list NewLink.t :=
  [ NewLink.mk SEED_USER_ID "https://github.com/vercel/next.js" "gh-repo";
    NewLink.mk SEED_USER_ID "https://www.youtube.com/watch?v=dQw4w9WgXcQ" "yt-vid";
    NewLink.mk SEED_USER_ID "https://x.com/vercel/status/1234567890" "x-post";
    NewLink.mk SEED_USER_ID
      "https://medium.com/@example/understanding-ai-transformers-2024" "medium-ai";
    NewLink.mk SEED_USER_ID
      "https://stackoverflow.com/questions/12345678/how-to-use-async-await"
      "so-question";
    NewLink.mk SEED_USER_ID
      "https://nextjs.org/docs/app/building-your-application" "docs-next";
    NewLink.mk SEED_USER_ID "https://www.linkedin.com/in/example-developer"
      "linkedin-prof";
    NewLink.mk SEED_USER_ID
      "https://www.reddit.com/r/webdev/comments/example/best-practices-2026"
      "reddit-web";
    NewLink.mk SEED_USER_ID
      "https://dev.to/example/building-fullstack-apps-with-nextjs-2024"
      "devto-tutorial";
    NewLink.mk SEED_USER_ID "https://www.stripe.com/products/billing"
      "product-page" ].

(** How the script ends: [process.exit(0)] when seed data exists, the
    normal end after the insert, [process.exit(1)] from the [catch]. *)
Inductive SeedExit :=
| SeedSkipped
| SeedCompleted (inserted : list Link)
| SeedFailed (error : Thrown).

Definition exitCode (e : SeedExit) : Z :=
  match e with
  | SeedSkipped | SeedCompleted _ => 0
  | SeedFailed _ => 1
  end.

(** The rows an [INSERT] of [datas] creates at time [now] when the identity
    sequence stands at [n]. *)
Fixpoint stamped (now : Z) (n : Z) (datas : list NewLink.t) : list Link :=
  match datas with
  | [] => []
  | d :: rest =>
    mkLink n (NewLink.userId d) (NewLink.shortCode d) (NewLink.url d) now now
      :: stamped now (n + 1) rest
  end.

Section Seeding.

Variable pgMessage : PgError -> string.

(** The rows of a multi-row [INSERT ... VALUES (...), (...)], one after the
    other. *)
Fixpoint insertEach (now : Z) (db : Db) (datas : list NewLink.t)
    : (Thrown + list Link) * Db :=
  match datas with
  | [] => (inr [], db)
  | d :: rest =>
    match insertRow pgMessage now db d with
    | (inl e, db') => (inl e, db')
    | (inr r, db') =>
      match insertEach now db' rest with
      | (inl e, db'') => (inl e, db'')
      | (inr rs, db'') => (inr (r :: rs), db'')
      end
    end
  end.

(** [db.insert(links).values(datas).returning()]: one statement; when a row
    fails, none of its rows stays (the identity values it took are gone). *)
Definition insertValues (now : Z) (db : Db) (datas : list NewLink.t)
    : (Thrown + list Link) * Db :=
  match insertEach now db datas with
  | (inl e, db') => (inl e, mkDb (rows db) (nextId db'))
  | (inr inserted, db') => (inr inserted, db')
  end.

(** [seed()], without its console output. *)
Definition seed (now : Z) (db : Db) : SeedExit * Db :=
  let existingSeed :=
    firstn 1 (filter (fun r => (userId r =? SEED_USER_ID)%string) (rows db)) in
  if (0 <? List.length existingSeed)%nat then (SeedSkipped, db)
  else
    match insertValues now db seedData with
    | (inr inserted, db') => (SeedCompleted inserted, db')
    | (inl e, db') => (SeedFailed e, db')
    end.

End Seeding.

(** ** Instances used in the examples *)

(** A stand-in for the URL parser: it accepts what starts with an [http:] or
    [https:] scheme and two slashes. *)
Definition httpUrl (s : string) : bool :=
  String.prefix "http://" s || String.prefix "https://" s.

(** The messages of PostgreSQL itself, as a driver hands them on.  A layer
    above the driver may put its own text in their place, see
    [failedQueryMessage]. *)
Definition postgresMessage (e : PgError) : string :=
  match e with
  | UniqueViolation constraint =>
    ("duplicate key value violates unique constraint "
       ++ String "034" constraint ++ String "034" EmptyString)%string
  | StringTooLong => "value too long for type character varying(20)"
  end.

(** The store of the scenario "user A creates a link with id 5". *)
Definition scenarioDb : Db :=
  mkDb [mkLink 5 "userA" "abc123" "https://example.com" 10 10] 6.

(** The Link of [scenarioDb]. *)
Definition scenarioLink : Link :=
  mkLink 5 "userA" "abc123" "https://example.com" 10 10.

(** Requests on [scenarioDb]: user B creates "mine", user A moves the link
    5 to "moved", user B tries to edit the link 5. *)
Definition scenarioRequests : list Request :=
  [ mkRequest (Some "userB") 20 (CreateCall (CreateLinkInput.mk "https://b.com" "mine"));
    mkRequest (Some "userA") 21 (EditCall (EditLinkInput.mk 5 "https://a.org" "moved"));
    mkRequest (Some "userB") 22
      (EditCall (EditLinkInput.mk 5 "https://b.com/other" "abc123")) ].

(** Requests on [scenarioDb] none of which is made by user A. *)
Definition otherRequests : list Request :=
  [ mkRequest (Some "userB") 20 (CreateCall (CreateLinkInput.mk "https://b.com" "mine"));
    mkRequest (Some "userB") 21 (EditCall (EditLinkInput.mk 5 "https://b.com" "stolen"));
    mkRequest (Some "userB") 22 (DeleteCall (DeleteLinkInput.mk 5));
    mkRequest None 23 (DeleteCall (DeleteLinkInput.mk 5)) ].

(** A store in which user A holds the short code "yt-vid" of the seed
    data. *)
Definition takenDb : Db :=
  mkDb [mkLink 1 "userA" "yt-vid" "https://a.com" 5 5] 2.

(** A store layer that reports every failed statement with the same text,
    without PostgreSQL's message: drizzle-orm, from the version named in
    docs/database-schema.md on, throws "Failed query: ..." followed by the
    statement and its parameters, and keeps the driver's error as the
    cause.  The model keeps the first words. *)
Definition failedQueryMessage (e : PgError) : string := "Failed query".

(** The requests of the scenario "a second create with the short code dup1
    fails", followed by two edits and a delete. *)
Definition demoRequests : list Request :=
  [ mkRequest (Some "userA") 10 (CreateCall (CreateLinkInput.mk "https://a.com" "dup1"));
    mkRequest (Some "userB") 11 (CreateCall (CreateLinkInput.mk "https://b.com" "dup1"));
    mkRequest (Some "userB") 12 (CreateCall (CreateLinkInput.mk "https://b.com" "other"));
    mkRequest (Some "userB") 13 (EditCall (EditLinkInput.mk 3 "https://b.com" "dup1"));
    mkRequest (Some "userA") 14 (EditCall (EditLinkInput.mk 1 "https://a.org" "dup1"));
    mkRequest None 15 (DeleteCall (DeleteLinkInput.mk 1)) ].

(** The requests of the round trip "create abc123, then resolve it". *)
Definition roundTripRequests : list Request :=
  [ mkRequest (Some "userA") 10
      (CreateCall (CreateLinkInput.mk "https://example.com" "abc123")) ].

(** ** Predicates on the store *)

(** At most one row for each short code. *)
Definition uniqueShortCodes (db : Db) : Prop :=
  NoDup (map shortCode (rows db)).

(** The rule for a short code in words: 3 to 20 characters, each of them a
    letter, a digit, a hyphen or an underscore. *)
Definition shortCodeOk (code : string) : Prop :=
  3 <= strlen code <= 20 /\
  Forall (fun c => shortCodeChar c = true) (chars code).

(** Times that never go backwards, from [t0] on. *)
Fixpoint neverBackwards (t0 : Z) (ts : list Z) : Prop :=
  match ts with
  | [] => True
  | t :: rest => t0 <= t /\ neverBackwards t rest
  end.

(** Every row was created no later than it was last touched, and last
    touched no later than [t]. *)
Definition timely (t : Z) (db : Db) : Prop :=
  forall r, In r (rows db) -> createdAt r <= updatedAt r /\ updatedAt r <= t.

(** Every stored url is one the URL parser accepts. *)
Definition urlsParse (isUrl : string -> bool) (db : Db) : Prop :=
  forall r, In r (rows db) -> isUrl (url r) = true.

(** A store in which user B has the link "mine" next to the link 5 of
    user A. *)
Definition conflictDb : Db :=
  mkDb [scenarioLink; mkLink 6 "userB" "mine" "https://b.com" 20 20] 7.

(** A store with three links of user A, updated at the times 10, 15 and 13,
    and one link of user B. *)
Definition listingDb : Db :=
  mkDb [ mkLink 1 "userA" "one" "https://a.com" 10 10;
         mkLink 2 "userB" "two" "https://b.com" 11 11;
         mkLink 3 "userA" "three" "https://c.com" 12 15;
         mkLink 4 "userA" "four" "https://d.com" 13 13 ] 5.

(** ** More predicates on the store *)

(** The values of the [integer] column [id].  The model passes the [id] of
    an input to the store as it is; a number outside this range (and a
    number that is no integer) is one the store refuses as a parameter, and
    is outside what the statements on ids below speak of. *)
Definition int4 (i : Z) : Prop := -2147483648 <= i <= 2147483647.

(** The primary key: the ids are distinct and all below the identity
    sequence. *)
Definition keysFresh (db : Db) : Prop :=
  NoDup (map id (rows db)) /\ forall r, In r (rows db) -> id r < nextId db.

(** Every stored Link would pass the schema of the actions. *)
Definition storedValid (isUrl : string -> bool) (db : Db) : Prop :=
  forall r, In r (rows db) -> isUrl (url r) = true /\ shortCodeOk (shortCode r).

(** * Properties *)

(** ** Strings and the short-code checks *)

Lemma allChars_Forall (p : ascii -> bool) (s : string) :
  allChars p s = true <-> Forall (fun c => p c = true) (chars s).
Proof.
  induction s as [|c s IH]; simpl.
  - split; [constructor | reflexivity].
  - rewrite andb_true_iff, IH. split.
    + intros [Hc Hs]. constructor; assumption.
    + intros H. inversion H; subst. split; assumption.
Qed.

Lemma shortCodeRegex_spec (s : string) :
  shortCodeRegex s = true <->
  1 <= strlen s /\ Forall (fun c => shortCodeChar c = true) (chars s).
Proof.
  destruct s as [|c s].
  - simpl. split; [discriminate | intros [H _]; cbv in H; congruence].
  - unfold shortCodeRegex. rewrite allChars_Forall. unfold strlen.
    cbn [String.length]. split; [intros H; split; [lia | exact H] | tauto].
Qed.

Lemma shortCodeIssues_nil (s : string) :
  shortCodeIssues s = [] <-> shortCodeOk s.
Proof.
  unfold shortCodeIssues, shortCodeOk.
  destruct (strlen s <? 3) eqn:Hmin; [apply Z.ltb_lt in Hmin | apply Z.ltb_ge in Hmin];
  destruct (20 <? strlen s) eqn:Hmax; [apply Z.ltb_lt in Hmax | apply Z.ltb_ge in Hmax
                                      | apply Z.ltb_lt in Hmax | apply Z.ltb_ge in Hmax];
  destruct (shortCodeRegex s) eqn:Hre; simpl;
  try (split; [discriminate | intros [? _]; lia]).
  - apply shortCodeRegex_spec in Hre. split; [intros _; split; [lia | tauto] | reflexivity].
  - split; [discriminate |]. intros [_ Hall].
    assert (shortCodeRegex s = true) as E by (apply shortCodeRegex_spec; split; [lia | exact Hall]).
    congruence.
Qed.

Lemma shortCodeIssues_head (s : string) (issue : string) (rest : list string) :
  shortCodeIssues s = issue :: rest -> InvalidShortCode issue.
Proof.
  unfold shortCodeIssues, InvalidShortCode.
  destruct (strlen s <? 3); destruct (20 <? strlen s); destruct (shortCodeRegex s);
    simpl; intros H; inversion H; auto.
Qed.

Lemma includes_prefix (s sub : string) :
  String.prefix sub s = true -> includes s sub = true.
Proof.
  intros H. destruct s; simpl in *; rewrite H; reflexivity.
Qed.

Lemma includes_skip (c : ascii) (s sub : string) :
  includes s sub = true -> includes (String c s) sub = true.
Proof.
  intros H. cbn [includes]. rewrite H. apply orb_true_r.
Qed.

(** ** Authentication and validation in the server actions *)

Section Validation.

Variable isUrl : string -> bool.
Variable pgMessage : PgError -> string.

Lemma createLinkSchema_ok (url' code : string) :
  createLinkSchema isUrl url' code = [] <-> isUrl url' = true /\ shortCodeOk code.
Proof.
  unfold createLinkSchema. rewrite <- shortCodeIssues_nil.
  destruct (isUrl url'); simpl.
  - tauto.
  - split; [discriminate | intros [H _]; discriminate].
Qed.

Lemma editLinkSchema_same (i : Z) (url' code : string) :
  editLinkSchema isUrl i url' code = createLinkSchema isUrl url' code.
Proof. unfold editLinkSchema, idIssues. apply app_nil_r. Qed.

Lemma createLink_rejects (auth : option string) (u : string) (now : Z) (db : Db)
    (input : CreateLinkInput.t) (issue : string) (rest : list string) :
  signedIn auth = Some u ->
  createLinkSchema isUrl (CreateLinkInput.url input) (CreateLinkInput.shortCode input)
    = issue :: rest ->
  createLink isUrl pgMessage auth now db input = (Failure issue, db).
Proof.
  intros Hu Hs. unfold createLink. rewrite Hu, Hs. reflexivity.
Qed.

Lemma editLink_rejects (auth : option string) (u : string) (now : Z) (db : Db)
    (input : EditLinkInput.t) (issue : string) (rest : list string) :
  signedIn auth = Some u ->
  editLinkSchema isUrl (EditLinkInput.id input) (EditLinkInput.url input)
    (EditLinkInput.shortCode input) = issue :: rest ->
  editLink isUrl pgMessage auth now db input = (Failure issue, db).
Proof.
  intros Hu Hs. unfold editLink. rewrite Hu, Hs. reflexivity.
Qed.

(** The action stops at the first issue of its schema. *)
Ltac rejected_by_schema :=
  first [ eapply createLink_rejects | eapply editLink_rejects ];
  [ eassumption
  | cbn [CreateLinkInput.url CreateLinkInput.shortCode EditLinkInput.id
         EditLinkInput.url EditLinkInput.shortCode];
    rewrite ?editLinkSchema_same;
    match goal with H : createLinkSchema _ _ _ = _ |- _ => rewrite H end;
    first [ reflexivity | eassumption ] ].

(** C2. A create, edit or delete call for which [auth()] yields no user id
    returns the failure "Unauthorized" and leaves the store as it was. *)
Theorem unauthenticated_calls_are_refused :
  forall (now : Z) (db : Db) (c : CreateLinkInput.t) (e : EditLinkInput.t)
         (d : DeleteLinkInput.t),
    createLink isUrl pgMessage None now db c = (Failure msgUnauthorized, db) /\
    editLink isUrl pgMessage None now db e = (Failure msgUnauthorized, db) /\
    deleteLinkAction None db d = (Failure msgUnauthorized, db).
Proof.
  intros. repeat split.
Qed.

(** C5. With a signed-in caller and a well-formed url, the create and the
    edit schema are the same schema; it accepts a short code exactly when
    its length is between 3 and 20 and all its characters are in
    [[a-zA-Z0-9-_]]; a rejected short code makes both actions fail with one
    of the short-code messages and leaves the store alone; a short code of
    length 2 is rejected as too short and one of length 21 as too long,
    while lengths 3 and 20 pass when the characters do. *)
Theorem short_code_validation :
  forall (auth : option string) (u : string) (now : Z) (db : Db)
         (i : Z) (url' code : string),
    signedIn auth = Some u ->
    isUrl url' = true ->
    editLinkSchema isUrl i url' code = createLinkSchema isUrl url' code /\
    (createLinkSchema isUrl url' code = [] <-> shortCodeOk code) /\
    (~ shortCodeOk code ->
       exists msg, InvalidShortCode msg /\
         createLink isUrl pgMessage auth now db (CreateLinkInput.mk url' code)
           = (Failure msg, db) /\
         editLink isUrl pgMessage auth now db (EditLinkInput.mk i url' code)
           = (Failure msg, db)) /\
    (strlen code = 2 ->
       createLink isUrl pgMessage auth now db (CreateLinkInput.mk url' code)
         = (Failure msgShortCodeMin, db) /\
       editLink isUrl pgMessage auth now db (EditLinkInput.mk i url' code)
         = (Failure msgShortCodeMin, db)) /\
    (strlen code = 21 ->
       createLink isUrl pgMessage auth now db (CreateLinkInput.mk url' code)
         = (Failure msgShortCodeMax, db) /\
       editLink isUrl pgMessage auth now db (EditLinkInput.mk i url' code)
         = (Failure msgShortCodeMax, db)) /\
    (strlen code = 3 \/ strlen code = 20 ->
       Forall (fun c => shortCodeChar c = true) (chars code) ->
       createLinkSchema isUrl url' code = []).
Proof.
  intros auth u now db i url' code Hu Hurl.
  assert (Hschema : createLinkSchema isUrl url' code = shortCodeIssues code)
    by (unfold createLinkSchema; rewrite Hurl; reflexivity).
  split; [apply editLinkSchema_same |].
  split; [rewrite Hschema; apply shortCodeIssues_nil |].
  split; [| split; [| split]].
  - intros Hbad.
    destruct (shortCodeIssues code) as [|msg rest] eqn:Hissues.
    + apply shortCodeIssues_nil in Hissues. contradiction.
    + exists msg. split; [eapply shortCodeIssues_head; eassumption |].
      split.
      * rejected_by_schema.
      * rejected_by_schema.
  - intros Hlen.
    assert (Hhead : exists rest, shortCodeIssues code = msgShortCodeMin :: rest).
    { unfold shortCodeIssues. rewrite Hlen. simpl. eexists. reflexivity. }
    destruct Hhead as [rest Hrest]. split.
    + rejected_by_schema.
    + rejected_by_schema.
  - intros Hlen.
    assert (Hhead : exists rest, shortCodeIssues code = msgShortCodeMax :: rest).
    { unfold shortCodeIssues. rewrite Hlen. simpl. eexists. reflexivity. }
    destruct Hhead as [rest Hrest]. split.
    + rejected_by_schema.
    + rejected_by_schema.
  - intros Hlen Hall. rewrite Hschema. apply shortCodeIssues_nil.
    split; [lia | exact Hall].
Qed.

End Validation.

(** C5 at the boundary: "ab" is refused as too short by both actions. *)
Lemma short_code_validation_witness :
  signedIn (Some "userA") = Some "userA" /\
  httpUrl "https://example.com" = true /\
  createLink httpUrl postgresMessage (Some "userA") 20 scenarioDb
    (CreateLinkInput.mk "https://example.com" "ab")
    = (Failure msgShortCodeMin, scenarioDb) /\
  editLink httpUrl postgresMessage (Some "userA") 20 scenarioDb
    (EditLinkInput.mk 5 "https://example.com" "ab")
    = (Failure msgShortCodeMin, scenarioDb).
Proof.
  split; [reflexivity |]. split; [reflexivity |].
  apply (short_code_validation httpUrl postgresMessage (Some "userA") "userA" 20
           scenarioDb 5 "https://example.com" "ab" eq_refl eq_refl).
  reflexivity.
Defined.

(** ** The store statements *)

(** What a successful [UPDATE] leaves: the matching rows rewritten in place,
    the others as they were; it returns the rewritten rows. *)
Lemma updateRows_inr (p : Link -> bool) (f : Link -> Link) :
  forall (todo done returned table : list Link),
    updateRows p f done todo = inr (returned, table) ->
    table = done ++ map (fun r => if p r then f r else r) todo /\
    returned = map f (filter p todo).
Proof.
  induction todo as [|r rest IH]; intros done returned table H; simpl in H.
  - inversion H; subst. rewrite app_nil_r. split; reflexivity.
  - simpl. destruct (p r) eqn:Hp.
    + destruct (20 <? strlen (shortCode (f r))); [discriminate |].
      destruct (existsb _ (done ++ rest)); [discriminate |].
      destruct (updateRows p f (done ++ [f r]) rest) as [e | [ret tbl]] eqn:Hrec;
        [discriminate |].
      inversion H; subst. apply IH in Hrec. destruct Hrec as [-> ->].
      rewrite <- app_assoc. split; reflexivity.
    + apply IH in H. destruct H as [-> ->]. rewrite <- app_assoc. split; reflexivity.
Qed.

(** A successful [UPDATE] keeps the short codes distinct. *)
Lemma updateRows_unique (p : Link -> bool) (f : Link -> Link) :
  forall (todo done returned table : list Link),
    NoDup (map shortCode (done ++ todo)) ->
    updateRows p f done todo = inr (returned, table) ->
    NoDup (map shortCode table).
Proof.
  induction todo as [|r rest IH]; intros done returned table Hnd H; simpl in H.
  - inversion H; subst. rewrite app_nil_r in Hnd. exact Hnd.
  - destruct (p r) eqn:Hp.
    + destruct (20 <? strlen (shortCode (f r))); [discriminate |].
      destruct (existsb (hasShortCode (shortCode (f r))) (done ++ rest)) eqn:Hex;
        [discriminate |].
      destruct (updateRows p f (done ++ [f r]) rest) as [e | [ret tbl]] eqn:Hrec;
        [discriminate |].
      inversion H; subst. eapply IH; [| exact Hrec].
      rewrite <- app_assoc. simpl.
      rewrite map_app in Hnd |- *. simpl in Hnd |- *.
      apply NoDup_remove_1 in Hnd.
      apply (Permutation_NoDup (l := shortCode (f r) :: map shortCode done ++ map shortCode rest));
        [apply Permutation_middle |].
      constructor; [| exact Hnd].
      rewrite <- map_app. intros Hin. apply in_map_iff in Hin.
      destruct Hin as (x & Hx & Hxin).
      assert (existsb (hasShortCode (shortCode (f r))) (done ++ rest) = true) as E.
      { apply existsb_exists. exists x. split; [exact Hxin |].
        unfold hasShortCode. apply String.eqb_eq. exact Hx. }
      congruence.
    + eapply IH; [| exact H]. rewrite <- app_assoc. exact Hnd.
Qed.

(** An [UPDATE] that would give a matching row a short code held by a row
    it does not match fails on the unique index. *)
Lemma updateRows_conflict (p : Link -> bool) (url' code : string) (now : Z) :
  strlen code <= 20 ->
  forall (todo done : list Link),
    (exists r, In r todo /\ p r = true) ->
    (exists o, In o (done ++ todo) /\ p o = false /\ shortCode o = code) ->
    updateRows p (setFields url' code now) done todo
      = inl (UniqueViolation links_short_code_unique).
Proof.
  intros Hlen. induction todo as [|r rest IH]; intros done [m [Hm Hpm]] [o (Ho & Hpo & Hco)].
  - destruct Hm.
  - simpl. destruct (p r) eqn:Hp.
    + cbn [setFields shortCode].
      assert ((20 <? strlen code) = false) as -> by (apply Z.ltb_ge; exact Hlen).
      assert (existsb (hasShortCode code) (done ++ rest) = true) as ->; [| reflexivity].
      apply existsb_exists. exists o. split.
      * apply in_app_or in Ho. apply in_or_app.
        destruct Ho as [Ho | [Ho | Ho]]; [left; exact Ho | subst; congruence | right; exact Ho].
      * unfold hasShortCode. apply String.eqb_eq. exact Hco.
    + apply IH.
      * destruct Hm as [Hm | Hm]; [subst; congruence | exists m; split; assumption].
      * exists o. rewrite <- app_assoc. simpl. auto.
Qed.

Lemma filter_map_NoDup (p : Link -> bool) (l : list Link) :
  NoDup (map shortCode l) -> NoDup (map shortCode (filter p l)).
Proof.
  induction l as [|r l IH]; simpl; intros H; [constructor |].
  inversion H; subst. destruct (p r); simpl; [| auto].
  constructor; [| auto]. intros Hin. apply in_map_iff in Hin.
  destruct Hin as (x & Hx & Hxin). apply filter_In in Hxin.
  apply H2. apply in_map_iff. exists x. tauto.
Qed.

Section Store.

Variable pgMessage : PgError -> string.

Lemma insertRow_unique (now : Z) (db : Db) (data : NewLink.t) :
  uniqueShortCodes db -> uniqueShortCodes (snd (insertRow pgMessage now db data)).
Proof.
  unfold uniqueShortCodes, insertRow. intros H. cbn [shortCode id].
  destruct (20 <? strlen (NewLink.shortCode data)); [exact H |].
  destruct (existsb _ (rows db)); [exact H |].
  destruct (existsb (hasShortCode (NewLink.shortCode data)) (rows db)) eqn:Hex; [exact H |].
  cbn [snd rows]. rewrite map_app. simpl.
  apply (Permutation_NoDup (l := NewLink.shortCode data :: map shortCode (rows db))).
  - rewrite Permutation_app_comm. reflexivity.
  - constructor; [| exact H]. intros Hin. apply in_map_iff in Hin.
    destruct Hin as (x & Hx & Hxin).
    assert (existsb (hasShortCode (NewLink.shortCode data)) (rows db) = true) as E.
    { apply existsb_exists. exists x. split; [exact Hxin |].
      unfold hasShortCode. apply String.eqb_eq. exact Hx. }
    congruence.
Qed.

Lemma updateOwned_unique (now : Z) (db : Db) (i : Z) (u url' code : string) :
  uniqueShortCodes db ->
  uniqueShortCodes (snd (updateOwned pgMessage now db i u url' code)).
Proof.
  unfold uniqueShortCodes, updateOwned. intros H.
  destruct (updateRows _ _ [] (rows db)) as [e | [ret tbl]] eqn:Hup; [exact H |].
  cbn [snd rows]. eapply updateRows_unique; [| exact Hup]. exact H.
Qed.

Lemma deleteOwned_unique (db : Db) (i : Z) (u : string) :
  uniqueShortCodes db -> uniqueShortCodes (deleteOwned db i u).
Proof.
  unfold uniqueShortCodes, deleteOwned. cbn [rows]. apply filter_map_NoDup.
Qed.

End Store.

(** ** What a request does to the store *)

Section Requests.

Variable isUrl : string -> bool.
Variable pgMessage : PgError -> string.

(** The store after a request is the store before it, or the outcome of the
    one write statement the action got to, run on validated input. *)
Lemma serve_cases (db : Db) (rq : Request) :
  serve isUrl pgMessage db rq = db \/
  (exists u url' code, isUrl url' = true /\ shortCodeOk code /\
     serve isUrl pgMessage db rq
       = snd (insertRow pgMessage (time rq) db (NewLink.mk u url' code))) \/
  (exists i u url' code, isUrl url' = true /\ shortCodeOk code /\
     serve isUrl pgMessage db rq
       = snd (updateOwned pgMessage (time rq) db i u url' code)) \/
  (exists i u, serve isUrl pgMessage db rq = deleteOwned db i u).
Proof.
  unfold serve. destruct (call rq) as [input | input | input].
  - unfold createLink. destruct (signedIn (caller rq)) as [u|]; [| left; reflexivity].
    destruct (createLinkSchema isUrl _ _) as [|issue rest] eqn:Hs; [| left; reflexivity].
    apply createLinkSchema_ok in Hs. destruct Hs as [Hurl Hcode].
    right; left. exists u, (CreateLinkInput.url input), (CreateLinkInput.shortCode input).
    split; [exact Hurl |]. split; [exact Hcode |].
    unfold insertLink.
    destruct (insertRow pgMessage (time rq) db _) as [[[message|] | newLink] db'];
      try reflexivity.
    destruct (includes message "unique"); reflexivity.
  - unfold editLink. destruct (signedIn (caller rq)) as [u|]; [| left; reflexivity].
    destruct (editLinkSchema isUrl _ _ _) as [|issue rest] eqn:Hs; [| left; reflexivity].
    rewrite editLinkSchema_same in Hs.
    apply createLinkSchema_ok in Hs. destruct Hs as [Hurl Hcode].
    unfold updateLink. destruct (selectOwned db _ u); [left; reflexivity |].
    right; right; left.
    exists (EditLinkInput.id input), u, (EditLinkInput.url input),
           (EditLinkInput.shortCode input).
    split; [exact Hurl |]. split; [exact Hcode |].
    destruct (updateOwned pgMessage (time rq) db _ u _ _) as [[[message|] | returned] db'];
      try reflexivity.
    + destruct (includes message "unique"); reflexivity.
    + destruct (hd_error returned); reflexivity.
  - unfold deleteLinkAction. destruct (signedIn (caller rq)) as [u|]; [| left; reflexivity].
    cbn [deleteLinkSchema idIssues]. unfold deleteLinkById.
    destruct (selectOwned db _ u); [left; reflexivity |].
    right; right; right. exists (DeleteLinkInput.id input), u. reflexivity.
Qed.

Lemma serve_unique (db : Db) (rq : Request) :
  uniqueShortCodes db -> uniqueShortCodes (serve isUrl pgMessage db rq).
Proof.
  intros H.
  destruct (serve_cases db rq)
    as [-> | [(u & url' & code & _ & _ & ->) | [(i & u & url' & code & _ & _ & ->) | (i & u & ->)]]].
  - exact H.
  - apply insertRow_unique, H.
  - apply updateOwned_unique, H.
  - apply deleteOwned_unique, H.
Qed.

Lemma serveAll_unique (rqs : list Request) :
  forall db, uniqueShortCodes db -> uniqueShortCodes (serveAll isUrl pgMessage db rqs).
Proof.
  unfold serveAll. induction rqs as [|rq rqs IH]; intros db H; simpl; [exact H |].
  apply IH, serve_unique, H.
Qed.

Lemma advance_unique (now : Z) (db : Db) (t : Task) :
  uniqueShortCodes db -> uniqueShortCodes (snd (advance pgMessage now db t)).
Proof.
  intros H. destruct t as [i u url' code | i u url' code | res | i u | i u | res];
    cbn [advance]; try exact H.
  - destruct (selectOwned db i u); exact H.
  - pose proof (updateOwned_unique pgMessage now db i u url' code H) as Hup.
    destruct (updateOwned pgMessage now db i u url' code) as [[e | returned] db']; exact Hup.
  - destruct (selectOwned db i u); exact H.
  - apply deleteOwned_unique, H.
Qed.

Lemma runSchedule_unique (schedule : list (nat * Z)) :
  forall (db : Db) (pool : list Task),
    uniqueShortCodes db ->
    uniqueShortCodes (fst (runSchedule pgMessage (db, pool) schedule)).
Proof.
  unfold runSchedule. induction schedule as [|[n now] schedule IH]; intros db pool H;
    simpl; [exact H |].
  destruct (nth_error pool n) as [t|]; [| apply IH, H].
  pose proof (advance_unique now db t H) as Hadv.
  destruct (advance pgMessage now db t) as [t' db']. apply IH, Hadv.
Qed.

(** C1. The unique index on [short_code] keeps at most one Link per short
    code: from a store in which the short codes are distinct, each write
    statement ([INSERT], ownership-scoped [UPDATE] and [DELETE]) leaves them
    distinct, and so does every sequence of create, edit and delete
    requests and every interleaving of concurrent update and delete
    calls. *)
Theorem short_codes_stay_unique :
  forall (db : Db),
    uniqueShortCodes db ->
    (forall now data, uniqueShortCodes (snd (insertRow pgMessage now db data))) /\
    (forall now i u url' code,
        uniqueShortCodes (snd (updateOwned pgMessage now db i u url' code))) /\
    (forall i u, uniqueShortCodes (deleteOwned db i u)) /\
    (forall rqs, uniqueShortCodes (serveAll isUrl pgMessage db rqs)) /\
    (forall pool schedule,
        uniqueShortCodes (fst (runSchedule pgMessage (db, pool) schedule))).
Proof.
  intros db H. repeat split; intros.
  - apply insertRow_unique, H.
  - apply updateOwned_unique, H.
  - apply deleteOwned_unique, H.
  - apply serveAll_unique, H.
  - apply runSchedule_unique, H.
Qed.

End Requests.

(** ** Ownership and short-code conflicts *)

Lemma ownedBy_true (i : Z) (u : string) (r : Link) :
  ownedBy i u r = true <-> id r = i /\ userId r = u.
Proof.
  unfold ownedBy. rewrite andb_true_iff, Z.eqb_eq, String.eqb_eq. tauto.
Qed.

Lemma selectOwned_none (db : Db) (i : Z) (u : string) :
  (forall r, In r (rows db) -> id r = i -> userId r <> u) ->
  selectOwned db i u = [].
Proof.
  intros H. unfold selectOwned.
  destruct (filter (ownedBy i u) (rows db)) as [|r l] eqn:Hf; [reflexivity |].
  assert (In r (filter (ownedBy i u) (rows db))) as Hin by (rewrite Hf; left; reflexivity).
  apply filter_In in Hin. destruct Hin as [Hin Hown].
  apply ownedBy_true in Hown. destruct Hown as [Hid Hu].
  exfalso. exact (H r Hin Hid Hu).
Qed.

Lemma selectOwned_some (db : Db) (i : Z) (u : string) (r : Link) :
  In r (rows db) -> ownedBy i u r = true ->
  exists x l, selectOwned db i u = x :: l.
Proof.
  intros Hin Hown. unfold selectOwned.
  destruct (filter (ownedBy i u) (rows db)) as [|x l] eqn:Hf; [| eauto].
  assert (In r (filter (ownedBy i u) (rows db))) as Hr by (apply filter_In; auto).
  rewrite Hf in Hr. destruct Hr.
Qed.

Lemma shortCodeTaken_is_distinct :
  ~ In msgShortCodeTaken
      [msgUnauthorized; msgInvalidUrl; msgShortCodeMin; msgShortCodeMax;
       msgShortCodeRegex; msgNotFoundOrNotOwned; msgCreateFailed;
       msgUpdateFailed; msgDeleteFailed].
Proof.
  intros H. repeat (destruct H as [H | H]; [discriminate H |]). exact H.
Qed.

Section Ownership.

Variable isUrl : string -> bool.
Variable pgMessage : PgError -> string.

(** C3, as the code has it.  For a signed-in caller and a target [id], an
    integer in the range of the [integer] column, that no row of the caller
    carries (no such row at all, or a row of another user): delete fails
    with "Link not found or not owned by user"; edit fails with the same
    message once its input has passed validation, and with the first
    validation issue otherwise; in every case the store is unchanged. *)
Theorem not_owned_is_not_found :
  forall (auth : option string) (u : string) (now : Z) (db : Db)
         (i : Z) (url' code : string),
    signedIn auth = Some u ->
    int4 i ->
    (forall r, In r (rows db) -> id r = i -> userId r <> u) ->
    deleteLinkAction auth db (DeleteLinkInput.mk i)
      = (Failure msgNotFoundOrNotOwned, db) /\
    (editLinkSchema isUrl i url' code = [] ->
       editLink isUrl pgMessage auth now db (EditLinkInput.mk i url' code)
         = (Failure msgNotFoundOrNotOwned, db)) /\
    (forall issue rest,
       editLinkSchema isUrl i url' code = issue :: rest ->
       editLink isUrl pgMessage auth now db (EditLinkInput.mk i url' code)
         = (Failure issue, db)).
Proof.
  intros auth u now db i url' code Hu _ Hnone.
  pose proof (selectOwned_none db i u Hnone) as Hsel.
  split; [| split].
  - unfold deleteLinkAction. rewrite Hu. cbn [deleteLinkSchema idIssues DeleteLinkInput.id].
    unfold deleteLinkById. rewrite Hsel. reflexivity.
  - intros Hs. unfold editLink. rewrite Hu.
    cbn [EditLinkInput.id EditLinkInput.url EditLinkInput.shortCode]. rewrite Hs.
    unfold updateLink. rewrite Hsel. reflexivity.
  - intros issue rest Hs. eapply editLink_rejects; [exact Hu | exact Hs].
Qed.

(** What the [catch] clauses are written for.  Provided the error of a
    unique violation mentions "unique" (as PostgreSQL's own message does),
    for a signed-in caller and an input that
    passes validation: a create whose short code some Link already has
    fails with "This short code is already in use. Please try another
    one." whatever the url and the caller, and adds no row; an edit of a
    Link of the caller to a short code that another Link has fails with the
    same message and leaves the store unchanged; and that message is none
    of the other messages of the actions. *)
Theorem used_short_code_is_refused :
  forall (auth : option string) (u : string) (now : Z) (db : Db)
         (url' code : string),
    (forall c, includes (pgMessage (UniqueViolation c)) "unique" = true) ->
    signedIn auth = Some u ->
    createLinkSchema isUrl url' code = [] ->
    (exists o, In o (rows db) /\ shortCode o = code) ->
    (fst (createLink isUrl pgMessage auth now db (CreateLinkInput.mk url' code))
       = Failure msgShortCodeTaken /\
     rows (snd (createLink isUrl pgMessage auth now db (CreateLinkInput.mk url' code)))
       = rows db) /\
    (forall i,
       (exists r, In r (rows db) /\ id r = i /\ userId r = u) ->
       (exists o, In o (rows db) /\ shortCode o = code /\ id o <> i) ->
       editLink isUrl pgMessage auth now db (EditLinkInput.mk i url' code)
         = (Failure msgShortCodeTaken, db)) /\
    ~ In msgShortCodeTaken
        [msgUnauthorized; msgInvalidUrl; msgShortCodeMin; msgShortCodeMax;
         msgShortCodeRegex; msgNotFoundOrNotOwned; msgCreateFailed;
         msgUpdateFailed; msgDeleteFailed].
Proof.
  intros auth u now db url' code Hmsg Hu Hs [o [Ho Hco]].
  pose proof Hs as Hok. apply createLinkSchema_ok in Hok.
  destruct Hok as [_ [[_ Hlen] _]].
  split; [| split; [| exact shortCodeTaken_is_distinct]].
  - unfold createLink. rewrite Hu.
    cbn [CreateLinkInput.url CreateLinkInput.shortCode]. rewrite Hs.
    unfold insertLink, insertRow, raise.
    cbn [shortCode id NewLink.shortCode NewLink.url NewLink.userId].
    assert ((20 <? strlen code) = false) as -> by (apply Z.ltb_ge; exact Hlen).
    destruct (existsb _ (rows db)).
    + rewrite Hmsg. split; reflexivity.
    + assert (existsb (hasShortCode code) (rows db) = true) as ->.
      { apply existsb_exists. exists o. split; [exact Ho |].
        unfold hasShortCode. apply String.eqb_eq. exact Hco. }
      rewrite Hmsg. split; reflexivity.
  - intros i [r (Hr & Hid & Hru)] [o' (Ho' & Hco' & Hio')].
    assert (ownedBy i u r = true) as Hown by (apply ownedBy_true; split; assumption).
    destruct (selectOwned_some db i u r Hr Hown) as (x & l & Hsel).
    unfold editLink. rewrite Hu.
    cbn [EditLinkInput.id EditLinkInput.url EditLinkInput.shortCode].
    rewrite editLinkSchema_same, Hs.
    unfold updateLink. rewrite Hsel. unfold updateOwned.
    rewrite (updateRows_conflict (ownedBy i u) url' code now Hlen).
    + unfold raise. rewrite Hmsg. reflexivity.
    + exists r. split; assumption.
    + exists o'. simpl. split; [exact Ho' |]. split; [| exact Hco'].
      destruct (ownedBy i u o') eqn:E; [| reflexivity].
      apply ownedBy_true in E. destruct E as [E _]. contradiction.
Qed.

(** The friendly message rests on the word "unique" in the error: a
    unique violation whose message lacks it is passed through as it is. *)
Lemma unique_violation_without_the_word :
  forall (auth : option string) (u : string) (now : Z) (db : Db)
         (url' code : string) (o : Link),
    includes (pgMessage (UniqueViolation links_short_code_unique)) "unique" = false ->
    signedIn auth = Some u ->
    createLinkSchema isUrl url' code = [] ->
    In o (rows db) -> shortCode o = code ->
    (forall r, In r (rows db) -> id r <> nextId db) ->
    fst (createLink isUrl pgMessage auth now db (CreateLinkInput.mk url' code))
      = Failure (pgMessage (UniqueViolation links_short_code_unique)).
Proof.
  intros auth u now db url' code o Hmsg Hu Hs Ho Hco Hfresh.
  pose proof Hs as Hok. apply createLinkSchema_ok in Hok.
  destruct Hok as [_ [[_ Hlen] _]].
  unfold createLink. rewrite Hu.
  cbn [CreateLinkInput.url CreateLinkInput.shortCode]. rewrite Hs.
  unfold insertLink, insertRow, raise.
  cbn [shortCode id NewLink.shortCode NewLink.url NewLink.userId].
  assert ((20 <? strlen code) = false) as -> by (apply Z.ltb_ge; exact Hlen).
  assert (existsb (fun x => id x =? nextId db) (rows db) = false) as ->.
  { destruct (existsb (fun x => id x =? nextId db) (rows db)) eqn:E; [| reflexivity].
    apply existsb_exists in E. destruct E as (x & Hx & Hid).
    apply Z.eqb_eq in Hid. exfalso. exact (Hfresh x Hx Hid). }
  assert (existsb (hasShortCode code) (rows db) = true) as ->.
  { apply existsb_exists. exists o. split; [exact Ho |].
    unfold hasShortCode. apply String.eqb_eq. exact Hco. }
  rewrite Hmsg. reflexivity.
Qed.

End Ownership.

(** C1 on the scenario: after the six requests the short codes are still
    distinct. *)
Lemma short_codes_stay_unique_witness :
  uniqueShortCodes emptyDb /\
  uniqueShortCodes (serveAll httpUrl postgresMessage emptyDb demoRequests).
Proof.
  assert (uniqueShortCodes emptyDb) as H by constructor.
  split; [exact H |].
  apply (short_codes_stay_unique httpUrl postgresMessage emptyDb H).
Defined.

(** C3 on the scenario: user B edits the link with id 5 of user A. *)
Lemma not_owned_is_not_found_witness :
  signedIn (Some "userB") = Some "userB" /\
  int4 5 /\
  (forall r, In r (rows scenarioDb) -> id r = 5 -> userId r <> "userB") /\
  editLink httpUrl postgresMessage (Some "userB") 20 scenarioDb
    (EditLinkInput.mk 5 "https://b.com" "mine")
    = (Failure msgNotFoundOrNotOwned, scenarioDb).
Proof.
  assert (forall r, In r (rows scenarioDb) -> id r = 5 -> userId r <> "userB") as H.
  { intros r [<- | []] _. discriminate. }
  assert (int4 5) as Hrange by (unfold int4; lia).
  split; [reflexivity |]. split; [exact Hrange |]. split; [exact H |].
  apply (not_owned_is_not_found httpUrl postgresMessage (Some "userB") "userB" 20
           scenarioDb 5 "https://b.com" "mine" eq_refl Hrange H).
  reflexivity.
Defined.

(** C3 as stated fails: user B edits the link with id 5 of user A with a
    short code of two characters.  Whatever the URL parser says of the url,
    the result is a validation failure, not "Link not found or not owned
    by user". *)
Lemma not_owned_edit_can_fail_validation :
  signedIn (Some "userB") = Some "userB" /\
  (forall r, In r (rows scenarioDb) -> id r = 5 -> userId r <> "userB") /\
  (forall isUrl pgMessage, exists msg,
      editLink isUrl pgMessage (Some "userB") 20 scenarioDb
        (EditLinkInput.mk 5 "https://example.com" "ab")
        = (Failure msg, scenarioDb) /\
      msg <> msgNotFoundOrNotOwned).
Proof.
  split; [reflexivity |]. split.
  - intros r [<- | []] _. discriminate.
  - intros isUrl pgMessage. unfold editLink, editLinkSchema, createLinkSchema.
    cbn [signedIn String.eqb Ascii.eqb Bool.eqb EditLinkInput.id EditLinkInput.url
         EditLinkInput.shortCode].
    destruct (isUrl "https://example.com").
    + exists msgShortCodeMin. split; [reflexivity | discriminate].
    + exists msgInvalidUrl. split; [reflexivity | discriminate].
Qed.

Lemma postgresMessage_mentions_unique (c : string) :
  includes (postgresMessage (UniqueViolation c)) "unique" = true.
Proof. reflexivity. Qed.

(** On the scenario, with PostgreSQL's own message: user B creates a link
    with the short code of user A's link. *)
Lemma used_short_code_is_refused_witness :
  (forall c, includes (postgresMessage (UniqueViolation c)) "unique" = true) /\
  signedIn (Some "userB") = Some "userB" /\
  createLinkSchema httpUrl "https://b.com" "abc123" = [] /\
  (exists o, In o (rows scenarioDb) /\ shortCode o = "abc123") /\
  fst (createLink httpUrl postgresMessage (Some "userB") 20 scenarioDb
         (CreateLinkInput.mk "https://b.com" "abc123"))
    = Failure msgShortCodeTaken.
Proof.
  assert (exists o, In o (rows scenarioDb) /\ shortCode o = "abc123") as Hex.
  { eexists. split; [left; reflexivity | reflexivity]. }
  split; [exact postgresMessage_mentions_unique |].
  split; [reflexivity |]. split; [reflexivity |]. split; [exact Hex |].
  apply (used_short_code_is_refused httpUrl postgresMessage (Some "userB") "userB" 20
           scenarioDb "https://b.com" "abc123"
           postgresMessage_mentions_unique eq_refl eq_refl Hex).
Defined.

(** C6 does not hold of the code as it is deployed.  The actions look for
    the word "unique" in [error.message], but the store layer they call
    (drizzle-orm, in the version the repository names) throws "Failed
    query: ..." and keeps PostgreSQL's text in the cause.  So a signed-in
    user B who creates a link with the short code "abc123" of user A's
    link, or edits a link of their own onto it, gets the raw text of the
    store layer, not "This short code is already in use. Please try another
    one."; no row is added or changed. *)
Lemma taken_short_code_returns_the_raw_store_error :
  createLink httpUrl failedQueryMessage (Some "userB") 30 scenarioDb
    (CreateLinkInput.mk "https://b.com" "abc123")
    = (Failure "Failed query", mkDb (rows scenarioDb) 7) /\
  editLink httpUrl failedQueryMessage (Some "userB") 30 conflictDb
    (EditLinkInput.mk 6 "https://b.com" "abc123")
    = (Failure "Failed query", conflictDb) /\
  "Failed query" <> msgShortCodeTaken /\
  includes "Failed query" "unique" = false.
Proof.
  split; [reflexivity |]. split; [reflexivity |]. split; [discriminate | reflexivity].
Qed.

(** ** Timestamps *)

Section Timestamps.

Variable isUrl : string -> bool.
Variable pgMessage : PgError -> string.

Lemma insertRow_timely (t now : Z) (db : Db) (data : NewLink.t) :
  t <= now -> timely t db -> timely now (snd (insertRow pgMessage now db data)).
Proof.
  intros Ht H.
  assert (timely now db) as Hnow by (intros r Hr; specialize (H r Hr); lia).
  unfold insertRow. cbn [shortCode id].
  destruct (20 <? strlen (NewLink.shortCode data)); [exact Hnow |].
  destruct (existsb _ (rows db)); [exact Hnow |].
  destruct (existsb _ (rows db)); [exact Hnow |].
  intros r Hr. cbn [snd rows] in Hr. apply in_app_or in Hr.
  destruct Hr as [Hr | [<- | []]]; [exact (Hnow r Hr) |]. simpl. lia.
Qed.

Lemma updateOwned_timely (t now : Z) (db : Db) (i : Z) (u url' code : string) :
  t <= now -> timely t db ->
  timely now (snd (updateOwned pgMessage now db i u url' code)).
Proof.
  intros Ht H.
  assert (timely now db) as Hnow by (intros r Hr; specialize (H r Hr); lia).
  unfold updateOwned.
  destruct (updateRows _ _ [] (rows db)) as [e | [ret tbl]] eqn:Hup; [exact Hnow |].
  apply updateRows_inr in Hup. destruct Hup as [-> _].
  intros r Hr. cbn [snd rows app] in Hr. apply in_map_iff in Hr.
  destruct Hr as (old & <- & Hold). specialize (H old Hold).
  destruct (ownedBy i u old); simpl; lia.
Qed.

Lemma deleteOwned_timely (t : Z) (db : Db) (i : Z) (u : string) :
  timely t db -> timely t (deleteOwned db i u).
Proof.
  intros H r Hr. unfold deleteOwned in Hr. cbn [rows] in Hr.
  apply filter_In in Hr. apply H, Hr.
Qed.

Lemma serve_timely (t : Z) (db : Db) (rq : Request) :
  t <= time rq -> timely t db -> timely (time rq) (serve isUrl pgMessage db rq).
Proof.
  intros Ht H.
  destruct (serve_cases isUrl pgMessage db rq)
    as [-> | [(u & url' & code & _ & _ & ->) | [(i & u & url' & code & _ & _ & ->) | (i & u & ->)]]].
  - intros r Hr. specialize (H r Hr). lia.
  - eapply insertRow_timely; eassumption.
  - eapply updateOwned_timely; eassumption.
  - apply deleteOwned_timely. intros r Hr. specialize (H r Hr). lia.
Qed.

Lemma serveAll_timely (rqs : list Request) :
  forall (t : Z) (db : Db),
    neverBackwards t (map time rqs) -> timely t db ->
    exists t', timely t' (serveAll isUrl pgMessage db rqs).
Proof.
  unfold serveAll. induction rqs as [|rq rqs IH]; intros t db Hts H; simpl.
  - exists t. exact H.
  - destruct Hts as [Ht Hts]. eapply IH; [exact Hts |].
    apply (serve_timely t); assumption.
Qed.

(** A created Link is the row just inserted, stamped [now] twice. *)
Lemma createLink_success (auth : option string) (now : Z) (db db' : Db)
    (input : CreateLinkInput.t) (l : Link) :
  createLink isUrl pgMessage auth now db input = (Success l, db') ->
  createdAt l = now /\ updatedAt l = now /\ In l (rows db').
Proof.
  unfold createLink. destruct (signedIn auth) as [u|]; [| discriminate].
  destruct (createLinkSchema isUrl _ _); [| discriminate].
  unfold insertLink, insertRow, raise. cbn [shortCode id NewLink.shortCode].
  destruct (20 <? strlen _);
    [destruct (includes _ "unique"); discriminate |].
  destruct (existsb _ (rows db));
    [destruct (includes _ "unique"); discriminate |].
  destruct (existsb _ (rows db));
    [destruct (includes _ "unique"); discriminate |].
  intros H. inversion H; subst. cbn [createdAt updatedAt rows].
  split; [reflexivity |]. split; [reflexivity |].
  apply in_or_app. right. left. reflexivity.
Qed.

(** An edited Link is a row of the caller with the new fields and the time
    of the edit. *)
Lemma editLink_success (auth : option string) (now : Z) (db db' : Db)
    (input : EditLinkInput.t) (l : Link) :
  editLink isUrl pgMessage auth now db input = (Success l, db') ->
  exists u old,
    signedIn auth = Some u /\ In old (rows db) /\
    ownedBy (EditLinkInput.id input) u old = true /\
    l = setFields (EditLinkInput.url input) (EditLinkInput.shortCode input) now old /\
    In l (rows db').
Proof.
  unfold editLink. destruct (signedIn auth) as [u|]; [| discriminate].
  destruct (editLinkSchema isUrl _ _ _); [| discriminate].
  unfold updateLink. destruct (selectOwned db _ u); [discriminate |].
  unfold updateOwned, raise.
  destruct (updateRows _ _ [] (rows db)) as [e | [ret tbl]] eqn:Hup;
    [destruct (includes _ "unique"); discriminate |].
  apply updateRows_inr in Hup. destruct Hup as [-> ->].
  destruct (filter _ (rows db)) as [|old olds] eqn:Hf; [discriminate |].
  cbn [map hd_error]. intros H. inversion H; subst.
  assert (In old (filter (ownedBy (EditLinkInput.id input) u) (rows db))) as Hold
    by (rewrite Hf; left; reflexivity).
  apply filter_In in Hold. destruct Hold as [Hin Hown].
  exists u, old. repeat split; try assumption.
  cbn [rows app]. apply in_map_iff. exists old. rewrite Hown. split; [reflexivity | exact Hin].
Qed.

(** C9. With a clock that never goes backwards, [updatedAt >= createdAt]
    holds of every row after every sequence of requests, from any store in
    which it holds with no row touched later than the first request; a
    created Link has [updatedAt = createdAt]; and a successful edit returns
    a row of the store with [updatedAt] set to the time of the edit and
    with the [createdAt] (and [id] and [userId]) of the row it edited. *)
Theorem updatedAt_not_before_createdAt :
  forall (t0 : Z) (db : Db) (rqs : list Request),
    (forall r, In r (rows db) -> createdAt r <= updatedAt r /\ updatedAt r <= t0) ->
    neverBackwards t0 (map time rqs) ->
    (forall r, In r (rows (serveAll isUrl pgMessage db rqs)) ->
       createdAt r <= updatedAt r) /\
    (forall auth now input l db',
       createLink isUrl pgMessage auth now db input = (Success l, db') ->
       updatedAt l = createdAt l /\ In l (rows db')) /\
    (forall auth now input l db',
       editLink isUrl pgMessage auth now db input = (Success l, db') ->
       updatedAt l = now /\ In l (rows db') /\
       exists old, In old (rows db) /\ id old = EditLinkInput.id input /\
         createdAt l = createdAt old /\ id l = id old /\ userId l = userId old).
Proof.
  intros t0 db rqs Hdb Hts. split; [| split].
  - destruct (serveAll_timely rqs t0 db Hts Hdb) as [t' Ht'].
    intros r Hr. apply Ht', Hr.
  - intros auth now input l db' H. apply createLink_success in H.
    destruct H as (Hc & Hu & Hin). split; [congruence | exact Hin].
  - intros auth now input l db' H. apply editLink_success in H.
    destruct H as (u & old & _ & Hold & Hown & -> & Hin).
    apply ownedBy_true in Hown. destruct Hown as [Hid _].
    split; [reflexivity |]. split; [exact Hin |].
    exists old. repeat split; assumption.
Qed.

End Timestamps.

(** C9 on the scenario, with the request times 10 to 15. *)
Lemma updatedAt_not_before_createdAt_witness :
  (forall r, In r (rows emptyDb) -> createdAt r <= updatedAt r /\ updatedAt r <= 0) /\
  neverBackwards 0 (map time demoRequests) /\
  (forall r, In r (rows (serveAll httpUrl postgresMessage emptyDb demoRequests)) ->
     createdAt r <= updatedAt r).
Proof.
  assert (forall r, In r (rows emptyDb) -> createdAt r <= updatedAt r /\ updatedAt r <= 0)
    as Hdb by (intros r []).
  assert (neverBackwards 0 (map time demoRequests)) as Hts by (simpl; lia).
  split; [exact Hdb |]. split; [exact Hts |].
  apply (updatedAt_not_before_createdAt httpUrl postgresMessage 0 emptyDb demoRequests
           Hdb Hts).
Defined.

(** ** The redirect route *)

Lemma getLinkByShortCode_found (db : Db) (code : string) (l : Link) :
  uniqueShortCodes db -> In l (rows db) -> shortCode l = code ->
  getLinkByShortCode db code = Some l.
Proof.
  unfold uniqueShortCodes, getLinkByShortCode.
  induction (rows db) as [|r rest IH]; intros Hnd Hin Hcode; [destruct Hin |].
  simpl in Hnd. inversion Hnd as [|? ? Hnotin Hnd']; subst. simpl.
  destruct Hin as [-> | Hin].
  - unfold hasShortCode. rewrite String.eqb_refl. reflexivity.
  - destruct (hasShortCode (shortCode l) r) eqn:Hr.
    + exfalso. apply Hnotin. unfold hasShortCode in Hr. apply String.eqb_eq in Hr.
      rewrite Hr. apply in_map, Hin.
    + apply IH; [exact Hnd' | exact Hin | reflexivity].
Qed.

Lemma getLinkByShortCode_none (db : Db) (code : string) :
  (forall l, In l (rows db) -> shortCode l <> code) ->
  getLinkByShortCode db code = None.
Proof.
  intros H. unfold getLinkByShortCode.
  destruct (find (hasShortCode code) (rows db)) as [l|] eqn:Hf; [| reflexivity].
  apply find_some in Hf. destruct Hf as [Hin Hc].
  unfold hasShortCode in Hc. apply String.eqb_eq in Hc.
  exfalso. exact (H l Hin Hc).
Qed.

Lemma getLinkByShortCode_some (db : Db) (code : string) (l : Link) :
  getLinkByShortCode db code = Some l -> In l (rows db) /\ shortCode l = code.
Proof.
  unfold getLinkByShortCode. intros Hf. apply find_some in Hf.
  destruct Hf as [Hin Hc]. unfold hasShortCode in Hc. apply String.eqb_eq in Hc.
  split; assumption.
Qed.

Section Route.

Variable isUrl : string -> bool.
Variable pgMessage : PgError -> string.

Lemma serve_urlsParse (db : Db) (rq : Request) :
  urlsParse isUrl db -> urlsParse isUrl (serve isUrl pgMessage db rq).
Proof.
  intros H.
  destruct (serve_cases isUrl pgMessage db rq)
    as [-> | [(u & url' & code & Hurl & _ & ->) | [(i & u & url' & code & Hurl & _ & ->) | (i & u & ->)]]].
  - exact H.
  - unfold insertRow. cbn [shortCode id NewLink.shortCode NewLink.url NewLink.userId].
    destruct (20 <? strlen code); [exact H |].
    destruct (existsb _ (rows db)); [exact H |].
    destruct (existsb _ (rows db)); [exact H |].
    intros r Hr. cbn [snd rows] in Hr. apply in_app_or in Hr.
    destruct Hr as [Hr | [<- | []]]; [exact (H r Hr) | exact Hurl].
  - unfold updateOwned.
    destruct (updateRows _ _ [] (rows db)) as [e | [ret tbl]] eqn:Hup; [exact H |].
    apply updateRows_inr in Hup. destruct Hup as [-> _].
    intros r Hr. cbn [snd rows app] in Hr. apply in_map_iff in Hr.
    destruct Hr as (old & <- & Hold).
    destruct (ownedBy i u old); [exact Hurl | exact (H old Hold)].
  - intros r Hr. unfold deleteOwned in Hr. cbn [rows] in Hr.
    apply filter_In in Hr. apply H, Hr.
Qed.

Lemma serveAll_urlsParse (rqs : list Request) :
  forall db, urlsParse isUrl db -> urlsParse isUrl (serveAll isUrl pgMessage db rqs).
Proof.
  unfold serveAll. induction rqs as [|rq rqs IH]; intros db H; simpl; [exact H |].
  apply IH, serve_urlsParse, H.
Qed.

(** C4.  In a store reached by create, edit and delete requests (from one
    with distinct short codes and validated urls), [GET] answers a short
    code that a Link has with a 307 redirect to the url of that Link,
    whoever owns it, and a short code that no Link has with the 404 JSON
    body [{"error": "Link not found"}]; it has no other outcome. *)
Theorem resolve_redirects_or_404 :
  forall (db : Db) (rqs : list Request) (code : string),
    uniqueShortCodes db ->
    urlsParse isUrl db ->
    (forall l, In l (rows (serveAll isUrl pgMessage db rqs)) -> shortCode l = code ->
       GET isUrl (serveAll isUrl pgMessage db rqs) code = inr (Redirect (url l) 307)) /\
    ((forall l, In l (rows (serveAll isUrl pgMessage db rqs)) -> shortCode l <> code) ->
       GET isUrl (serveAll isUrl pgMessage db rqs) code
         = inr (Json "error" "Link not found" 404)) /\
    ((exists l, In l (rows (serveAll isUrl pgMessage db rqs)) /\ shortCode l = code /\
        GET isUrl (serveAll isUrl pgMessage db rqs) code = inr (Redirect (url l) 307)) \/
     ((forall l, In l (rows (serveAll isUrl pgMessage db rqs)) -> shortCode l <> code) /\
        GET isUrl (serveAll isUrl pgMessage db rqs) code
          = inr (Json "error" "Link not found" 404))).
Proof.
  intros db rqs code Hnd Hurls.
  pose proof (serveAll_unique isUrl pgMessage rqs db Hnd) as Hnd'.
  pose proof (serveAll_urlsParse rqs db Hurls) as Hurls'.
  set (db' := serveAll isUrl pgMessage db rqs) in *.
  assert (Hfound : forall l, In l (rows db') -> shortCode l = code ->
            GET isUrl db' code = inr (Redirect (url l) 307)).
  { intros l Hin Hc. unfold GET, NextResponse_redirect.
    rewrite (getLinkByShortCode_found db' code l Hnd' Hin Hc).
    rewrite (Hurls' l Hin). reflexivity. }
  assert (Hmissing : (forall l, In l (rows db') -> shortCode l <> code) ->
            GET isUrl db' code = inr (Json "error" "Link not found" 404)).
  { intros Hno. unfold GET. rewrite (getLinkByShortCode_none db' code Hno). reflexivity. }
  split; [exact Hfound |]. split; [exact Hmissing |].
  destruct (getLinkByShortCode db' code) as [l|] eqn:Hget.
  - apply getLinkByShortCode_some in Hget. destruct Hget as [Hin Hc].
    left. exists l. auto.
  - right. assert (forall l, In l (rows db') -> shortCode l <> code) as Hno.
    { intros l Hin Hc. unfold getLinkByShortCode in Hget.
      apply (find_none _ _ Hget) in Hin. unfold hasShortCode in Hin.
      apply String.eqb_neq in Hin. contradiction. }
    auto.
Qed.

(** C10.  No format check guards the route: on a store reached by create,
    edit and delete requests (from one with validated urls), [GET] returns
    a response for every string, be it empty, too short, too long or made
    of other characters: the 404 JSON body or a 307 redirect; it never
    throws. *)
Theorem resolve_never_throws :
  forall (db : Db) (rqs : list Request) (shortcode : string),
    urlsParse isUrl db ->
    exists resp,
      GET isUrl (serveAll isUrl pgMessage db rqs) shortcode = inr resp /\
      (resp = Json "error" "Link not found" 404 \/
       exists target, resp = Redirect target 307).
Proof.
  intros db rqs shortcode Hurls.
  pose proof (serveAll_urlsParse rqs db Hurls) as Hurls'.
  unfold GET, NextResponse_redirect.
  destruct (getLinkByShortCode _ shortcode) as [l|] eqn:Hget.
  - apply getLinkByShortCode_some in Hget. destruct Hget as [Hin _].
    rewrite (Hurls' l Hin). eexists. split; [reflexivity |]. right. eexists. reflexivity.
  - eexists. split; [reflexivity |]. left. reflexivity.
Qed.

End Route.

(** C4 on the round trip: the created short code redirects to its url. *)
Lemma resolve_redirects_or_404_witness :
  uniqueShortCodes emptyDb /\
  urlsParse httpUrl emptyDb /\
  GET httpUrl (serveAll httpUrl postgresMessage emptyDb roundTripRequests) "abc123"
    = inr (Redirect "https://example.com" 307).
Proof.
  assert (uniqueShortCodes emptyDb) as Hnd by constructor.
  assert (urlsParse httpUrl emptyDb) as Hurls by (intros r []).
  split; [exact Hnd |]. split; [exact Hurls |].
  apply (proj1 (resolve_redirects_or_404 httpUrl postgresMessage emptyDb
                  roundTripRequests "abc123" Hnd Hurls)
               (mkLink 1 "userA" "abc123" "https://example.com" 10 10)).
  - left. reflexivity.
  - reflexivity.
Defined.

(** C10 on the scenario: a string no schema would accept gets a response. *)
Lemma resolve_never_throws_witness :
  urlsParse httpUrl emptyDb /\
  exists resp,
    GET httpUrl (serveAll httpUrl postgresMessage emptyDb demoRequests) "?!" = inr resp /\
    (resp = Json "error" "Link not found" 404 \/
     exists target, resp = Redirect target 307).
Proof.
  assert (urlsParse httpUrl emptyDb) as Hurls by (intros r []).
  split; [exact Hurls |].
  apply (resolve_never_throws httpUrl postgresMessage emptyDb demoRequests "?!" Hurls).
Defined.

(** ** The listing *)

Lemma insertDesc_perm (key : Link -> Z) (x : Link) (l : list Link) :
  Permutation (x :: l) (insertDesc key x l).
Proof.
  induction l as [|y l IH]; simpl; [reflexivity |].
  destruct (key y <? key x); [reflexivity |].
  rewrite perm_swap. apply perm_skip, IH.
Qed.

Lemma orderByDesc_perm (key : Link -> Z) (l : list Link) :
  Permutation l (orderByDesc key l).
Proof.
  induction l as [|x l IH]; simpl; [constructor |].
  rewrite <- insertDesc_perm. apply perm_skip, IH.
Qed.

Lemma insertDesc_sorted (key : Link -> Z) (x : Link) (l : list Link) :
  StronglySorted (fun a b => key b <= key a) l ->
  StronglySorted (fun a b => key b <= key a) (insertDesc key x l).
Proof.
  induction 1 as [|y l Hsorted IH Hall]; simpl.
  - constructor; constructor.
  - destruct (key y <? key x) eqn:Hlt.
    + apply Z.ltb_lt in Hlt. constructor.
      * constructor; assumption.
      * constructor; [lia |].
        eapply Forall_impl; [| exact Hall]. simpl. intros b Hb. lia.
    + apply Z.ltb_ge in Hlt. constructor; [exact IH |].
      apply (Permutation_Forall (insertDesc_perm key x l)).
      constructor; assumption.
Qed.

Lemma orderByDesc_sorted (key : Link -> Z) (l : list Link) :
  StronglySorted (fun a b => key b <= key a) (orderByDesc key l).
Proof.
  induction l as [|x l IH]; simpl; [constructor |].
  apply insertDesc_sorted, IH.
Qed.

(** C8.  [getUserLinks db u] is a rearrangement of the rows of [db] whose
    [userId] is [u], nothing more and nothing less, ordered by [updatedAt]
    from the latest to the earliest; for a user without links it is the
    empty list. *)
Theorem getUserLinks_own_links_latest_first :
  forall (db : Db) (u : string),
    Permutation (filter (fun r => (userId r =? u)%string) (rows db))
                (getUserLinks db u) /\
    (forall r, In r (getUserLinks db u) <-> In r (rows db) /\ userId r = u) /\
    StronglySorted (fun a b => updatedAt b <= updatedAt a) (getUserLinks db u) /\
    ((forall r, In r (rows db) -> userId r <> u) -> getUserLinks db u = []).
Proof.
  intros db u. unfold getUserLinks.
  set (own := filter (fun r => (userId r =? u)%string) (rows db)).
  pose proof (orderByDesc_perm updatedAt own) as Hperm.
  split; [exact Hperm |]. split; [| split].
  - intros r. split.
    + intros Hin. apply (Permutation_in r (Permutation_sym Hperm)) in Hin.
      apply filter_In in Hin. rewrite String.eqb_eq in Hin. exact Hin.
    + intros Hin. apply (Permutation_in r Hperm).
      apply filter_In. rewrite String.eqb_eq. exact Hin.
  - apply orderByDesc_sorted.
  - intros Hnone. assert (own = []) as ->; [| reflexivity].
    subst own. destruct (filter _ (rows db)) as [|r l] eqn:Hf; [reflexivity |].
    assert (In r (filter (fun r => (userId r =? u)%string) (rows db))) as Hin
      by (rewrite Hf; left; reflexivity).
    apply filter_In in Hin. rewrite String.eqb_eq in Hin.
    destruct Hin as [Hin Hu]. exfalso. exact (Hnone r Hin Hu).
Qed.

(** ** Concurrent update and delete calls *)

Lemma filter_outside_update (q p : Link -> bool) (f : Link -> Link) (l : list Link) :
  (forall r, q r = true -> p r = false) ->
  (forall r, p (f r) = p r) ->
  filter q (map (fun r => if p r then f r else r) l) = filter q l.
Proof.
  intros Hq Hf. induction l as [|r l IH]; simpl; [reflexivity |].
  rewrite IH. destruct (p r) eqn:Hp; [| reflexivity].
  assert (q r = false) as ->.
  { destruct (q r) eqn:E; [| reflexivity]. apply Hq in E. congruence. }
  assert (q (f r) = false) as ->; [| reflexivity].
  destruct (q (f r)) eqn:E; [| reflexivity]. apply Hq in E. rewrite Hf in E. congruence.
Qed.

Lemma filter_outside_delete (q p : Link -> bool) (l : list Link) :
  (forall r, q r = true -> p r = false) ->
  filter q (filter (fun r => negb (p r)) l) = filter q l.
Proof.
  intros Hq. induction l as [|r l IH]; simpl; [reflexivity |].
  destruct (p r) eqn:Hp; simpl.
  - rewrite IH. destruct (q r) eqn:E; [| reflexivity]. apply Hq in E. congruence.
  - rewrite IH. reflexivity.
Qed.

Lemma ownedBy_setFields (i : Z) (u url' code : string) (now : Z) (r : Link) :
  ownedBy i u (setFields url' code now r) = ownedBy i u r.
Proof. reflexivity. Qed.

Lemma setTask_In (n : nat) (t t' : Task) (pool : list Task) :
  In t' (setTask n t pool) -> t' = t \/ In t' pool.
Proof.
  revert n. induction pool as [|t0 pool IH]; intros n H; destruct n as [|n];
    simpl in H; try (destruct H; fail).
  - destruct H as [<- | H]; [left; reflexivity | right; right; exact H].
  - destruct H as [<- | H]; [right; left; reflexivity |].
    apply IH in H. destruct H; [left; assumption | right; right; assumption].
Qed.

Section Interleavings.

Variable pgMessage : PgError -> string.

(** One after the other, the statements of a call are the data-layer
    function. *)
Lemma updateLink_is_check_then_write (now : Z) (db : Db) (i : Z) (u url' code : string) :
  let (t1, db1) := advance pgMessage now db (UpdateCheck i u url' code) in
  let (t2, db2) := advance pgMessage now db1 t1 in
  (t2, db2) = (UpdateReturned (fst (updateLink pgMessage now db i u url' code)),
               snd (updateLink pgMessage now db i u url' code)).
Proof.
  unfold updateLink. cbn [advance].
  destruct (selectOwned db i u); [reflexivity |]. cbn [advance].
  destruct (updateOwned pgMessage now db i u url' code) as [[e | returned] db']; reflexivity.
Qed.

Lemma deleteLinkById_is_check_then_write (now : Z) (db : Db) (i : Z) (u : string) :
  let (t1, db1) := advance pgMessage now db (DeleteCheck i u) in
  let (t2, db2) := advance pgMessage now db1 t1 in
  (t2, db2) = (DeleteReturned (fst (deleteLinkById db i u)), snd (deleteLinkById db i u)).
Proof.
  unfold deleteLinkById. cbn [advance].
  destruct (selectOwned db i u); reflexivity.
Qed.

(** A statement of a task leaves every row outside the task's [WHERE]
    clause where it was. *)
Lemma advance_outside (q : Link -> bool) (now : Z) (db : Db) (t : Task) :
  (forall r, q r = true -> inScope t r = false) ->
  filter q (rows (snd (advance pgMessage now db t))) = filter q (rows db).
Proof.
  intros Hq. destruct t as [i u url' code | i u url' code | res | i u | i u | res];
    cbn [advance inScope] in *; try reflexivity.
  - destruct (selectOwned db i u); reflexivity.
  - unfold updateOwned.
    destruct (updateRows _ _ [] (rows db)) as [e | [ret tbl]] eqn:Hup; [reflexivity |].
    apply updateRows_inr in Hup. destruct Hup as [-> _]. cbn [snd rows app].
    apply filter_outside_update; [exact Hq |]. intros r. apply ownedBy_setFields.
  - destruct (selectOwned db i u); reflexivity.
  - cbn [snd deleteOwned rows]. apply filter_outside_delete. exact Hq.
Qed.

(** The scope of a task never grows. *)
Lemma advance_scope (now : Z) (db : Db) (t : Task) (r : Link) :
  inScope t r = false -> inScope (fst (advance pgMessage now db t)) r = false.
Proof.
  destruct t as [i u url' code | i u url' code | res | i u | i u | res];
    cbn [advance inScope]; intros H; try exact H.
  - destruct (selectOwned db i u); [reflexivity | exact H].
  - destruct (updateOwned pgMessage now db i u url' code) as [[e | returned] db']; reflexivity.
  - destruct (selectOwned db i u); [reflexivity | exact H].
  - reflexivity.
Qed.

Lemma runSchedule_outside (q : Link -> bool) (schedule : list (nat * Z)) :
  forall (db : Db) (pool : list Task),
    (forall r, q r = true -> forall t, In t pool -> inScope t r = false) ->
    filter q (rows (fst (runSchedule pgMessage (db, pool) schedule))) = filter q (rows db).
Proof.
  unfold runSchedule. induction schedule as [|[n now] schedule IH]; intros db pool Hq;
    simpl; [reflexivity |].
  destruct (nth_error pool n) as [t|] eqn:Hn; [| apply IH, Hq].
  assert (In t pool) as Ht by (eapply nth_error_In; exact Hn).
  pose proof (advance_outside q now db t (fun r Hr => Hq r Hr t Ht)) as Hstep.
  pose proof (fun r => advance_scope now db t r) as Hscope.
  destruct (advance pgMessage now db t) as [t' db']. cbn [fst snd] in *.
  rewrite IH; [exact Hstep |].
  intros r Hr t'' Hin. apply setTask_In in Hin.
  destruct Hin as [-> | Hin]; [apply Hscope, (Hq r Hr t Ht) | apply (Hq r Hr t'' Hin)].
Qed.

(** C7, as the code has it.  [updateLink] and [deleteLinkById] run an
    ownership [SELECT] and then, as a second statement, a write whose
    [WHERE] clause again matches both [id] and [userId].  So each statement
    of a call leaves in place every row that does not carry the call's [id]
    and [userId] when the statement runs, and under every interleaving of
    update and delete calls the rows that none of the calls is scoped to
    are the same at the end as at the start. *)
Theorem writes_are_scoped_to_id_and_user :
  forall (db : Db) (pool : list Task) (schedule : list (nat * Z)),
    (forall now t,
       filter (fun r => negb (inScope t r)) (rows (snd (advance pgMessage now db t)))
         = filter (fun r => negb (inScope t r)) (rows db)) /\
    filter (fun r => forallb (fun t => negb (inScope t r)) pool)
           (rows (fst (runSchedule pgMessage (db, pool) schedule)))
      = filter (fun r => forallb (fun t => negb (inScope t r)) pool) (rows db).
Proof.
  intros db pool schedule. split.
  - intros now t. apply advance_outside. intros r Hr.
    apply negb_true_iff in Hr. exact Hr.
  - apply runSchedule_outside. intros r Hr t Ht.
    rewrite forallb_forall in Hr. specialize (Hr t Ht).
    apply negb_true_iff in Hr. exact Hr.
Qed.

End Interleavings.

(** C7 as stated fails: the ownership check and the write are two store
    statements, and statements of other calls run between them.  On the
    store with the link 5 of user A: the first statement of a delete or an
    update by user A only reads; two concurrent deletes of the link by
    user A, each past its check before the other writes, both return [true]
    although the second [DELETE] ran when the row was gone (one after the
    other, the second returns [false]); and an update whose check passed
    writes after a delete removed the row, and returns nothing. *)
Lemma ownership_check_and_write_are_two_statements :
  advance postgresMessage 20 scenarioDb (DeleteCheck 5 "userA")
    = (DeleteWrite 5 "userA", scenarioDb) /\
  advance postgresMessage 20 scenarioDb (UpdateCheck 5 "userA" "https://a.org" "new")
    = (UpdateWrite 5 "userA" "https://a.org" "new", scenarioDb) /\
  runSchedule postgresMessage
    (scenarioDb, [DeleteCheck 5 "userA"; DeleteCheck 5 "userA"])
    [(0%nat, 20); (1%nat, 20); (0%nat, 21); (1%nat, 22)]
    = (mkDb [] 6, [DeleteReturned true; DeleteReturned true]) /\
  deleteLinkById scenarioDb 5 "userA" = (true, mkDb [] 6) /\
  deleteLinkById (mkDb [] 6) 5 "userA" = (false, mkDb [] 6) /\
  runSchedule postgresMessage
    (scenarioDb, [UpdateCheck 5 "userA" "https://a.org" "new"; DeleteCheck 5 "userA"])
    [(0%nat, 20); (1%nat, 20); (1%nat, 21); (0%nat, 22)]
    = (mkDb [] 6, [UpdateReturned (inr None); DeleteReturned true]).
Proof.
  repeat split.
Qed.

(** ** The scenarios of the specification, run on the model *)

Example scenario_round_trip :
  GET httpUrl (serveAll httpUrl postgresMessage emptyDb roundTripRequests) "abc123"
    = inr (Redirect "https://example.com" 307) /\
  GET httpUrl (serveAll httpUrl postgresMessage emptyDb roundTripRequests) "never"
    = inr (Json "error" "Link not found" 404).
Proof. split; reflexivity. Qed.

Example scenario_duplicate_short_code :
  let db := serveAll httpUrl postgresMessage emptyDb
              [ mkRequest (Some "userA") 10
                  (CreateCall (CreateLinkInput.mk "https://a.com" "dup1")) ] in
  map shortCode (rows db) = ["dup1"] /\
  fst (createLink httpUrl postgresMessage (Some "userB") 11 db
         (CreateLinkInput.mk "https://b.com" "dup1"))
    = Failure msgShortCodeTaken /\
  fst (createLink httpUrl failedQueryMessage (Some "userB") 11 db
         (CreateLinkInput.mk "https://b.com" "dup1"))
    = Failure "Failed query".
Proof. repeat split. Qed.

Example scenario_after_all_requests :
  rows (serveAll httpUrl postgresMessage emptyDb demoRequests)
    = [ mkLink 1 "userA" "dup1" "https://a.org" 10 14;
        mkLink 3 "userB" "other" "https://b.com" 12 12 ].
Proof. reflexivity. Qed.

Example scenario_listing :
  getUserLinks
    (mkDb [ mkLink 1 "userA" "one" "https://a.com" 10 10;
            mkLink 2 "userB" "two" "https://b.com" 11 11;
            mkLink 3 "userA" "three" "https://c.com" 12 15;
            mkLink 4 "userA" "four" "https://d.com" 13 13 ] 5) "userA"
    = [ mkLink 3 "userA" "three" "https://c.com" 12 15;
        mkLink 4 "userA" "four" "https://d.com" 13 13;
        mkLink 1 "userA" "one" "https://a.com" 10 10 ] /\
  getUserLinks scenarioDb "userB" = [].
Proof. split; reflexivity. Qed.

(** * Further properties of the actions, the route, the dashboard and the
    seed script *)

(** ** Lists and lookups *)

Lemma existsb_none {A : Type} (f : A -> bool) (l : list A) :
  (forall x, In x l -> f x = false) -> existsb f l = false.
Proof.
  intros H. destruct (existsb f l) eqn:E; [| reflexivity].
  apply existsb_exists in E. destruct E as (x & Hx & Hfx).
  rewrite (H x Hx) in Hfx. discriminate.
Qed.

Lemma find_app_hit {A : Type} (p : A -> bool) (l : list A) (x : A) :
  (forall y, In y l -> p y = false) -> p x = true -> find p (l ++ [x]) = Some x.
Proof.
  intros Hl Hx. induction l as [|y l IH]; simpl.
  - rewrite Hx. reflexivity.
  - rewrite (Hl y (or_introl eq_refl)). apply IH. intros z Hz. apply Hl. right. exact Hz.
Qed.

Lemma find_app_miss {A : Type} (p : A -> bool) (l : list A) (x : A) :
  p x = false -> find p (l ++ [x]) = find p l.
Proof.
  intros Hx. induction l as [|y l IH]; simpl.
  - rewrite Hx. reflexivity.
  - destruct (p y); [reflexivity | exact IH].
Qed.

Lemma hasShortCode_false (code : string) (r : Link) :
  hasShortCode code r = false <-> shortCode r <> code.
Proof. unfold hasShortCode. apply String.eqb_neq. Qed.

Lemma getUserLinks_In (db : Db) (u : string) (r : Link) :
  In r (getUserLinks db u) <-> In r (rows db) /\ userId r = u.
Proof.
  unfold getUserLinks.
  set (own := filter (fun x => (userId x =? u)%string) (rows db)).
  pose proof (orderByDesc_perm updatedAt own) as Hperm. split.
  - intros Hin. apply (Permutation_in r (Permutation_sym Hperm)) in Hin.
    apply filter_In in Hin. rewrite String.eqb_eq in Hin. exact Hin.
  - intros Hin. apply (Permutation_in r Hperm).
    apply filter_In. rewrite String.eqb_eq. exact Hin.
Qed.

(** An [UPDATE] that matches no row changes nothing and returns nothing. *)
Lemma updateRows_no_match (p : Link -> bool) (f : Link -> Link) :
  forall (todo done : list Link),
    (forall o, In o todo -> p o = false) ->
    updateRows p f done todo = inr ([], done ++ todo).
Proof.
  induction todo as [|r rest IH]; intros done H; simpl.
  - rewrite app_nil_r. reflexivity.
  - rewrite (H r (or_introl eq_refl)). rewrite IH.
    + rewrite <- app_assoc. reflexivity.
    + intros o Ho. apply H. right. exact Ho.
Qed.

(** An [UPDATE] of the one row with id [i], owned by [u], to a short code
    that no other row holds rewrites that row and returns it. *)
Lemma updateRows_one_match (i : Z) (u url' code : string) (now : Z) (r : Link) :
  strlen code <= 20 ->
  forall (todo done : list Link),
    NoDup (map id todo) ->
    In r todo -> ownedBy i u r = true ->
    (forall o, In o (done ++ todo) -> shortCode o = code -> id o = i) ->
    (forall o, In o done -> id o <> i) ->
    updateRows (ownedBy i u) (setFields url' code now) done todo
      = inr ([setFields url' code now r],
             done ++ map (fun x => if ownedBy i u x then setFields url' code now x else x)
                         todo).
Proof.
  intros Hlen. induction todo as [|x rest IH]; intros done Hnd Hin Hown Hcode Hdone;
    [destruct Hin |].
  simpl in Hnd. inversion Hnd as [|? ? Hnotin Hnd']; subst.
  apply ownedBy_true in Hown. destruct Hown as [Hid Hu].
  simpl. destruct (ownedBy i u x) eqn:Hx.
  - apply ownedBy_true in Hx. destruct Hx as [Hxid Hxu].
    assert (x = r) as ->.
    { destruct Hin as [-> | Hin]; [reflexivity |].
      exfalso. apply Hnotin. rewrite Hxid, <- Hid. apply in_map, Hin. }
    cbn [setFields shortCode].
    assert ((20 <? strlen code) = false) as -> by (apply Z.ltb_ge; exact Hlen).
    assert (Hrest : forall o, In o rest -> ownedBy i u o = false).
    { intros o Ho. destruct (ownedBy i u o) eqn:E; [| reflexivity].
      apply ownedBy_true in E. destruct E as [E _].
      exfalso. apply Hnotin. rewrite Hid, <- E. apply in_map, Ho. }
    rewrite existsb_none.
    + rewrite (updateRows_no_match _ _ rest _ Hrest).
      rewrite <- app_assoc. simpl. repeat f_equal.
      clear - Hrest. induction rest as [|y rest IH]; simpl; [reflexivity |].
      rewrite (Hrest y (or_introl eq_refl)). f_equal. apply IH.
      intros o Ho. apply Hrest. right. exact Ho.
    + intros o Ho. apply hasShortCode_false. intros Hc.
      assert (id o = i) as Hoi.
      { apply Hcode; [| exact Hc]. apply in_app_or in Ho. apply in_or_app.
        destruct Ho as [Ho | Ho]; [left; exact Ho | right; right; exact Ho]. }
      apply in_app_or in Ho. destruct Ho as [Ho | Ho].
      * exact (Hdone o Ho Hoi).
      * apply Hnotin. rewrite Hid, <- Hoi. apply in_map, Ho.
  - destruct Hin as [-> | Hin].
    + exfalso. assert (ownedBy i u r = true) as E by (apply ownedBy_true; auto). congruence.
    + rewrite (IH (done ++ [x]) Hnd' Hin).
      * rewrite <- app_assoc. reflexivity.
      * apply ownedBy_true. auto.
      * intros o Ho. apply Hcode. rewrite <- app_assoc in Ho. exact Ho.
      * intros o Ho. apply in_app_or in Ho. destruct Ho as [Ho | [<- | []]].
        -- exact (Hdone o Ho).
        -- intros Hxi. apply Hnotin. rewrite Hxi, <- Hid. apply in_map, Hin.
Qed.

Lemma NoDup_map_inj {A B : Type} (f : A -> B) (l : list A) (a b : A) :
  NoDup (map f l) -> In a l -> In b l -> f a = f b -> a = b.
Proof.
  induction l as [|x l IH]; intros Hnd Ha Hb Hf; [destruct Ha |].
  simpl in Hnd. inversion Hnd as [|? ? Hnotin Hnd']; subst.
  destruct Ha as [-> | Ha]; destruct Hb as [-> | Hb].
  - reflexivity.
  - exfalso. apply Hnotin. rewrite Hf. apply in_map, Hb.
  - exfalso. apply Hnotin. rewrite <- Hf. apply in_map, Ha.
  - apply IH; assumption.
Qed.

Lemma find_filter {A : Type} (p q : A -> bool) (l : list A) :
  (forall x, In x l -> p x = true -> q x = true) ->
  find p (filter q l) = find p l.
Proof.
  induction l as [|x l IH]; intros H; simpl; [reflexivity |].
  assert (IH' : find p (filter q l) = find p l)
    by (apply IH; intros y Hy; apply H; right; exact Hy).
  destruct (q x) eqn:Hq; simpl.
  - rewrite IH'. reflexivity.
  - destruct (p x) eqn:Hp; [| exact IH'].
    rewrite (H x (or_introl eq_refl) Hp) in Hq. discriminate.
Qed.

(** ** Successful creates, edits and deletes *)

Section Successes.

Variable isUrl : string -> bool.
Variable pgMessage : PgError -> string.

Lemma createLink_fresh (auth : option string) (u : string) (now : Z) (db : Db)
    (url' code : string) :
  signedIn auth = Some u ->
  createLinkSchema isUrl url' code = [] ->
  (forall r, In r (rows db) -> shortCode r <> code) ->
  (forall r, In r (rows db) -> id r <> nextId db) ->
  createLink isUrl pgMessage auth now db (CreateLinkInput.mk url' code)
    = (Success (mkLink (nextId db) u code url' now now),
       mkDb (rows db ++ [mkLink (nextId db) u code url' now now]) (nextId db + 1)).
Proof.
  intros Hu Hs Hcode Hid.
  pose proof Hs as Hok. apply createLinkSchema_ok in Hok.
  destruct Hok as [_ [[_ Hlen] _]].
  unfold createLink. rewrite Hu.
  cbn [CreateLinkInput.url CreateLinkInput.shortCode]. rewrite Hs.
  unfold insertLink, insertRow.
  cbn [shortCode id NewLink.shortCode NewLink.url NewLink.userId].
  assert ((20 <? strlen code) = false) as -> by (apply Z.ltb_ge; exact Hlen).
  rewrite existsb_none by (intros x Hx; apply Z.eqb_neq, Hid, Hx).
  rewrite existsb_none by (intros x Hx; apply hasShortCode_false, Hcode, Hx).
  reflexivity.
Qed.

Lemma editLink_owned (auth : option string) (u : string) (now : Z) (db : Db)
    (r : Link) (url' code : string) :
  signedIn auth = Some u ->
  createLinkSchema isUrl url' code = [] ->
  NoDup (map id (rows db)) ->
  In r (rows db) -> userId r = u ->
  (forall o, In o (rows db) -> shortCode o = code -> id o = id r) ->
  editLink isUrl pgMessage auth now db (EditLinkInput.mk (id r) url' code)
    = (Success (setFields url' code now r),
       mkDb (map (fun x => if ownedBy (id r) u x then setFields url' code now x else x)
                 (rows db))
            (nextId db)).
Proof.
  intros Hu Hs Hnd Hin Hru Hcode.
  pose proof Hs as Hok. apply createLinkSchema_ok in Hok.
  destruct Hok as [_ [[_ Hlen] _]].
  assert (ownedBy (id r) u r = true) as Hown by (apply ownedBy_true; auto).
  destruct (selectOwned_some db (id r) u r Hin Hown) as (x & l & Hsel).
  unfold editLink. rewrite Hu.
  cbn [EditLinkInput.id EditLinkInput.url EditLinkInput.shortCode].
  rewrite editLinkSchema_same, Hs.
  unfold updateLink. rewrite Hsel. unfold updateOwned.
  rewrite (updateRows_one_match (id r) u url' code now r Hlen (rows db) [] Hnd Hin Hown).
  - reflexivity.
  - exact Hcode.
  - intros o [].
Qed.

Lemma deleteLinkAction_owned (auth : option string) (u : string) (db : Db) (r : Link) :
  signedIn auth = Some u -> In r (rows db) -> userId r = u ->
  deleteLinkAction auth db (DeleteLinkInput.mk (id r))
    = (Success tt, deleteOwned db (id r) u).
Proof.
  intros Hu Hin Hru.
  assert (ownedBy (id r) u r = true) as Hown by (apply ownedBy_true; auto).
  destruct (selectOwned_some db (id r) u r Hin Hown) as (x & l & Hsel).
  unfold deleteLinkAction. rewrite Hu.
  cbn [deleteLinkSchema idIssues DeleteLinkInput.id].
  unfold deleteLinkById. rewrite Hsel. reflexivity.
Qed.

(** X1.  A signed-in caller who submits a url the parser accepts and a
    well-formed short code that no Link has gets [success] with the new
    Link: it takes the next identity value, belongs to the caller, carries
    the submitted url and short code and has both timestamps at the time
    of the insert; the store gains that row at its end and nothing else
    changes. *)
Theorem create_succeeds_on_unused_short_code :
  forall (auth : option string) (u : string) (now : Z) (db : Db)
         (url' code : string),
    signedIn auth = Some u ->
    isUrl url' = true ->
    shortCodeOk code ->
    keysFresh db ->
    (forall r, In r (rows db) -> shortCode r <> code) ->
    createLink isUrl pgMessage auth now db (CreateLinkInput.mk url' code)
      = (Success (mkLink (nextId db) u code url' now now),
         mkDb (rows db ++ [mkLink (nextId db) u code url' now now]) (nextId db + 1)).
Proof.
  intros auth u now db url' code Hu Hurl Hok [_ Hfresh] Hcode.
  apply createLink_fresh; try assumption.
  - apply createLinkSchema_ok. split; assumption.
  - intros r Hr. specialize (Hfresh r Hr). lia.
Qed.

(** X2.  After such a create, the route redirects the new short code to
    the submitted url with status 307, every other short code resolves as
    it did before, the new Link is in the caller's listing, and the listing
    of every other user is what it was. *)
Theorem created_link_resolves_and_is_listed :
  forall (auth : option string) (u : string) (now : Z) (db : Db)
         (url' code : string),
    signedIn auth = Some u ->
    isUrl url' = true ->
    shortCodeOk code ->
    keysFresh db ->
    (forall r, In r (rows db) -> shortCode r <> code) ->
    GET isUrl (snd (createLink isUrl pgMessage auth now db (CreateLinkInput.mk url' code)))
        code
      = inr (Redirect url' 307) /\
    (forall c, c <> code ->
       GET isUrl (snd (createLink isUrl pgMessage auth now db
                         (CreateLinkInput.mk url' code))) c
         = GET isUrl db c) /\
    In (mkLink (nextId db) u code url' now now)
       (getUserLinks (snd (createLink isUrl pgMessage auth now db
                             (CreateLinkInput.mk url' code))) u) /\
    (forall v, v <> u ->
       getUserLinks (snd (createLink isUrl pgMessage auth now db
                            (CreateLinkInput.mk url' code))) v
         = getUserLinks db v).
Proof.
  intros auth u now db url' code Hu Hurl Hok [_ Hfresh] Hcode.
  rewrite (createLink_fresh auth u now db url' code); try assumption.
  2: { apply createLinkSchema_ok. split; assumption. }
  2: { intros r Hr. specialize (Hfresh r Hr). lia. }
  cbn [snd]. set (l := mkLink (nextId db) u code url' now now).
  split; [| split; [| split]].
  - unfold GET, getLinkByShortCode. cbn [rows].
    rewrite find_app_hit.
    + unfold NextResponse_redirect. cbn [url l]. rewrite Hurl. reflexivity.
    + intros y Hy. apply hasShortCode_false, Hcode, Hy.
    + unfold hasShortCode. apply String.eqb_refl.
  - intros c Hc. unfold GET, getLinkByShortCode. cbn [rows].
    rewrite find_app_miss; [reflexivity |].
    apply hasShortCode_false. cbn [shortCode l]. congruence.
  - apply getUserLinks_In. cbn [rows]. split; [| reflexivity].
    apply in_or_app. right. left. reflexivity.
  - intros v Hv. unfold getUserLinks. cbn [rows]. rewrite filter_app. simpl.
    assert ((u =? v)%string = false) as -> by (apply String.eqb_neq; congruence).
    rewrite app_nil_r. reflexivity.
Qed.

(** X3.  A signed-in caller who edits a Link of their own, with a url the
    parser accepts and a well-formed short code that no other Link holds,
    gets [success] with that Link rewritten: the new url and short code,
    [updatedAt] at the time of the edit, and the old [id], [userId] and
    [createdAt]; in the store that row is rewritten in place and every
    other row is as it was. *)
Theorem edit_rewrites_the_owned_link :
  forall (auth : option string) (u : string) (now : Z) (db : Db)
         (r : Link) (url' code : string),
    signedIn auth = Some u ->
    isUrl url' = true ->
    shortCodeOk code ->
    keysFresh db ->
    In r (rows db) -> userId r = u ->
    (forall o, In o (rows db) -> shortCode o = code -> o = r) ->
    editLink isUrl pgMessage auth now db (EditLinkInput.mk (id r) url' code)
      = (Success (mkLink (id r) u code url' (createdAt r) now),
         mkDb (map (fun x => if id x =? id r
                             then mkLink (id r) u code url' (createdAt r) now else x)
                   (rows db))
              (nextId db)).
Proof.
  intros auth u now db r url' code Hu Hurl Hok [Hnd _] Hin Hru Hcode.
  rewrite (editLink_owned auth u now db r url' code); try assumption.
  - unfold setFields. rewrite Hru. f_equal. f_equal.
    apply map_ext_in. intros x Hx. unfold ownedBy.
    destruct (id x =? id r) eqn:E; [| reflexivity].
    apply Z.eqb_eq in E.
    assert (x = r) as -> by (apply (NoDup_map_inj id (rows db)); assumption).
    rewrite Hru, String.eqb_refl. reflexivity.
  - apply createLinkSchema_ok. split; assumption.
  - intros o Ho Hc. rewrite (Hcode o Ho Hc). reflexivity.
Qed.

(** X4.  Editing only the url of one's own Link never runs into "already
    in use": with distinct ids and distinct short codes in the store, an
    edit that keeps the Link's short code succeeds. *)
Theorem edit_keeping_the_short_code_succeeds :
  forall (auth : option string) (u : string) (now : Z) (db : Db)
         (r : Link) (url' : string),
    signedIn auth = Some u ->
    isUrl url' = true ->
    shortCodeOk (shortCode r) ->
    keysFresh db ->
    uniqueShortCodes db ->
    In r (rows db) -> userId r = u ->
    fst (editLink isUrl pgMessage auth now db
           (EditLinkInput.mk (id r) url' (shortCode r)))
      = Success (setFields url' (shortCode r) now r).
Proof.
  intros auth u now db r url' Hu Hurl Hok [Hnd _] Huniq Hin Hru.
  rewrite (editLink_owned auth u now db r url' (shortCode r)); try assumption.
  - reflexivity.
  - apply createLinkSchema_ok. split; assumption.
  - intros o Ho Hc.
    rewrite (NoDup_map_inj shortCode (rows db) o r Huniq Ho Hin Hc). reflexivity.
Qed.

(** X5.  A signed-in caller who deletes a Link of their own gets
    [success]; afterwards the store holds exactly the rows it held that do
    not carry that id and owner, the identity sequence is untouched, and a
    second delete of the same id fails with "Link not found or not owned by
    user" and changes nothing. *)
Theorem delete_removes_the_owned_link :
  forall (auth : option string) (u : string) (db : Db) (r : Link),
    signedIn auth = Some u ->
    In r (rows db) -> userId r = u ->
    deleteLinkAction auth db (DeleteLinkInput.mk (id r))
      = (Success tt, deleteOwned db (id r) u) /\
    (forall o, In o (rows (deleteOwned db (id r) u)) <->
               In o (rows db) /\ ~ (id o = id r /\ userId o = u)) /\
    nextId (deleteOwned db (id r) u) = nextId db /\
    deleteLinkAction auth (deleteOwned db (id r) u) (DeleteLinkInput.mk (id r))
      = (Failure msgNotFoundOrNotOwned, deleteOwned db (id r) u).
Proof.
  clear isUrl pgMessage. intros auth u db r Hu Hin Hru.
  assert (Hrows : forall o, In o (rows (deleteOwned db (id r) u)) <->
                            In o (rows db) /\ ~ (id o = id r /\ userId o = u)).
  { intros o. unfold deleteOwned. cbn [rows]. rewrite filter_In, negb_true_iff.
    rewrite <- ownedBy_true. destruct (ownedBy (id r) u o); intuition congruence. }
  split; [apply deleteLinkAction_owned; assumption |].
  split; [exact Hrows |]. split; [reflexivity |].
  unfold deleteLinkAction. rewrite Hu.
  cbn [deleteLinkSchema idIssues DeleteLinkInput.id]. unfold deleteLinkById.
  rewrite selectOwned_none; [reflexivity |].
  intros o Ho Hid Hou. apply Hrows in Ho. destruct Ho as [_ Ho]. apply Ho. auto.
Qed.

(** X6.  After the owner deleted a Link, the route answers its short code
    with the 404 body, and every other short code resolves as before
    (distinct ids and distinct short codes in the store). *)
Theorem deleted_link_no_longer_resolves :
  forall (auth : option string) (u : string) (db : Db) (r : Link),
    signedIn auth = Some u ->
    keysFresh db ->
    uniqueShortCodes db ->
    In r (rows db) -> userId r = u ->
    GET isUrl (snd (deleteLinkAction auth db (DeleteLinkInput.mk (id r)))) (shortCode r)
      = inr (Json "error" "Link not found" 404) /\
    (forall c, c <> shortCode r ->
       GET isUrl (snd (deleteLinkAction auth db (DeleteLinkInput.mk (id r)))) c
         = GET isUrl db c).
Proof.
  intros auth u db r Hu [Hnd _] Huniq Hin Hru.
  rewrite (deleteLinkAction_owned auth u db r) by assumption. cbn [snd]. split.
  - unfold GET. rewrite getLinkByShortCode_none; [reflexivity |].
    intros o Ho Hc. unfold deleteOwned in Ho. cbn [rows] in Ho.
    apply filter_In in Ho. destruct Ho as [Ho Hnot].
    assert (o = r) as -> by (apply (NoDup_map_inj shortCode (rows db)); assumption).
    apply negb_true_iff in Hnot.
    assert (ownedBy (id r) u r = true) as E by (apply ownedBy_true; auto). congruence.
  - intros c Hc. unfold GET, getLinkByShortCode, deleteOwned. cbn [rows].
    rewrite find_filter; [reflexivity |].
    intros x Hx Hp. apply negb_true_iff.
    destruct (ownedBy (id r) u x) eqn:E; [| reflexivity].
    apply ownedBy_true in E. destruct E as [E _].
    assert (x = r) as -> by (apply (NoDup_map_inj id (rows db)); assumption).
    unfold hasShortCode in Hp. apply String.eqb_eq in Hp. congruence.
Qed.

(** X7.  A deleted Link frees its short code: after the owner deleted it,
    any signed-in caller can create a Link with that short code. *)
Theorem short_code_is_free_after_delete :
  forall (auth auth' : option string) (u v : string) (now : Z) (db : Db)
         (r : Link) (url' : string),
    signedIn auth = Some u ->
    signedIn auth' = Some v ->
    isUrl url' = true ->
    shortCodeOk (shortCode r) ->
    keysFresh db ->
    uniqueShortCodes db ->
    In r (rows db) -> userId r = u ->
    fst (createLink isUrl pgMessage auth' now
           (snd (deleteLinkAction auth db (DeleteLinkInput.mk (id r))))
           (CreateLinkInput.mk url' (shortCode r)))
      = Success (mkLink (nextId db) v (shortCode r) url' now now).
Proof.
  intros auth auth' u v now db r url' Hu Hv Hurl Hok [Hnd Hfresh] Huniq Hin Hru.
  rewrite (deleteLinkAction_owned auth u db r) by assumption. cbn [snd].
  rewrite (createLink_fresh auth' v now (deleteOwned db (id r) u) url' (shortCode r));
    try assumption.
  - reflexivity.
  - apply createLinkSchema_ok. split; assumption.
  - intros o Ho Hc. unfold deleteOwned in Ho. cbn [rows] in Ho.
    apply filter_In in Ho. destruct Ho as [Ho Hnot].
    assert (o = r) as -> by (apply (NoDup_map_inj shortCode (rows db)); assumption).
    apply negb_true_iff in Hnot.
    assert (ownedBy (id r) u r = true) as E by (apply ownedBy_true; auto). congruence.
  - intros o Ho. unfold deleteOwned in Ho |- *. cbn [rows nextId] in Ho |- *.
    apply filter_In in Ho. destruct Ho as [Ho _]. specialize (Hfresh o Ho). lia.
Qed.

End Successes.

(** ** The successes on the scenario *)

Lemma scenarioDb_keysFresh : keysFresh scenarioDb.
Proof.
  split.
  - simpl. constructor; [intros [] | constructor].
  - intros r [<- | []]. simpl. lia.
Qed.

Lemma scenarioDb_unique : uniqueShortCodes scenarioDb.
Proof. unfold uniqueShortCodes. simpl. constructor; [intros [] | constructor]. Qed.

Lemma scenarioLink_in : In scenarioLink (rows scenarioDb).
Proof. left. reflexivity. Qed.

Lemma shortCodeOk_abc123 : shortCodeOk "abc123".
Proof. split; [cbv; split; discriminate | repeat constructor]. Qed.

Lemma shortCodeOk_mine : shortCodeOk "mine".
Proof. split; [cbv; split; discriminate | repeat constructor]. Qed.

Lemma scenarioDb_no_mine : forall r, In r (rows scenarioDb) -> shortCode r <> "mine".
Proof. intros r [<- | []]. discriminate. Qed.

(** X1 on the scenario: user B creates "mine". *)
Lemma create_succeeds_on_unused_short_code_witness :
  signedIn (Some "userB") = Some "userB" /\
  httpUrl "https://b.com" = true /\
  shortCodeOk "mine" /\
  keysFresh scenarioDb /\
  (forall r, In r (rows scenarioDb) -> shortCode r <> "mine") /\
  createLink httpUrl postgresMessage (Some "userB") 20 scenarioDb
    (CreateLinkInput.mk "https://b.com" "mine")
    = (Success (mkLink 6 "userB" "mine" "https://b.com" 20 20),
       mkDb [scenarioLink; mkLink 6 "userB" "mine" "https://b.com" 20 20] 7).
Proof.
  repeat (split; [first [ reflexivity | exact shortCodeOk_mine
                        | exact scenarioDb_keysFresh | exact scenarioDb_no_mine ] |]).
  exact (create_succeeds_on_unused_short_code httpUrl postgresMessage (Some "userB")
           "userB" 20 scenarioDb "https://b.com" "mine" eq_refl eq_refl
           shortCodeOk_mine scenarioDb_keysFresh scenarioDb_no_mine).
Defined.

(** X2 on the scenario: "mine" then redirects to the url of user B. *)
Lemma created_link_resolves_and_is_listed_witness :
  signedIn (Some "userB") = Some "userB" /\
  httpUrl "https://b.com" = true /\
  shortCodeOk "mine" /\
  keysFresh scenarioDb /\
  (forall r, In r (rows scenarioDb) -> shortCode r <> "mine") /\
  GET httpUrl
      (snd (createLink httpUrl postgresMessage (Some "userB") 20 scenarioDb
              (CreateLinkInput.mk "https://b.com" "mine"))) "mine"
    = inr (Redirect "https://b.com" 307).
Proof.
  repeat (split; [first [ reflexivity | exact shortCodeOk_mine
                        | exact scenarioDb_keysFresh | exact scenarioDb_no_mine ] |]).
  exact (proj1 (created_link_resolves_and_is_listed httpUrl postgresMessage
                  (Some "userB") "userB" 20 scenarioDb "https://b.com" "mine"
                  eq_refl eq_refl shortCodeOk_mine scenarioDb_keysFresh
                  scenarioDb_no_mine)).
Defined.

Lemma scenarioDb_mine_is_free :
  forall o, In o (rows scenarioDb) -> shortCode o = "mine" -> o = scenarioLink.
Proof. intros o [<- | []] H. reflexivity. Qed.

(** X3 on the scenario: user A moves the link 5 to "mine". *)
Lemma edit_rewrites_the_owned_link_witness :
  signedIn (Some "userA") = Some "userA" /\
  httpUrl "https://a.org" = true /\
  shortCodeOk "mine" /\
  keysFresh scenarioDb /\
  In scenarioLink (rows scenarioDb) /\
  userId scenarioLink = "userA" /\
  (forall o, In o (rows scenarioDb) -> shortCode o = "mine" -> o = scenarioLink) /\
  editLink httpUrl postgresMessage (Some "userA") 20 scenarioDb
    (EditLinkInput.mk 5 "https://a.org" "mine")
    = (Success (mkLink 5 "userA" "mine" "https://a.org" 10 20),
       mkDb [mkLink 5 "userA" "mine" "https://a.org" 10 20] 6).
Proof.
  repeat (split; [first [ reflexivity | exact shortCodeOk_mine
                        | exact scenarioDb_keysFresh | exact scenarioLink_in
                        | exact scenarioDb_mine_is_free ] |]).
  exact (edit_rewrites_the_owned_link httpUrl postgresMessage (Some "userA") "userA" 20
           scenarioDb scenarioLink "https://a.org" "mine" eq_refl eq_refl
           shortCodeOk_mine scenarioDb_keysFresh scenarioLink_in eq_refl
           scenarioDb_mine_is_free).
Defined.

(** X4 on the scenario: user A changes only the url of the link 5. *)
Lemma edit_keeping_the_short_code_succeeds_witness :
  signedIn (Some "userA") = Some "userA" /\
  httpUrl "https://a.org" = true /\
  shortCodeOk (shortCode scenarioLink) /\
  keysFresh scenarioDb /\
  uniqueShortCodes scenarioDb /\
  In scenarioLink (rows scenarioDb) /\
  userId scenarioLink = "userA" /\
  fst (editLink httpUrl postgresMessage (Some "userA") 20 scenarioDb
         (EditLinkInput.mk 5 "https://a.org" "abc123"))
    = Success (mkLink 5 "userA" "abc123" "https://a.org" 10 20).
Proof.
  repeat (split; [first [ reflexivity | exact shortCodeOk_abc123
                        | exact scenarioDb_keysFresh | exact scenarioDb_unique
                        | exact scenarioLink_in ] |]).
  exact (edit_keeping_the_short_code_succeeds httpUrl postgresMessage (Some "userA")
           "userA" 20 scenarioDb scenarioLink "https://a.org" eq_refl eq_refl
           shortCodeOk_abc123 scenarioDb_keysFresh scenarioDb_unique
           scenarioLink_in eq_refl).
Defined.

(** X5 on the scenario: user A deletes the link 5, twice. *)
Lemma delete_removes_the_owned_link_witness :
  signedIn (Some "userA") = Some "userA" /\
  In scenarioLink (rows scenarioDb) /\
  userId scenarioLink = "userA" /\
  deleteLinkAction (Some "userA") scenarioDb (DeleteLinkInput.mk 5)
    = (Success tt, mkDb [] 6) /\
  deleteLinkAction (Some "userA") (mkDb [] 6) (DeleteLinkInput.mk 5)
    = (Failure msgNotFoundOrNotOwned, mkDb [] 6).
Proof.
  split; [reflexivity |]. split; [exact scenarioLink_in |]. split; [reflexivity |].
  pose proof (delete_removes_the_owned_link (Some "userA") "userA" scenarioDb
                scenarioLink eq_refl scenarioLink_in eq_refl) as (H1 & _ & _ & H2).
  split; [exact H1 | exact H2].
Defined.

(** X6 on the scenario: after the delete, "abc123" is not found. *)
Lemma deleted_link_no_longer_resolves_witness :
  signedIn (Some "userA") = Some "userA" /\
  keysFresh scenarioDb /\
  uniqueShortCodes scenarioDb /\
  In scenarioLink (rows scenarioDb) /\
  userId scenarioLink = "userA" /\
  GET httpUrl (snd (deleteLinkAction (Some "userA") scenarioDb (DeleteLinkInput.mk 5)))
      "abc123"
    = inr (Json "error" "Link not found" 404).
Proof.
  repeat (split; [first [ reflexivity | exact scenarioDb_keysFresh
                        | exact scenarioDb_unique | exact scenarioLink_in ] |]).
  exact (proj1 (deleted_link_no_longer_resolves httpUrl (Some "userA") "userA"
                  scenarioDb scenarioLink eq_refl scenarioDb_keysFresh
                  scenarioDb_unique scenarioLink_in eq_refl)).
Defined.

(** X7 on the scenario: user B takes "abc123" once user A deleted it. *)
Lemma short_code_is_free_after_delete_witness :
  signedIn (Some "userA") = Some "userA" /\
  signedIn (Some "userB") = Some "userB" /\
  httpUrl "https://b.com" = true /\
  shortCodeOk (shortCode scenarioLink) /\
  keysFresh scenarioDb /\
  uniqueShortCodes scenarioDb /\
  In scenarioLink (rows scenarioDb) /\
  userId scenarioLink = "userA" /\
  fst (createLink httpUrl postgresMessage (Some "userB") 30
         (snd (deleteLinkAction (Some "userA") scenarioDb (DeleteLinkInput.mk 5)))
         (CreateLinkInput.mk "https://b.com" "abc123"))
    = Success (mkLink 6 "userB" "abc123" "https://b.com" 30 30).
Proof.
  repeat (split; [first [ reflexivity | exact shortCodeOk_abc123
                        | exact scenarioDb_keysFresh | exact scenarioDb_unique
                        | exact scenarioLink_in ] |]).
  exact (short_code_is_free_after_delete httpUrl postgresMessage (Some "userA")
           (Some "userB") "userA" "userB" 30 scenarioDb scenarioLink "https://b.com"
           eq_refl eq_refl eq_refl shortCodeOk_abc123 scenarioDb_keysFresh
           scenarioDb_unique scenarioLink_in eq_refl).
Defined.

(** ** What every sequence of requests keeps *)

(** Keys that are distinct stay distinct among the rows that are kept. *)
Lemma keys_distinct_among_kept {Row Key : Type} (key : Row -> Key) (keep : Row -> bool) :
  forall table : list Row,
    NoDup (map key table) -> NoDup (map key (filter keep table)).
Proof.
  intros table. induction table as [|row table IH]; intros Hdistinct; simpl;
    [constructor |].
  simpl in Hdistinct. apply NoDup_cons_iff in Hdistinct.
  destruct Hdistinct as [Hfresh Hdistinct].
  destruct (keep row); simpl; [| apply IH, Hdistinct].
  apply NoDup_cons_iff. split; [| apply IH, Hdistinct].
  intros Hin. apply Hfresh. apply in_map_iff in Hin.
  destruct Hin as (other & Hkey & Hkept). apply filter_In in Hkept.
  apply in_map_iff. exists other. tauto.
Qed.

Lemma map_id_update (p : Link -> bool) (url' code : string) (now : Z) (l : list Link) :
  map id (map (fun x => if p x then setFields url' code now x else x) l) = map id l.
Proof.
  rewrite map_map. apply map_ext. intros x. destruct (p x); reflexivity.
Qed.

Section Invariants.

Variable isUrl : string -> bool.
Variable pgMessage : PgError -> string.

(** As [serve_cases], with the caller of the write. *)
Lemma serve_cases_caller (db : Db) (rq : Request) :
  serve isUrl pgMessage db rq = db \/
  exists u, signedIn (caller rq) = Some u /\
    ((exists url' code, isUrl url' = true /\ shortCodeOk code /\
        serve isUrl pgMessage db rq
          = snd (insertRow pgMessage (time rq) db (NewLink.mk u url' code))) \/
     (exists i url' code, isUrl url' = true /\ shortCodeOk code /\
        serve isUrl pgMessage db rq
          = snd (updateOwned pgMessage (time rq) db i u url' code)) \/
     (exists i, serve isUrl pgMessage db rq = deleteOwned db i u)).
Proof.
  unfold serve. destruct (call rq) as [input | input | input].
  - unfold createLink. destruct (signedIn (caller rq)) as [u|]; [| left; reflexivity].
    destruct (createLinkSchema isUrl _ _) as [|issue rest] eqn:Hs; [| left; reflexivity].
    apply createLinkSchema_ok in Hs. destruct Hs as [Hurl Hcode].
    right. exists u. split; [reflexivity |]. left.
    exists (CreateLinkInput.url input), (CreateLinkInput.shortCode input).
    split; [exact Hurl |]. split; [exact Hcode |].
    unfold insertLink.
    destruct (insertRow pgMessage (time rq) db _) as [[[message|] | newLink] db'];
      try reflexivity.
    destruct (includes message "unique"); reflexivity.
  - unfold editLink. destruct (signedIn (caller rq)) as [u|]; [| left; reflexivity].
    destruct (editLinkSchema isUrl _ _ _) as [|issue rest] eqn:Hs; [| left; reflexivity].
    rewrite editLinkSchema_same in Hs.
    apply createLinkSchema_ok in Hs. destruct Hs as [Hurl Hcode].
    unfold updateLink. destruct (selectOwned db _ u); [left; reflexivity |].
    right. exists u. split; [reflexivity |]. right; left.
    exists (EditLinkInput.id input), (EditLinkInput.url input),
           (EditLinkInput.shortCode input).
    split; [exact Hurl |]. split; [exact Hcode |].
    destruct (updateOwned pgMessage (time rq) db _ u _ _) as [[[message|] | returned] db'];
      try reflexivity.
    + destruct (includes message "unique"); reflexivity.
    + destruct (hd_error returned); reflexivity.
  - unfold deleteLinkAction. destruct (signedIn (caller rq)) as [u|]; [| left; reflexivity].
    cbn [deleteLinkSchema idIssues]. unfold deleteLinkById.
    destruct (selectOwned db _ u); [left; reflexivity |].
    right. exists u. split; [reflexivity |]. right; right.
    exists (DeleteLinkInput.id input). reflexivity.
Qed.

(** The rows after an [INSERT], with or without the new row. *)
Lemma insertRow_rows (now : Z) (db : Db) (data : NewLink.t) :
  nextId db <= nextId (snd (insertRow pgMessage now db data)) <= nextId db + 1 /\
  (rows (snd (insertRow pgMessage now db data)) = rows db \/
   rows (snd (insertRow pgMessage now db data))
     = rows db ++ [mkLink (nextId db) (NewLink.userId data) (NewLink.shortCode data)
                          (NewLink.url data) now now]).
Proof.
  unfold insertRow. cbn [shortCode id].
  destruct (20 <? strlen _); [split; [cbn [snd]; lia | left; reflexivity] |].
  destruct (existsb _ (rows db)); [split; [cbn [snd nextId]; lia | left; reflexivity] |].
  destruct (existsb _ (rows db)); [split; [cbn [snd nextId]; lia | left; reflexivity] |].
  split; [cbn [snd nextId]; lia | right; reflexivity].
Qed.

(** An [INSERT] keeps the ids distinct and below the identity sequence. *)
Lemma insertRow_keysFresh (now : Z) (db : Db) (data : NewLink.t) :
  keysFresh db -> keysFresh (snd (insertRow pgMessage now db data)).
Proof.
  intros [Hdistinct Hbelow]. unfold insertRow. cbn [shortCode id].
  assert (Hfailed : keysFresh (mkDb (rows db) (nextId db + 1))).
  { split; [exact Hdistinct |]. cbn [rows nextId].
    intros r Hr. specialize (Hbelow r Hr). lia. }
  destruct (20 <? strlen _); [split; assumption |].
  destruct (existsb _ (rows db)); [exact Hfailed |].
  destruct (existsb _ (rows db)); [exact Hfailed |].
  cbn [snd]. split; cbn [rows nextId].
  - rewrite map_app. simpl.
    apply (Permutation_NoDup (l := nextId db :: map id (rows db)));
      [rewrite Permutation_app_comm; reflexivity |].
    constructor; [| exact Hdistinct]. intros Hin. apply in_map_iff in Hin.
    destruct Hin as (x & Hx & Hxin). specialize (Hbelow x Hxin). lia.
  - intros r Hin. apply in_app_or in Hin.
    destruct Hin as [Hin | [<- | []]]; [specialize (Hbelow r Hin); lia | simpl; lia].
Qed.

(** The rows after an [UPDATE]: as before, or the matching rows rewritten. *)
Lemma updateOwned_rows (now : Z) (db : Db) (i : Z) (u url' code : string) :
  nextId (snd (updateOwned pgMessage now db i u url' code)) = nextId db /\
  (rows (snd (updateOwned pgMessage now db i u url' code)) = rows db \/
   rows (snd (updateOwned pgMessage now db i u url' code))
     = map (fun x => if ownedBy i u x then setFields url' code now x else x) (rows db)).
Proof.
  unfold updateOwned.
  destruct (updateRows _ _ [] (rows db)) as [e | [ret tbl]] eqn:Hup;
    [split; [reflexivity | left; reflexivity] |].
  apply updateRows_inr in Hup. destruct Hup as [-> _].
  split; [reflexivity | right; reflexivity].
Qed.

Lemma serve_keysFresh (db : Db) (rq : Request) :
  keysFresh db ->
  keysFresh (serve isUrl pgMessage db rq) /\
  nextId db <= nextId (serve isUrl pgMessage db rq).
Proof.
  intros [Hnd Hlt].
  destruct (serve_cases isUrl pgMessage db rq)
    as [-> | [(u & url' & code & _ & _ & ->) | [(i & u & url' & code & _ & _ & ->) | (i & u & ->)]]].
  - split; [split; assumption | lia].
  - split; [apply insertRow_keysFresh; split; assumption |].
    destruct (insertRow_rows (time rq) db (NewLink.mk u url' code)) as [Hn _]. lia.
  - destruct (updateOwned_rows (time rq) db i u url' code) as [Hn [Hr | Hr]];
      unfold keysFresh; rewrite Hn, Hr; (split; [split |]; try lia); try assumption.
    + rewrite map_id_update. exact Hnd.
    + intros r Hin. apply in_map_iff in Hin. destruct Hin as (x & <- & Hx).
      specialize (Hlt x Hx). destruct (ownedBy i u x); simpl; lia.
  - unfold keysFresh, deleteOwned. cbn [rows nextId]. split; [split |]; try lia.
    + apply keys_distinct_among_kept, Hnd.
    + intros r Hin. apply filter_In in Hin. apply Hlt, Hin.
Qed.

(** X8.  The primary key survives every sequence of create, edit and
    delete requests: the ids stay distinct and below the identity sequence,
    and the sequence never goes back, so an id is never given twice, not
    even after its Link was deleted. *)
Theorem ids_stay_distinct_and_are_never_reused :
  forall (db : Db) (rqs : list Request),
    keysFresh db ->
    keysFresh (serveAll isUrl pgMessage db rqs) /\
    nextId db <= nextId (serveAll isUrl pgMessage db rqs).
Proof.
  intros db rqs. revert db. unfold serveAll.
  induction rqs as [|rq rqs IH]; intros db H; simpl; [split; [exact H | lia] |].
  destruct (serve_keysFresh db rq H) as [H1 Hle].
  destruct (IH _ H1) as [H2 Hle2]. split; [exact H2 | lia].
Qed.

Lemma serve_nextId (db : Db) (rq : Request) :
  nextId db <= nextId (serve isUrl pgMessage db rq).
Proof.
  destruct (serve_cases isUrl pgMessage db rq)
    as [-> | [(u & url' & code & _ & _ & ->) | [(i & u & url' & code & _ & _ & ->) | (i & u & ->)]]].
  - lia.
  - destruct (insertRow_rows (time rq) db (NewLink.mk u url' code)) as [Hn _]. lia.
  - destruct (updateOwned_rows (time rq) db i u url' code) as [-> _]. lia.
  - cbn [deleteOwned nextId]. lia.
Qed.

(** A row after a request is a row from before it, with its id, owner and
    creation time, or the row just inserted. *)
Lemma serve_old_rows (db : Db) (rq : Request) (r' : Link) :
  In r' (rows (serve isUrl pgMessage db rq)) ->
  (exists r, In r (rows db) /\ id r = id r' /\ userId r = userId r' /\
             createdAt r = createdAt r') \/
  id r' = nextId db.
Proof.
  destruct (serve_cases isUrl pgMessage db rq)
    as [-> | [(u & url' & code & _ & _ & ->) | [(i & u & url' & code & _ & _ & ->) | (i & u & ->)]]];
    intros Hin.
  - left. exists r'. auto.
  - destruct (insertRow_rows (time rq) db (NewLink.mk u url' code)) as [_ [Hr | Hr]];
      rewrite Hr in Hin.
    + left. exists r'. auto.
    + apply in_app_or in Hin. destruct Hin as [Hin | [<- | []]].
      * left. exists r'. auto.
      * right. reflexivity.
  - destruct (updateOwned_rows (time rq) db i u url' code) as [_ [Hr | Hr]];
      rewrite Hr in Hin.
    + left. exists r'. auto.
    + apply in_map_iff in Hin. destruct Hin as (x & <- & Hx).
      left. exists x. destruct (ownedBy i u x); simpl; auto.
  - unfold deleteOwned in Hin. cbn [rows] in Hin. apply filter_In in Hin.
    left. exists r'. tauto.
Qed.

(** X9.  No request changes the owner, the id or the creation time of a
    Link: a row found after any sequence of requests under an id that was
    already issued is a row the store had at the start, with the same
    [id], [userId] and [createdAt]. *)
Theorem owner_and_creation_time_never_change :
  forall (rqs : list Request) (db : Db) (r' : Link),
    In r' (rows (serveAll isUrl pgMessage db rqs)) ->
    id r' < nextId db ->
    exists r, In r (rows db) /\ id r = id r' /\ userId r = userId r' /\
              createdAt r = createdAt r'.
Proof.
  unfold serveAll. induction rqs as [|rq rqs IH]; intros db r' Hin Hlt; simpl in Hin.
  - exists r'. auto.
  - pose proof (serve_nextId db rq) as Hle.
    destruct (IH _ r' Hin ltac:(lia)) as (r1 & Hr1 & Hid & Hu & Hc).
    destruct (serve_old_rows db rq r1 Hr1) as [(r & Hr & Hid' & Hu' & Hc') | Hnew].
    + exists r. repeat split; congruence.
    + exfalso. lia.
Qed.

Lemma serve_other_users (db : Db) (rq : Request) (v : string) :
  signedIn (caller rq) <> Some v ->
  filter (fun r => (userId r =? v)%string) (rows (serve isUrl pgMessage db rq))
    = filter (fun r => (userId r =? v)%string) (rows db).
Proof.
  intros Hv.
  destruct (serve_cases_caller db rq)
    as [-> | (u & Hu & [(url' & code & _ & _ & ->) | [(i & url' & code & _ & _ & ->) | (i & ->)]])];
    [reflexivity | | |].
  all: assert (u <> v) as Huv by (intros ->; contradiction).
  - destruct (insertRow_rows (time rq) db (NewLink.mk u url' code)) as [_ [-> | ->]];
      [reflexivity |].
    rewrite filter_app. simpl.
    assert ((u =? v)%string = false) as -> by (apply String.eqb_neq; exact Huv).
    apply app_nil_r.
  - destruct (updateOwned_rows (time rq) db i u url' code) as [_ [-> | ->]];
      [reflexivity |].
    apply filter_outside_update.
    + intros r Hr. apply String.eqb_eq in Hr.
      destruct (ownedBy i u r) eqn:E; [| reflexivity].
      apply ownedBy_true in E. destruct E as [_ E]. congruence.
    + intros r. apply ownedBy_setFields.
  - unfold deleteOwned. cbn [rows]. apply filter_outside_delete.
    intros r Hr. apply String.eqb_eq in Hr.
    destruct (ownedBy i u r) eqn:E; [| reflexivity].
    apply ownedBy_true in E. destruct E as [_ E]. congruence.
Qed.

(** X10.  What other callers do never shows in a user's listing: after
    any sequence of requests none of which is made by [v], the rows of [v]
    are the same rows in the same storage order, and [getUserLinks] for
    [v] returns what it returned before. *)
Theorem requests_of_others_leave_my_links :
  forall (rqs : list Request) (db : Db) (v : string),
    (forall rq, In rq rqs -> signedIn (caller rq) <> Some v) ->
    filter (fun r => (userId r =? v)%string) (rows (serveAll isUrl pgMessage db rqs))
      = filter (fun r => (userId r =? v)%string) (rows db) /\
    getUserLinks (serveAll isUrl pgMessage db rqs) v = getUserLinks db v.
Proof.
  intros rqs db v H.
  assert (filter (fun r => (userId r =? v)%string) (rows (serveAll isUrl pgMessage db rqs))
          = filter (fun r => (userId r =? v)%string) (rows db)) as Hf.
  { revert db. unfold serveAll. induction rqs as [|rq rqs IH]; intros db; simpl;
      [reflexivity |].
    rewrite IH by (intros rq' Hrq'; apply H; right; exact Hrq').
    apply serve_other_users. apply H. left. reflexivity. }
  split; [exact Hf |]. unfold getUserLinks. rewrite Hf. reflexivity.
Qed.

Lemma serve_storedValid (db : Db) (rq : Request) :
  storedValid isUrl db -> storedValid isUrl (serve isUrl pgMessage db rq).
Proof.
  intros H.
  destruct (serve_cases isUrl pgMessage db rq)
    as [-> | [(u & url' & code & Hurl & Hcode & ->) | [(i & u & url' & code & Hurl & Hcode & ->) | (i & u & ->)]]].
  - exact H.
  - destruct (insertRow_rows (time rq) db (NewLink.mk u url' code)) as [_ [Hr | Hr]];
      intros r Hin; rewrite Hr in Hin; [exact (H r Hin) |].
    apply in_app_or in Hin. destruct Hin as [Hin | [<- | []]]; [exact (H r Hin) |].
    split; assumption.
  - destruct (updateOwned_rows (time rq) db i u url' code) as [_ [Hr | Hr]];
      intros r Hin; rewrite Hr in Hin; [exact (H r Hin) |].
    apply in_map_iff in Hin. destruct Hin as (x & <- & Hx).
    destruct (ownedBy i u x); [split; assumption | exact (H x Hx)].
  - intros r Hin. unfold deleteOwned in Hin. cbn [rows] in Hin.
    apply filter_In in Hin. apply H, Hin.
Qed.

(** X11.  Whatever the server actions store has passed their schema:
    from a store in which every Link has a url the parser accepts and a
    short code of 3 to 20 characters of [[a-zA-Z0-9-_]], every sequence of
    create, edit and delete requests leads to such a store. *)
Theorem stored_links_always_pass_the_schema :
  forall (rqs : list Request) (db : Db),
    storedValid isUrl db ->
    forall r, In r (rows (serveAll isUrl pgMessage db rqs)) ->
      isUrl (url r) = true /\
      3 <= strlen (shortCode r) <= 20 /\
      Forall (fun c => shortCodeChar c = true) (chars (shortCode r)).
Proof.
  unfold serveAll. induction rqs as [|rq rqs IH]; intros db H; simpl.
  - intros r Hr. exact (H r Hr).
  - apply IH, serve_storedValid, H.
Qed.

(** What an [INSERT] or an [UPDATE] raises is an error of the store. *)
Lemma insertRow_outcome (now : Z) (db : Db) (data : NewLink.t) :
  (exists l, fst (insertRow pgMessage now db data) = inr l) \/
  (exists e, fst (insertRow pgMessage now db data) = inl (JsError (pgMessage e))).
Proof.
  unfold insertRow, raise. cbn [shortCode id].
  destruct (20 <? strlen _); [right; eexists; reflexivity |].
  destruct (existsb _ (rows db)); [right; eexists; reflexivity |].
  destruct (existsb _ (rows db)); [right; eexists; reflexivity |].
  left. eexists. reflexivity.
Qed.

Lemma updateOwned_outcome (now : Z) (db : Db) (i : Z) (u url' code : string) :
  (exists returned, fst (updateOwned pgMessage now db i u url' code) = inr returned) \/
  (exists e, fst (updateOwned pgMessage now db i u url' code)
             = inl (JsError (pgMessage e))).
Proof.
  unfold updateOwned, raise.
  destruct (updateRows _ _ [] (rows db)) as [e | [ret tbl]];
    [right; eexists; reflexivity | left; eexists; reflexivity].
Qed.

(** X12.  Which validation message a signed-in caller gets, for create and
    edit alike and with the store untouched: "Invalid URL format" whenever
    the url does not parse, whatever the short code; otherwise the
    too-short message for fewer than 3 characters (the empty short code
    included), the too-long message for more than 20, and the
    character-set message for a length in range with a character outside
    [[a-zA-Z0-9-_]].  With a url that parses and a well-formed short code
    both schemas report no issue and the action goes on to the store: a
    create ends in success, in the "already in use" message or in the
    text of a store error, an edit in one of these or in "Link not found
    or not owned by user". *)
Theorem which_validation_message :
  forall (auth : option string) (u : string) (now : Z) (db : Db)
         (i : Z) (url' code : string),
    signedIn auth = Some u ->
    (isUrl url' = false ->
       createLink isUrl pgMessage auth now db (CreateLinkInput.mk url' code)
         = (Failure msgInvalidUrl, db) /\
       editLink isUrl pgMessage auth now db (EditLinkInput.mk i url' code)
         = (Failure msgInvalidUrl, db)) /\
    (isUrl url' = true -> strlen code < 3 ->
       createLink isUrl pgMessage auth now db (CreateLinkInput.mk url' code)
         = (Failure msgShortCodeMin, db) /\
       editLink isUrl pgMessage auth now db (EditLinkInput.mk i url' code)
         = (Failure msgShortCodeMin, db)) /\
    (isUrl url' = true -> 20 < strlen code ->
       createLink isUrl pgMessage auth now db (CreateLinkInput.mk url' code)
         = (Failure msgShortCodeMax, db) /\
       editLink isUrl pgMessage auth now db (EditLinkInput.mk i url' code)
         = (Failure msgShortCodeMax, db)) /\
    (isUrl url' = true -> 3 <= strlen code <= 20 ->
     ~ Forall (fun c => shortCodeChar c = true) (chars code) ->
       createLink isUrl pgMessage auth now db (CreateLinkInput.mk url' code)
         = (Failure msgShortCodeRegex, db) /\
       editLink isUrl pgMessage auth now db (EditLinkInput.mk i url' code)
         = (Failure msgShortCodeRegex, db)) /\
    (isUrl url' = true -> shortCodeOk code ->
       createLinkSchema isUrl url' code = [] /\
       editLinkSchema isUrl i url' code = [] /\
       ((exists l, fst (createLink isUrl pgMessage auth now db
                          (CreateLinkInput.mk url' code)) = Success l) \/
        fst (createLink isUrl pgMessage auth now db (CreateLinkInput.mk url' code))
          = Failure msgShortCodeTaken \/
        (exists e, fst (createLink isUrl pgMessage auth now db
                          (CreateLinkInput.mk url' code)) = Failure (pgMessage e))) /\
       ((exists l, fst (editLink isUrl pgMessage auth now db
                          (EditLinkInput.mk i url' code)) = Success l) \/
        fst (editLink isUrl pgMessage auth now db (EditLinkInput.mk i url' code))
          = Failure msgNotFoundOrNotOwned \/
        fst (editLink isUrl pgMessage auth now db (EditLinkInput.mk i url' code))
          = Failure msgShortCodeTaken \/
        (exists e, fst (editLink isUrl pgMessage auth now db
                          (EditLinkInput.mk i url' code)) = Failure (pgMessage e)))).
Proof.
  intros auth u now db i url' code Hu.
  assert (Hstop : forall msg rest,
            createLinkSchema isUrl url' code = msg :: rest ->
            createLink isUrl pgMessage auth now db (CreateLinkInput.mk url' code)
              = (Failure msg, db) /\
            editLink isUrl pgMessage auth now db (EditLinkInput.mk i url' code)
              = (Failure msg, db)).
  { intros msg rest Hs. split.
    - eapply createLink_rejects; [exact Hu | exact Hs].
    - eapply editLink_rejects; [exact Hu |].
      cbn [EditLinkInput.id EditLinkInput.url EditLinkInput.shortCode].
      rewrite editLinkSchema_same. exact Hs. }
  split; [| split; [| split; [| split]]].
  - intros Hurl. apply (Hstop _ (shortCodeIssues code)).
    unfold createLinkSchema. rewrite Hurl. reflexivity.
  - intros Hurl Hmin. unfold createLinkSchema, shortCodeIssues in Hstop.
    rewrite Hurl in Hstop. apply Z.ltb_lt in Hmin. rewrite Hmin in Hstop.
    simpl in Hstop. eapply Hstop. reflexivity.
  - intros Hurl Hmax. unfold createLinkSchema, shortCodeIssues in Hstop.
    rewrite Hurl in Hstop.
    assert ((strlen code <? 3) = false) as Hmin by (apply Z.ltb_ge; lia).
    apply Z.ltb_lt in Hmax. rewrite Hmin, Hmax in Hstop.
    simpl in Hstop. eapply Hstop. reflexivity.
  - intros Hurl [Hlo Hhi] Hbad. unfold createLinkSchema, shortCodeIssues in Hstop.
    rewrite Hurl in Hstop.
    assert ((strlen code <? 3) = false) as Hmin by (apply Z.ltb_ge; lia).
    assert ((20 <? strlen code) = false) as Hmax by (apply Z.ltb_ge; lia).
    assert (shortCodeRegex code = false) as Hre.
    { destruct (shortCodeRegex code) eqn:E; [| reflexivity].
      apply shortCodeRegex_spec in E. destruct E as [_ E]. contradiction. }
    rewrite Hmin, Hmax, Hre in Hstop. simpl in Hstop. eapply Hstop. reflexivity.
  - intros Hurl Hok.
    assert (Hs : createLinkSchema isUrl url' code = [])
      by (apply createLinkSchema_ok; split; assumption).
    split; [exact Hs |]. split; [rewrite editLinkSchema_same; exact Hs |]. split.
    + unfold createLink. rewrite Hu.
      cbn [CreateLinkInput.url CreateLinkInput.shortCode]. rewrite Hs.
      unfold insertLink.
      destruct (insertRow_outcome now db (NewLink.mk u url' code)) as [[l Hl] | [e He]];
        destruct (insertRow pgMessage now db (NewLink.mk u url' code)) as [res db'];
        cbn [fst] in *; subst res.
      * left. eexists. reflexivity.
      * destruct (includes (pgMessage e) "unique");
          [right; left; reflexivity | right; right; exists e; reflexivity].
    + unfold editLink. rewrite Hu.
      cbn [EditLinkInput.id EditLinkInput.url EditLinkInput.shortCode].
      rewrite editLinkSchema_same, Hs. unfold updateLink.
      destruct (selectOwned db i u); [right; left; reflexivity |].
      destruct (updateOwned_outcome now db i u url' code) as [[ret Hret] | [e He]];
        destruct (updateOwned pgMessage now db i u url' code) as [res db'];
        cbn [fst] in *; subst res.
      * destruct (hd_error ret); [left; eexists; reflexivity | right; left; reflexivity].
      * destruct (includes (pgMessage e) "unique");
          [right; right; left; reflexivity | right; right; right; exists e; reflexivity].
Qed.

End Invariants.

(** X8 on the scenario of the six requests. *)
Lemma ids_stay_distinct_and_are_never_reused_witness :
  keysFresh emptyDb /\
  keysFresh (serveAll httpUrl postgresMessage emptyDb demoRequests) /\
  nextId emptyDb <= nextId (serveAll httpUrl postgresMessage emptyDb demoRequests).
Proof.
  assert (keysFresh emptyDb) as H by (split; [constructor | intros r []]).
  split; [exact H |].
  exact (ids_stay_distinct_and_are_never_reused httpUrl postgresMessage emptyDb
           demoRequests H).
Defined.

(** X9 on the scenario: the link 5, moved by its owner and aimed at by
    user B, is still the link of user A created at time 10. *)
Lemma owner_and_creation_time_never_change_witness :
  In (mkLink 5 "userA" "moved" "https://a.org" 10 21)
     (rows (serveAll httpUrl postgresMessage scenarioDb scenarioRequests)) /\
  id (mkLink 5 "userA" "moved" "https://a.org" 10 21) < nextId scenarioDb /\
  exists r, In r (rows scenarioDb) /\ id r = 5 /\ userId r = "userA" /\ createdAt r = 10.
Proof.
  assert (In (mkLink 5 "userA" "moved" "https://a.org" 10 21)
             (rows (serveAll httpUrl postgresMessage scenarioDb scenarioRequests))) as Hin
    by (left; reflexivity).
  assert (id (mkLink 5 "userA" "moved" "https://a.org" 10 21) < nextId scenarioDb) as Hlt
    by (simpl; lia).
  split; [exact Hin |]. split; [exact Hlt |].
  exact (owner_and_creation_time_never_change httpUrl postgresMessage scenarioRequests
           scenarioDb _ Hin Hlt).
Defined.

Lemma otherRequests_not_userA :
  forall rq, In rq otherRequests -> signedIn (caller rq) <> Some "userA".
Proof.
  intros rq H. repeat (destruct H as [<- | H]; [discriminate |]). destruct H.
Qed.

(** X10 on the scenario: user B's requests leave the listing of user A. *)
Lemma requests_of_others_leave_my_links_witness :
  (forall rq, In rq otherRequests -> signedIn (caller rq) <> Some "userA") /\
  getUserLinks (serveAll httpUrl postgresMessage scenarioDb otherRequests) "userA"
    = [scenarioLink].
Proof.
  split; [exact otherRequests_not_userA |].
  exact (proj2 (requests_of_others_leave_my_links httpUrl postgresMessage otherRequests
                  scenarioDb "userA" otherRequests_not_userA)).
Defined.

(** X11 on the scenario of the six requests. *)
Lemma stored_links_always_pass_the_schema_witness :
  storedValid httpUrl emptyDb /\
  In (mkLink 3 "userB" "other" "https://b.com" 12 12)
     (rows (serveAll httpUrl postgresMessage emptyDb demoRequests)) /\
  3 <= strlen "other" <= 20.
Proof.
  assert (storedValid httpUrl emptyDb) as H by (intros r []).
  assert (In (mkLink 3 "userB" "other" "https://b.com" 12 12)
             (rows (serveAll httpUrl postgresMessage emptyDb demoRequests))) as Hin
    by (right; left; reflexivity).
  split; [exact H |]. split; [exact Hin |].
  exact (proj1 (proj2 (stored_links_always_pass_the_schema httpUrl postgresMessage
                         demoRequests emptyDb H _ Hin))).
Defined.

(** X12 on the empty short code: too short, for create and edit. *)
Lemma which_validation_message_witness :
  signedIn (Some "userA") = Some "userA" /\
  httpUrl "https://example.com" = true /\
  strlen "" < 3 /\
  createLink httpUrl postgresMessage (Some "userA") 20 scenarioDb
    (CreateLinkInput.mk "https://example.com" "") = (Failure msgShortCodeMin, scenarioDb) /\
  editLink httpUrl postgresMessage (Some "userA") 20 scenarioDb
    (EditLinkInput.mk 5 "https://example.com" "") = (Failure msgShortCodeMin, scenarioDb).
Proof.
  assert (strlen "" < 3) as Hshort by (cbv; reflexivity).
  split; [reflexivity |]. split; [reflexivity |]. split; [exact Hshort |].
  exact (proj1 (proj2 (which_validation_message httpUrl postgresMessage (Some "userA")
                         "userA" 20 scenarioDb 5 "https://example.com" "" eq_refl))
               eq_refl Hshort).
Defined.

(** ** The listing and the dashboard *)

(** A row that every earlier row of the list does not beat stays in front
    of the sorted list. *)
Lemma orderByDesc_snoc (key : Link -> Z) (x : Link) (l : list Link) :
  (forall y, In y l -> key y <= key x) ->
  orderByDesc key (l ++ [x]) = x :: orderByDesc key l.
Proof.
  intros H. induction l as [|y l IH]; [reflexivity |].
  change (insertDesc key y (orderByDesc key (l ++ [x]))
          = x :: insertDesc key y (orderByDesc key l)).
  rewrite IH by (intros z Hz; apply H; right; exact Hz).
  simpl. assert ((key x <? key y) = false) as ->; [| reflexivity].
  apply Z.ltb_ge. apply H. left. reflexivity.
Qed.

(** The row with the strictly greatest key comes first. *)
Lemma orderByDesc_head (key : Link -> Z) (x : Link) (l : list Link) :
  In x l ->
  (forall y, In y l -> y = x \/ key y < key x) ->
  hd_error (orderByDesc key l) = Some x.
Proof.
  intros Hin Hmax.
  pose proof (orderByDesc_perm key l) as Hperm.
  pose proof (orderByDesc_sorted key l) as Hsorted.
  destruct (orderByDesc key l) as [|h t].
  - apply (Permutation_in x Hperm) in Hin. destruct Hin.
  - simpl. f_equal.
    assert (In h l) as Hh by (apply (Permutation_in h (Permutation_sym Hperm)); left; reflexivity).
    destruct (Hmax h Hh) as [-> | Hlt]; [reflexivity |].
    apply (Permutation_in x Hperm) in Hin. destruct Hin as [-> | Hx]; [reflexivity |].
    inversion Hsorted as [|? ? _ Hall]; subst.
    rewrite Forall_forall in Hall. specialize (Hall x Hx). simpl in Hall. lia.
Qed.

Lemma getUserLinks_nil (db : Db) (u : string) :
  getUserLinks db u = [] <-> forall r, In r (rows db) -> userId r <> u.
Proof.
  split.
  - intros H r Hr Hu.
    assert (In r (getUserLinks db u)) as Hin by (apply getUserLinks_In; auto).
    rewrite H in Hin. destruct Hin.
  - intros H. destruct (getUserLinks db u) as [|r l] eqn:E; [reflexivity |].
    assert (In r (getUserLinks db u)) as Hin by (rewrite E; left; reflexivity).
    apply getUserLinks_In in Hin. destruct Hin as [Hin Hu]. exfalso. exact (H r Hin Hu).
Qed.

(** X13.  The dashboard sends a visitor without a user id to "/"; a
    signed-in user whose Links the store has none of is shown "No links
    yet", and only such a user; a signed-in user with a Link is shown the
    cards of their Links, one for each Link of that user and for no other
    Link, the most recently updated first. *)
Theorem dashboard_shows_exactly_the_links_of_the_user :
  forall (auth : option string) (db : Db),
    (signedIn auth = None -> DashboardPage auth db = RedirectTo "/") /\
    (forall u, signedIn auth = Some u ->
       (DashboardPage auth db = NoLinksYet <->
        forall r, In r (rows db) -> userId r <> u) /\
       ((exists r, In r (rows db) /\ userId r = u) ->
          exists links,
            DashboardPage auth db = YourLinks (map linkCard links) /\
            links <> [] /\
            Permutation (filter (fun r => (userId r =? u)%string) (rows db)) links /\
            StronglySorted (fun a b => updatedAt b <= updatedAt a) links)).
Proof.
  intros auth db. unfold DashboardPage. split.
  - intros ->. reflexivity.
  - intros u ->. cbn zeta. split.
    + rewrite <- getUserLinks_nil.
      destruct (getUserLinks db u) as [|r l]; simpl; split; intros H;
        try reflexivity; discriminate.
    + intros (r & Hr & Hu).
      assert (In r (getUserLinks db u)) as Hin by (apply getUserLinks_In; auto).
      exists (getUserLinks db u).
      destruct (getUserLinks db u) as [|x l] eqn:E; [destruct Hin |].
      split; [reflexivity |]. split; [discriminate |].
      rewrite <- E. unfold getUserLinks.
      split; [apply orderByDesc_perm | apply orderByDesc_sorted].
Qed.

(** X14.  With distinct ids in the store, the React keys of the cards of
    the dashboard are distinct, and every card is the card of a Link of
    the signed-in user. *)
Theorem dashboard_cards_have_distinct_keys :
  forall (auth : option string) (u : string) (db : Db) (cards : list Card),
    NoDup (map id (rows db)) ->
    signedIn auth = Some u ->
    DashboardPage auth db = YourLinks cards ->
    NoDup (map cardKey cards) /\
    forall c, In c cards ->
      exists r, In r (rows db) /\ userId r = u /\ c = linkCard r.
Proof.
  intros auth u db cards Hnd Hu H. unfold DashboardPage in H. rewrite Hu in H.
  cbn zeta in H. destruct (List.length (getUserLinks db u) =? 0)%nat; [discriminate |].
  inversion H; subst. split.
  - rewrite map_map. cbn [linkCard cardKey].
    apply (Permutation_NoDup
             (l := map id (filter (fun r => (userId r =? u)%string) (rows db)))).
    + apply Permutation_map. unfold getUserLinks. apply orderByDesc_perm.
    + apply keys_distinct_among_kept, Hnd.
  - intros c Hc. apply in_map_iff in Hc. destruct Hc as (r & <- & Hr).
    apply getUserLinks_In in Hr. exists r. tauto.
Qed.

Section Listing.

Variable isUrl : string -> bool.
Variable pgMessage : PgError -> string.

(** X15.  A Link created after the caller's other Links were last updated
    goes to the top of the caller's listing; below it come the Links the
    caller had, all of them and only them, the most recently updated
    first. *)
Theorem created_link_tops_the_listing :
  forall (auth : option string) (u : string) (now : Z) (db : Db)
         (url' code : string),
    signedIn auth = Some u ->
    isUrl url' = true ->
    shortCodeOk code ->
    keysFresh db ->
    (forall r, In r (rows db) -> shortCode r <> code) ->
    (forall r, In r (rows db) -> userId r = u -> updatedAt r < now) ->
    exists rest,
      getUserLinks (snd (createLink isUrl pgMessage auth now db
                           (CreateLinkInput.mk url' code))) u
        = mkLink (nextId db) u code url' now now :: rest /\
      Permutation (filter (fun r => (userId r =? u)%string) (rows db)) rest /\
      StronglySorted (fun a b => updatedAt b <= updatedAt a) rest.
Proof.
  intros auth u now db url' code Hu Hurl Hok [_ Hfresh] Hcode Htimes.
  rewrite (createLink_fresh isUrl pgMessage auth u now db url' code); try assumption.
  2: { apply createLinkSchema_ok. split; assumption. }
  2: { intros r Hr. specialize (Hfresh r Hr). lia. }
  cbn [snd]. unfold getUserLinks. cbn [rows]. rewrite filter_app. simpl.
  rewrite String.eqb_refl.
  exists (orderByDesc updatedAt (filter (fun r => (userId r =? u)%string) (rows db))).
  split; [| split; [apply orderByDesc_perm | apply orderByDesc_sorted]].
  apply orderByDesc_snoc.
  intros y Hy. apply filter_In in Hy. destruct Hy as [Hy Hyu].
  apply String.eqb_eq in Hyu. simpl. specialize (Htimes y Hy Hyu). lia.
Qed.

(** X16.  An edited Link moves to the top of its owner's listing when the
    owner's other Links were all updated before the edit. *)
Theorem edited_link_tops_the_listing :
  forall (auth : option string) (u : string) (now : Z) (db : Db)
         (r : Link) (url' code : string),
    signedIn auth = Some u ->
    isUrl url' = true ->
    shortCodeOk code ->
    keysFresh db ->
    In r (rows db) -> userId r = u ->
    (forall o, In o (rows db) -> shortCode o = code -> o = r) ->
    (forall o, In o (rows db) -> userId o = u -> o <> r -> updatedAt o < now) ->
    hd_error (getUserLinks (snd (editLink isUrl pgMessage auth now db
                                   (EditLinkInput.mk (id r) url' code))) u)
      = Some (setFields url' code now r).
Proof.
  intros auth u now db r url' code Hu Hurl Hok [Hnd _] Hin Hru Hcode Htimes.
  rewrite (editLink_owned isUrl pgMessage auth u now db r url' code); try assumption.
  2: { apply createLinkSchema_ok. split; assumption. }
  2: { intros o Ho Hc. rewrite (Hcode o Ho Hc). reflexivity. }
  cbn [snd]. unfold getUserLinks. cbn [rows].
  assert (ownedBy (id r) u r = true) as Hown by (apply ownedBy_true; auto).
  apply orderByDesc_head.
  - apply filter_In. split.
    + apply in_map_iff. exists r. rewrite Hown. split; [reflexivity | exact Hin].
    + simpl. apply String.eqb_eq. exact Hru.
  - intros y Hy. apply filter_In in Hy. destruct Hy as [Hy Hyu].
    apply in_map_iff in Hy. destruct Hy as (x & Hx & Hxin).
    destruct (ownedBy (id r) u x) eqn:E.
    + apply ownedBy_true in E. destruct E as [E _].
      assert (x = r) as -> by (apply (NoDup_map_inj id (rows db)); assumption).
      left. symmetry. exact Hx.
    + subst y. right. apply String.eqb_eq in Hyu. simpl.
      apply Htimes; [exact Hxin | exact Hyu |].
      intros ->. congruence.
Qed.

End Listing.

Lemma listingDb_keysFresh : keysFresh listingDb.
Proof.
  split.
  - simpl. repeat (constructor; [simpl; lia |]). constructor.
  - intros r Hr. simpl in Hr.
    repeat (destruct Hr as [<- | Hr]; [simpl; lia |]). destruct Hr.
Qed.

(** X14 on a store with three links of user A among four: three cards
    with the keys 3, 4 and 1. *)
Lemma dashboard_cards_have_distinct_keys_witness :
  NoDup (map id (rows listingDb)) /\
  signedIn (Some "userA") = Some "userA" /\
  DashboardPage (Some "userA") listingDb
    = YourLinks [ mkCard 3 "three" "https://c.com" "/three" 12;
                  mkCard 4 "four" "https://d.com" "/four" 13;
                  mkCard 1 "one" "https://a.com" "/one" 10 ] /\
  NoDup (map cardKey [ mkCard 3 "three" "https://c.com" "/three" 12;
                       mkCard 4 "four" "https://d.com" "/four" 13;
                       mkCard 1 "one" "https://a.com" "/one" 10 ]) /\
  (forall c, In c [ mkCard 3 "three" "https://c.com" "/three" 12;
                    mkCard 4 "four" "https://d.com" "/four" 13;
                    mkCard 1 "one" "https://a.com" "/one" 10 ] ->
     exists r, In r (rows listingDb) /\ userId r = "userA" /\ c = linkCard r).
Proof.
  split; [exact (proj1 listingDb_keysFresh) |]. split; [reflexivity |].
  split; [reflexivity |].
  exact (dashboard_cards_have_distinct_keys (Some "userA") "userA" listingDb
           _ (proj1 listingDb_keysFresh) eq_refl eq_refl).
Defined.

Lemma shortCodeOk_five : shortCodeOk "five".
Proof. split; [cbv; split; discriminate | repeat constructor]. Qed.

Lemma listingDb_no_five : forall r, In r (rows listingDb) -> shortCode r <> "five".
Proof.
  intros r Hr. simpl in Hr.
  repeat (destruct Hr as [<- | Hr]; [discriminate |]). destruct Hr.
Qed.

Lemma listingDb_before_20 :
  forall r, In r (rows listingDb) -> userId r = "userA" -> updatedAt r < 20.
Proof.
  intros r Hr _. simpl in Hr.
  repeat (destruct Hr as [<- | Hr]; [simpl; lia |]). destruct Hr.
Qed.

(** X15 on a store where user A has three links: the fourth, created at
    time 20, comes first. *)
Lemma created_link_tops_the_listing_witness :
  signedIn (Some "userA") = Some "userA" /\
  httpUrl "https://e.com" = true /\
  shortCodeOk "five" /\
  keysFresh listingDb /\
  (forall r, In r (rows listingDb) -> shortCode r <> "five") /\
  (forall r, In r (rows listingDb) -> userId r = "userA" -> updatedAt r < 20) /\
  exists rest,
    getUserLinks (snd (createLink httpUrl postgresMessage (Some "userA") 20 listingDb
                         (CreateLinkInput.mk "https://e.com" "five"))) "userA"
      = mkLink 5 "userA" "five" "https://e.com" 20 20 :: rest /\
    Permutation (filter (fun r => (userId r =? "userA")%string) (rows listingDb)) rest /\
    StronglySorted (fun a b => updatedAt b <= updatedAt a) rest.
Proof.
  repeat (split; [first [ reflexivity | exact shortCodeOk_five
                        | exact listingDb_keysFresh | exact listingDb_no_five
                        | exact listingDb_before_20 ] |]).
  exact (created_link_tops_the_listing httpUrl postgresMessage (Some "userA") "userA" 20
           listingDb "https://e.com" "five" eq_refl eq_refl shortCodeOk_five
           listingDb_keysFresh listingDb_no_five listingDb_before_20).
Defined.

Lemma shortCodeOk_uno : shortCodeOk "uno".
Proof. split; [cbv; split; discriminate | repeat constructor]. Qed.

Lemma listingDb_uno_is_free :
  forall o, In o (rows listingDb) -> shortCode o = "uno" ->
            o = mkLink 1 "userA" "one" "https://a.com" 10 10.
Proof.
  intros o Ho. simpl in Ho.
  repeat (destruct Ho as [<- | Ho]; [discriminate |]). destruct Ho.
Qed.

Lemma listingDb_others_before_20 :
  forall o, In o (rows listingDb) -> userId o = "userA" ->
            o <> mkLink 1 "userA" "one" "https://a.com" 10 10 -> updatedAt o < 20.
Proof.
  intros o Ho _ _. simpl in Ho.
  repeat (destruct Ho as [<- | Ho]; [simpl; lia |]). destruct Ho.
Qed.

(** X16 on a store where user A has three links: the oldest, edited at
    time 20, comes first, ahead of the links updated at 15 and 13. *)
Lemma edited_link_tops_the_listing_witness :
  signedIn (Some "userA") = Some "userA" /\
  httpUrl "https://a.org" = true /\
  shortCodeOk "uno" /\
  keysFresh listingDb /\
  In (mkLink 1 "userA" "one" "https://a.com" 10 10) (rows listingDb) /\
  (forall o, In o (rows listingDb) -> shortCode o = "uno" ->
     o = mkLink 1 "userA" "one" "https://a.com" 10 10) /\
  (forall o, In o (rows listingDb) -> userId o = "userA" ->
     o <> mkLink 1 "userA" "one" "https://a.com" 10 10 -> updatedAt o < 20) /\
  hd_error (getUserLinks (snd (editLink httpUrl postgresMessage (Some "userA") 20
                                 listingDb (EditLinkInput.mk 1 "https://a.org" "uno")))
              "userA")
    = Some (mkLink 1 "userA" "uno" "https://a.org" 10 20) /\
  getUserLinks listingDb "userA"
    = [ mkLink 3 "userA" "three" "https://c.com" 12 15;
        mkLink 4 "userA" "four" "https://d.com" 13 13;
        mkLink 1 "userA" "one" "https://a.com" 10 10 ].
Proof.
  assert (In (mkLink 1 "userA" "one" "https://a.com" 10 10) (rows listingDb)) as Hin
    by (left; reflexivity).
  split; [reflexivity |]. split; [reflexivity |]. split; [exact shortCodeOk_uno |].
  split; [exact listingDb_keysFresh |]. split; [exact Hin |].
  split; [exact listingDb_uno_is_free |]. split; [exact listingDb_others_before_20 |].
  split; [| reflexivity].
  exact (edited_link_tops_the_listing httpUrl postgresMessage (Some "userA") "userA" 20
           listingDb (mkLink 1 "userA" "one" "https://a.com" 10 10) "https://a.org" "uno"
           eq_refl eq_refl shortCodeOk_uno listingDb_keysFresh Hin eq_refl
           listingDb_uno_is_free listingDb_others_before_20).
Defined.

(** ** The seed script *)

Lemma find_app_skip {A : Type} (p : A -> bool) (l1 l2 : list A) :
  (forall y, In y l1 -> p y = false) -> find p (l1 ++ l2) = find p l2.
Proof.
  intros H. induction l1 as [|y l1 IH]; simpl; [reflexivity |].
  rewrite (H y (or_introl eq_refl)). apply IH. intros z Hz. apply H. right. exact Hz.
Qed.

(** The check [existingSeed.length > 0]. *)
Lemma existingSeed_check (db : Db) :
  (0 <? List.length
          (firstn 1 (filter (fun r => (userId r =? SEED_USER_ID)%string) (rows db))))%nat
    = true
  <-> exists r, In r (rows db) /\ userId r = SEED_USER_ID.
Proof.
  destruct (filter (fun r => (userId r =? SEED_USER_ID)%string) (rows db))
    as [|x l] eqn:Hf; simpl; split.
  - discriminate.
  - intros (r & Hr & Hu).
    assert (In r (filter (fun r => (userId r =? SEED_USER_ID)%string) (rows db))) as Hin
      by (apply filter_In; split; [exact Hr | apply String.eqb_eq; exact Hu]).
    rewrite Hf in Hin. destruct Hin.
  - intros _.
    assert (In x (filter (fun r => (userId r =? SEED_USER_ID)%string) (rows db))) as Hin
      by (rewrite Hf; left; reflexivity).
    apply filter_In in Hin. rewrite String.eqb_eq in Hin. exists x. exact Hin.
  - reflexivity.
Qed.

(** Where a short code of the data sits among the stamped rows. *)
Lemma find_stamped (now : Z) (d : NewLink.t) :
  forall (datas : list NewLink.t) (n : Z),
    NoDup (map NewLink.shortCode datas) -> In d datas ->
    exists l, find (hasShortCode (NewLink.shortCode d)) (stamped now n datas) = Some l /\
              url l = NewLink.url d /\ userId l = NewLink.userId d.
Proof.
  induction datas as [|d0 datas IH]; intros n Hnd Hin; [destruct Hin |].
  simpl in Hnd. inversion Hnd as [|? ? Hnotin Hnd']; subst. simpl.
  destruct Hin as [-> | Hin].
  - unfold hasShortCode at 1. cbn [shortCode]. rewrite String.eqb_refl.
    eexists. split; [reflexivity |]. split; reflexivity.
  - unfold hasShortCode at 1. cbn [shortCode].
    assert ((NewLink.shortCode d0 =? NewLink.shortCode d)%string = false) as ->.
    { apply String.eqb_neq. intros E. apply Hnotin. rewrite E. apply in_map, Hin. }
    apply IH; assumption.
Qed.

Lemma stamped_userId (now : Z) (datas : list NewLink.t) :
  forall n r, In r (stamped now n datas) ->
    exists d, In d datas /\ userId r = NewLink.userId d /\
              shortCode r = NewLink.shortCode d /\ url r = NewLink.url d.
Proof.
  induction datas as [|d datas IH]; intros n r Hin; [destruct Hin |].
  destruct Hin as [<- | Hin].
  - exists d. simpl. auto.
  - destruct (IH _ _ Hin) as (d' & Hd' & H). exists d'. split; [right; exact Hd' | exact H].
Qed.

Lemma seedData_codes_distinct : NoDup (map NewLink.shortCode seedData).
Proof.
  simpl. repeat (constructor; [simpl; intros H;
    repeat (destruct H as [H | H]; [discriminate H |]); exact H |]).
  constructor.
Qed.

Lemma seedData_codes_ok : forall d, In d seedData -> shortCodeOk (NewLink.shortCode d).
Proof.
  intros d H.
  repeat (destruct H as [<- | H];
          [split; [cbv; split; discriminate | repeat constructor] |]).
  destruct H.
Qed.

Lemma seedData_owner : forall d, In d seedData -> NewLink.userId d = SEED_USER_ID.
Proof.
  intros d H. repeat (destruct H as [<- | H]; [reflexivity |]). destruct H.
Qed.

Section SeedProperties.

Variable pgMessage : PgError -> string.

Lemma insertRow_ok (now : Z) (db : Db) (d : NewLink.t) :
  strlen (NewLink.shortCode d) <= 20 ->
  (forall r, In r (rows db) -> id r < nextId db) ->
  (forall r, In r (rows db) -> shortCode r <> NewLink.shortCode d) ->
  insertRow pgMessage now db d
    = (inr (mkLink (nextId db) (NewLink.userId d) (NewLink.shortCode d)
                   (NewLink.url d) now now),
       mkDb (rows db ++ [mkLink (nextId db) (NewLink.userId d) (NewLink.shortCode d)
                                (NewLink.url d) now now])
            (nextId db + 1)).
Proof.
  intros Hlen Hid Hcode. unfold insertRow. cbn [shortCode id].
  assert ((20 <? strlen (NewLink.shortCode d)) = false) as ->
    by (apply Z.ltb_ge; exact Hlen).
  rewrite existsb_none by (intros x Hx; apply Z.eqb_neq; specialize (Hid x Hx); lia).
  rewrite existsb_none by (intros x Hx; apply hasShortCode_false, Hcode, Hx).
  reflexivity.
Qed.

(** A multi-row insert of data with distinct short codes, none of them in
    the table, inserts every row. *)
Lemma insertEach_ok (now : Z) :
  forall (datas : list NewLink.t) (db : Db),
    NoDup (map NewLink.shortCode datas) ->
    (forall d, In d datas -> strlen (NewLink.shortCode d) <= 20) ->
    (forall r, In r (rows db) -> id r < nextId db) ->
    (forall r d, In r (rows db) -> In d datas -> shortCode r <> NewLink.shortCode d) ->
    insertEach pgMessage now db datas
      = (inr (stamped now (nextId db) datas),
         mkDb (rows db ++ stamped now (nextId db) datas)
              (nextId db + Z.of_nat (List.length datas))).
Proof.
  induction datas as [|d datas IH]; intros db Hnd Hlen Hid Hcode.
  - simpl. rewrite app_nil_r, Z.add_0_r. destruct db; reflexivity.
  - simpl in Hnd. inversion Hnd as [|? ? Hnotin Hnd']; subst.
    cbn [insertEach].
    rewrite insertRow_ok;
      [| apply Hlen; left; reflexivity | exact Hid
       | intros r Hr; apply (Hcode r d Hr); left; reflexivity].
    rewrite IH; cbn [rows nextId].
    + cbn [stamped]. rewrite <- app_assoc. simpl.
      replace (nextId db + 1 + Z.of_nat (List.length datas))
        with (nextId db + Z.of_nat (S (List.length datas))) by lia.
      reflexivity.
    + exact Hnd'.
    + intros d' Hd'. apply Hlen. right. exact Hd'.
    + intros r Hr. apply in_app_or in Hr.
      destruct Hr as [Hr | [<- | []]]; [specialize (Hid r Hr); lia | simpl; lia].
    + intros r d' Hr Hd'. apply in_app_or in Hr. destruct Hr as [Hr | [<- | []]].
      * apply (Hcode r d' Hr). right. exact Hd'.
      * simpl. intros E. apply Hnotin. rewrite E. apply in_map, Hd'.
Qed.

(** What a multi-row insert returns is what it appended, one row for each
    datum, with the datum's owner. *)
Lemma insertEach_inr (now : Z) :
  forall (datas : list NewLink.t) (db db' : Db) (inserted : list Link),
    insertEach pgMessage now db datas = (inr inserted, db') ->
    rows db' = rows db ++ inserted /\
    map userId inserted = map NewLink.userId datas.
Proof.
  induction datas as [|d datas IH]; intros db db' inserted H; cbn [insertEach] in H.
  - inversion H; subst. rewrite app_nil_r. split; reflexivity.
  - destruct (insertRow_rows pgMessage now db d) as [_ Hrows].
    unfold insertRow in H, Hrows. cbn [shortCode id] in H, Hrows.
    destruct (20 <? strlen _); [discriminate |].
    destruct (existsb _ (rows db)); [discriminate |].
    destruct (existsb _ (rows db)); [discriminate |].
    destruct (insertEach pgMessage now _ datas) as [[e | rs] db''] eqn:Hrec;
      [discriminate |].
    inversion H; subst. apply IH in Hrec. destruct Hrec as [Hr Hu].
    cbn [rows] in Hr. rewrite Hr, <- app_assoc. simpl. rewrite Hu.
    split; reflexivity.
Qed.

(** A multi-row insert keeps the short codes and the ids distinct, moves
    the identity sequence forward only, and removes no row. *)
Lemma insertEach_consistent (now : Z) :
  forall (datas : list NewLink.t) (db : Db),
    uniqueShortCodes db -> keysFresh db ->
    uniqueShortCodes (snd (insertEach pgMessage now db datas)) /\
    keysFresh (snd (insertEach pgMessage now db datas)) /\
    nextId db <= nextId (snd (insertEach pgMessage now db datas)).
Proof.
  induction datas as [|d datas IH]; intros db Hu Hk; cbn [insertEach].
  - cbn [snd]. split; [exact Hu |]. split; [exact Hk | lia].
  - pose proof (insertRow_unique pgMessage now db d Hu) as Hu1.
    assert (keysFresh (snd (insertRow pgMessage now db d)) /\
            nextId db <= nextId (snd (insertRow pgMessage now db d))) as [Hk1 Hle1].
    { split; [apply insertRow_keysFresh, Hk |].
      destruct (insertRow_rows pgMessage now db d) as [Hn _]. lia. }
    destruct (insertRow pgMessage now db d) as [[e | r] db1]; cbn [snd] in *.
    + split; [exact Hu1 |]. split; [exact Hk1 | exact Hle1].
    + destruct (IH db1 Hu1 Hk1) as (Hu2 & Hk2 & Hle2).
      destruct (insertEach pgMessage now db1 datas) as [[e | rs] db2]; cbn [snd] in *;
        (split; [exact Hu2 |]; split; [exact Hk2 | lia]).
Qed.

(** X17.  The seed script runs once: when it ends with exit code 0 (it
    inserted the seed data, or found seed data and skipped), a further run
    finds seed data, changes nothing and skips. *)
Theorem seed_runs_once :
  forall (now now' : Z) (db : Db),
    exitCode (fst (seed pgMessage now db)) = 0 ->
    seed pgMessage now' (snd (seed pgMessage now db))
      = (SeedSkipped, snd (seed pgMessage now db)).
Proof.
  intros now now' db Hexit.
  assert (exists r, In r (rows (snd (seed pgMessage now db))) /\ userId r = SEED_USER_ID)
    as Hseeded.
  { unfold seed in *. cbn zeta in *.
    destruct (0 <? List.length (firstn 1 _))%nat eqn:Hcheck.
    - cbn [snd]. apply existingSeed_check. exact Hcheck.
    - unfold insertValues in *.
      destruct (insertEach pgMessage now db seedData) as [[e | inserted] db'] eqn:Hins;
        cbn [fst snd exitCode] in *; [discriminate |].
      apply insertEach_inr in Hins. destruct Hins as [Hrows Hown].
      destruct inserted as [|r inserted]; [discriminate |].
      exists r. split; [rewrite Hrows; apply in_or_app; right; left; reflexivity |].
      simpl in Hown. inversion Hown. reflexivity. }
  apply existingSeed_check in Hseeded.
  unfold seed at 1. cbn zeta. rewrite Hseeded. reflexivity.
Qed.

Lemma seed_inserts_the_seed_data_aux (now : Z) (db : Db) :
  (forall r, In r (rows db) -> userId r <> SEED_USER_ID) ->
  (forall r, In r (rows db) -> id r < nextId db) ->
  (forall r d, In r (rows db) -> In d seedData -> shortCode r <> NewLink.shortCode d) ->
  seed pgMessage now db
    = (SeedCompleted (stamped now (nextId db) seedData),
       mkDb (rows db ++ stamped now (nextId db) seedData) (nextId db + 10)).
Proof.
  intros Hnone Hid Hcode. unfold seed. cbn zeta.
  assert ((0 <? List.length
                  (firstn 1 (filter (fun r => (userId r =? SEED_USER_ID)%string)
                                    (rows db))))%nat = false) as ->.
  { destruct (0 <? List.length (firstn 1 _))%nat eqn:E; [| reflexivity].
    apply existingSeed_check in E. destruct E as (r & Hr & Hu).
    exfalso. exact (Hnone r Hr Hu). }
  unfold insertValues.
  rewrite (insertEach_ok now seedData db seedData_codes_distinct); try assumption.
  - reflexivity.
  - intros d Hd. apply seedData_codes_ok in Hd. destruct Hd as [[_ Hd] _]. exact Hd.
Qed.

(** X18.  On a store without a Link of the seed user, with ids below the
    identity sequence and none of the ten seed short codes taken, the seed
    script inserts the ten seed links in one statement: they follow the
    rows already there, in the order of [seedData], with consecutive ids,
    the seed user as owner and both timestamps at the time of the
    insert. *)
Theorem seed_inserts_the_seed_data :
  forall (now : Z) (db : Db),
    (forall r, In r (rows db) -> userId r <> SEED_USER_ID) ->
    (forall r, In r (rows db) -> id r < nextId db) ->
    (forall r d, In r (rows db) -> In d seedData -> shortCode r <> NewLink.shortCode d) ->
    seed pgMessage now db
      = (SeedCompleted (stamped now (nextId db) seedData),
         mkDb (rows db ++ stamped now (nextId db) seedData) (nextId db + 10)).
Proof.
  intros now db. apply seed_inserts_the_seed_data_aux.
Qed.

(** X19.  However the seed script ends, it removes no row, keeps the short
    codes distinct and the ids distinct and below the identity sequence;
    when it fails (exit code 1) the table is what it was. *)
Theorem seed_keeps_the_store_consistent :
  forall (now : Z) (db : Db),
    uniqueShortCodes db ->
    keysFresh db ->
    uniqueShortCodes (snd (seed pgMessage now db)) /\
    keysFresh (snd (seed pgMessage now db)) /\
    (forall r, In r (rows db) -> In r (rows (snd (seed pgMessage now db)))) /\
    (exitCode (fst (seed pgMessage now db)) = 1 ->
     rows (snd (seed pgMessage now db)) = rows db).
Proof.
  intros now db Hu Hk. unfold seed. cbn zeta.
  destruct (0 <? List.length (firstn 1 _))%nat.
  - cbn [fst snd exitCode].
    split; [exact Hu |]. split; [exact Hk |]. split; [auto | discriminate].
  - unfold insertValues.
    destruct (insertEach_consistent now seedData db Hu Hk) as (Hu' & Hk' & Hle).
    destruct (insertEach pgMessage now db seedData) as [[e | inserted] db'] eqn:Hins;
      cbn [fst snd exitCode rows] in *.
    + split; [exact Hu |]. split; [| split; [auto | reflexivity]].
      destruct Hk as [Hnd Hlt]. split; [exact Hnd |].
      intros r Hr. cbn [rows nextId]. specialize (Hlt r Hr). lia.
    + split; [exact Hu' |]. split; [exact Hk' |]. split; [| discriminate].
      apply insertEach_inr in Hins. destruct Hins as [Hrows _].
      intros r Hr. rewrite Hrows. apply in_or_app. left. exact Hr.
Qed.

End SeedProperties.

Section SeedRoute.

Variable isUrl : string -> bool.
Variable pgMessage : PgError -> string.

(** X20.  After such a seed, and with a URL parser that accepts the seed
    urls, the route redirects each of the ten seed short codes to its seed
    url with status 307, and every seeded Link passes the schema of the
    actions. *)
Theorem seeded_links_resolve :
  forall (now : Z) (db : Db),
    (forall r, In r (rows db) -> userId r <> SEED_USER_ID) ->
    (forall r, In r (rows db) -> id r < nextId db) ->
    (forall r d, In r (rows db) -> In d seedData -> shortCode r <> NewLink.shortCode d) ->
    (forall d, In d seedData -> isUrl (NewLink.url d) = true) ->
    (forall d, In d seedData ->
       GET isUrl (snd (seed pgMessage now db)) (NewLink.shortCode d)
         = inr (Redirect (NewLink.url d) 307)) /\
    (forall r, In r (rows (snd (seed pgMessage now db))) ->
       userId r = SEED_USER_ID ->
       isUrl (url r) = true /\ shortCodeOk (shortCode r)).
Proof.
  intros now db Hnone Hid Hcode Hurls.
  rewrite (seed_inserts_the_seed_data_aux pgMessage now db Hnone Hid Hcode).
  cbn [snd rows]. split.
  - intros d Hd. unfold GET, getLinkByShortCode. cbn [rows].
    rewrite find_app_skip
      by (intros y Hy; apply hasShortCode_false; exact (Hcode y d Hy Hd)).
    destruct (find_stamped now d seedData (nextId db) seedData_codes_distinct Hd)
      as (l & -> & Hl & _).
    unfold NextResponse_redirect. rewrite Hl, (Hurls d Hd). reflexivity.
  - intros r Hr Hu. apply in_app_or in Hr. destruct Hr as [Hr | Hr].
    + exfalso. exact (Hnone r Hr Hu).
    + apply stamped_userId in Hr. destruct Hr as (d & Hd & _ & Hc & Hl).
      rewrite Hc, Hl. split; [apply Hurls, Hd | apply seedData_codes_ok, Hd].
Qed.

End SeedRoute.

(** X17 on the empty store: the second run skips. *)
Lemma seed_runs_once_witness :
  exitCode (fst (seed postgresMessage 100 emptyDb)) = 0 /\
  fst (seed postgresMessage 200 (snd (seed postgresMessage 100 emptyDb))) = SeedSkipped.
Proof.
  split; [reflexivity |].
  exact (f_equal fst (seed_runs_once postgresMessage 100 200 emptyDb eq_refl)).
Defined.

Lemma emptyDb_no_rows (P : Link -> Prop) : forall r, In r (rows emptyDb) -> P r.
Proof. intros r []. Qed.

(** X18 on the empty store: ten links with the ids 1 to 10. *)
Lemma seed_inserts_the_seed_data_witness :
  (forall r, In r (rows emptyDb) -> userId r <> SEED_USER_ID) /\
  (forall r, In r (rows emptyDb) -> id r < nextId emptyDb) /\
  (forall r d, In r (rows emptyDb) -> In d seedData ->
     shortCode r <> NewLink.shortCode d) /\
  map id (rows (snd (seed postgresMessage 100 emptyDb))) = [1; 2; 3; 4; 5; 6; 7; 8; 9; 10] /\
  nextId (snd (seed postgresMessage 100 emptyDb)) = 11.
Proof.
  assert (forall r d, In r (rows emptyDb) -> In d seedData ->
            shortCode r <> NewLink.shortCode d) as Hcode by (intros r d []).
  split; [apply emptyDb_no_rows |]. split; [apply emptyDb_no_rows |].
  split; [exact Hcode |].
  rewrite (seed_inserts_the_seed_data postgresMessage 100 emptyDb
             (emptyDb_no_rows _) (emptyDb_no_rows _) Hcode).
  split; reflexivity.
Defined.

(** X19 on a store where a seed short code is taken: the script fails and
    inserts none of the ten links. *)
Lemma seed_keeps_the_store_consistent_witness :
  uniqueShortCodes takenDb /\
  keysFresh takenDb /\
  exitCode (fst (seed postgresMessage 100 takenDb)) = 1 /\
  rows (snd (seed postgresMessage 100 takenDb)) = rows takenDb.
Proof.
  assert (uniqueShortCodes takenDb) as Hu
    by (unfold uniqueShortCodes; simpl; constructor; [intros [] | constructor]).
  assert (keysFresh takenDb) as Hk.
  { split; [simpl; constructor; [intros [] | constructor] |].
    intros r [<- | []]. simpl. lia. }
  split; [exact Hu |]. split; [exact Hk |]. split; [reflexivity |].
  exact (proj2 (proj2 (proj2 (seed_keeps_the_store_consistent postgresMessage 100
                                takenDb Hu Hk))) eq_refl).
Defined.

Lemma seedData_httpUrl : forall d, In d seedData -> httpUrl (NewLink.url d) = true.
Proof.
  intros d H. repeat (destruct H as [<- | H]; [reflexivity |]). destruct H.
Qed.

(** X20 on the empty store: "gh-repo" redirects to its seed url. *)
Lemma seeded_links_resolve_witness :
  (forall r, In r (rows emptyDb) -> userId r <> SEED_USER_ID) /\
  (forall r, In r (rows emptyDb) -> id r < nextId emptyDb) /\
  (forall r d, In r (rows emptyDb) -> In d seedData ->
     shortCode r <> NewLink.shortCode d) /\
  (forall d, In d seedData -> httpUrl (NewLink.url d) = true) /\
  GET httpUrl (snd (seed postgresMessage 100 emptyDb)) "gh-repo"
    = inr (Redirect "https://github.com/vercel/next.js" 307).
Proof.
  assert (forall r d, In r (rows emptyDb) -> In d seedData ->
            shortCode r <> NewLink.shortCode d) as Hcode by (intros r d []).
  split; [apply emptyDb_no_rows |]. split; [apply emptyDb_no_rows |].
  split; [exact Hcode |]. split; [exact seedData_httpUrl |].
  exact (proj1 (seeded_links_resolve httpUrl postgresMessage 100 emptyDb
                  (emptyDb_no_rows _) (emptyDb_no_rows _) Hcode seedData_httpUrl)
               (NewLink.mk SEED_USER_ID "https://github.com/vercel/next.js" "gh-repo")
               (or_introl eq_refl)).
Defined.

(** ** Concurrent update and delete calls, continued *)

Section InterleavedIdentity.

Variable pgMessage : PgError -> string.

(** A row after a statement of a task is a row from before it, with its
    id, owner and creation time. *)
Lemma advance_old_rows (now : Z) (db : Db) (t : Task) (r' : Link) :
  In r' (rows (snd (advance pgMessage now db t))) ->
  exists r, In r (rows db) /\ id r = id r' /\ userId r = userId r' /\
            createdAt r = createdAt r'.
Proof.
  destruct t as [i u url' code | i u url' code | res | i u | i u | res];
    cbn [advance]; intros Hin; try (exists r'; cbn [snd] in Hin; auto; fail).
  - destruct (selectOwned db i u); exists r'; auto.
  - destruct (updateOwned_rows pgMessage now db i u url' code) as [_ Hrows].
    destruct (updateOwned pgMessage now db i u url' code) as [[e | returned] db'];
      cbn [snd] in *;
      (destruct Hrows as [Hr | Hr]; rewrite Hr in Hin; [exists r'; auto |];
       apply in_map_iff in Hin; destruct Hin as (x & <- & Hx);
       exists x; destruct (ownedBy i u x); simpl; auto).
  - destruct (selectOwned db i u); exists r'; auto.
  - cbn [snd deleteOwned rows] in Hin. apply filter_In in Hin. exists r'. tauto.
Qed.

Lemma advance_ids (now : Z) (db : Db) (t : Task) :
  NoDup (map id (rows db)) -> NoDup (map id (rows (snd (advance pgMessage now db t)))).
Proof.
  intros Hnd. destruct t as [i u url' code | i u url' code | res | i u | i u | res];
    cbn [advance]; try exact Hnd.
  - destruct (selectOwned db i u); exact Hnd.
  - destruct (updateOwned_rows pgMessage now db i u url' code) as [_ Hrows].
    destruct (updateOwned pgMessage now db i u url' code) as [[e | returned] db'];
      cbn [snd] in *;
      (destruct Hrows as [-> | ->]; [exact Hnd | rewrite map_id_update; exact Hnd]).
  - destruct (selectOwned db i u); exact Hnd.
  - cbn [snd deleteOwned rows]. apply keys_distinct_among_kept, Hnd.
Qed.

(** X21.  Concurrent update and delete calls never create a Link and
    never change an owner: under every interleaving of their statements,
    each row of the final store is a row of the initial store as far as
    [id], [userId] and [createdAt] go; distinct ids stay distinct; and a
    Link that is gone (no row with that id and owner) stays gone, so an
    update that lost the race to a delete does not bring the Link back. *)
Theorem interleaved_calls_keep_the_identity_of_links :
  forall (schedule : list (nat * Z)) (db : Db) (pool : list Task),
    (forall r', In r' (rows (fst (runSchedule pgMessage (db, pool) schedule))) ->
       exists r, In r (rows db) /\ id r = id r' /\ userId r = userId r' /\
                 createdAt r = createdAt r') /\
    (NoDup (map id (rows db)) ->
     NoDup (map id (rows (fst (runSchedule pgMessage (db, pool) schedule))))) /\
    (forall i u, selectOwned db i u = [] ->
       selectOwned (fst (runSchedule pgMessage (db, pool) schedule)) i u = []).
Proof.
  assert (Hrows : forall schedule db pool r',
            In r' (rows (fst (runSchedule pgMessage (db, pool) schedule))) ->
            exists r, In r (rows db) /\ id r = id r' /\ userId r = userId r' /\
                      createdAt r = createdAt r').
  { unfold runSchedule. induction schedule as [|[n now] schedule IH]; intros db pool r' Hin;
      simpl in Hin; [exists r'; auto |].
    destruct (nth_error pool n) as [t|]; [| exact (IH _ _ _ Hin)].
    pose proof (advance_old_rows now db t) as Hstep.
    destruct (advance pgMessage now db t) as [t' db']. cbn [snd] in Hstep.
    destruct (IH _ _ _ Hin) as (r1 & Hr1 & Hid & Hu & Hc).
    destruct (Hstep r1 Hr1) as (r & Hr & Hid' & Hu' & Hc').
    exists r. repeat split; congruence. }
  intros schedule db pool. split; [apply Hrows |]. split.
  - revert db pool. unfold runSchedule.
    induction schedule as [|[n now] schedule IH]; intros db pool Hnd; simpl; [exact Hnd |].
    destruct (nth_error pool n) as [t|]; [| exact (IH _ _ Hnd)].
    pose proof (advance_ids now db t Hnd) as Hstep.
    destruct (advance pgMessage now db t) as [t' db']. exact (IH _ _ Hstep).
  - intros i u Hnone.
    apply selectOwned_none. intros r' Hin Hid Hu.
    destruct (Hrows schedule db pool r' Hin) as (r & Hr & Hid' & Hu' & _).
    assert (In r (selectOwned db i u)) as Hsel.
    { unfold selectOwned. apply filter_In. split; [exact Hr |].
      apply ownedBy_true. split; congruence. }
    rewrite Hnone in Hsel. destruct Hsel.
Qed.

End InterleavedIdentity.

(** ** What the actions leave alone, and what they pass through *)

Section Frames.

Variable isUrl : string -> bool.
Variable pgMessage : PgError -> string.

(** X22.  The friendly "already in use" text hangs on the word "unique"
    in the store's error: when the message of a unique violation does not
    contain it, a create with a taken short code and an edit onto a short
    code of another Link both fail with the store's message as it is. *)
Theorem unique_violation_is_passed_through_without_the_word :
  forall (auth : option string) (u : string) (now : Z) (db : Db)
         (url' code : string) (o : Link),
    includes (pgMessage (UniqueViolation links_short_code_unique)) "unique" = false ->
    signedIn auth = Some u ->
    isUrl url' = true ->
    shortCodeOk code ->
    keysFresh db ->
    In o (rows db) -> shortCode o = code ->
    createLink isUrl pgMessage auth now db (CreateLinkInput.mk url' code)
      = (Failure (pgMessage (UniqueViolation links_short_code_unique)),
         mkDb (rows db) (nextId db + 1)) /\
    (forall r, In r (rows db) -> userId r = u -> id r <> id o ->
       editLink isUrl pgMessage auth now db (EditLinkInput.mk (id r) url' code)
         = (Failure (pgMessage (UniqueViolation links_short_code_unique)), db)).
Proof.
  intros auth u now db url' code o Hmsg Hu Hurl Hok [_ Hfresh] Ho Hco.
  assert (Hs : createLinkSchema isUrl url' code = [])
    by (apply createLinkSchema_ok; split; assumption).
  destruct Hok as [[_ Hlen] _]. split.
  - unfold createLink. rewrite Hu.
    cbn [CreateLinkInput.url CreateLinkInput.shortCode]. rewrite Hs.
    unfold insertLink, insertRow, raise.
    cbn [shortCode id NewLink.shortCode NewLink.url NewLink.userId].
    assert ((20 <? strlen code) = false) as -> by (apply Z.ltb_ge; exact Hlen).
    rewrite existsb_none
      by (intros x Hx; apply Z.eqb_neq; specialize (Hfresh x Hx); lia).
    assert (existsb (hasShortCode code) (rows db) = true) as ->.
    { apply existsb_exists. exists o. split; [exact Ho |].
      unfold hasShortCode. apply String.eqb_eq. exact Hco. }
    rewrite Hmsg. reflexivity.
  - intros r Hr Hru Hid.
    assert (ownedBy (id r) u r = true) as Hown by (apply ownedBy_true; auto).
    destruct (selectOwned_some db (id r) u r Hr Hown) as (x & l & Hsel).
    unfold editLink. rewrite Hu.
    cbn [EditLinkInput.id EditLinkInput.url EditLinkInput.shortCode].
    rewrite editLinkSchema_same, Hs.
    unfold updateLink. rewrite Hsel. unfold updateOwned.
    rewrite (updateRows_conflict (ownedBy (id r) u) url' code now Hlen).
    + unfold raise. rewrite Hmsg. reflexivity.
    + exists r. split; assumption.
    + exists o. simpl. split; [exact Ho |]. split; [| exact Hco].
      destruct (ownedBy (id r) u o) eqn:E; [| reflexivity].
      apply ownedBy_true in E. destruct E as [E _]. congruence.
Qed.

(** X23.  A create never touches a Link that is there: whatever the caller
    and the input, either it fails and the table is what it was, or it
    succeeds and the table is what it was followed by the one Link it
    returns, which carries the identity value the sequence stood at. *)
Theorem create_appends_or_leaves_the_table :
  forall (auth : option string) (now : Z) (db : Db) (input : CreateLinkInput.t),
    (exists msg,
       fst (createLink isUrl pgMessage auth now db input) = Failure msg /\
       rows (snd (createLink isUrl pgMessage auth now db input)) = rows db) \/
    (exists l,
       fst (createLink isUrl pgMessage auth now db input) = Success l /\
       rows (snd (createLink isUrl pgMessage auth now db input)) = rows db ++ [l] /\
       id l = nextId db /\
       nextId (snd (createLink isUrl pgMessage auth now db input)) = nextId db + 1).
Proof.
  intros auth now db input. unfold createLink.
  destruct (signedIn auth) as [u|]; [| left; eexists; split; reflexivity].
  destruct (createLinkSchema isUrl _ _); [| left; eexists; split; reflexivity].
  unfold insertLink, insertRow, raise. cbn [shortCode id NewLink.shortCode].
  destruct (20 <? strlen _);
    [destruct (includes _ "unique"); left; eexists; split; reflexivity |].
  destruct (existsb _ (rows db));
    [destruct (includes _ "unique"); left; eexists; split; reflexivity |].
  destruct (existsb _ (rows db));
    [destruct (includes _ "unique"); left; eexists; split; reflexivity |].
  right. eexists. repeat split.
Qed.

(** X24.  An edit and a delete never add a row, never touch the identity
    sequence and never touch a row with another id: whatever the caller,
    the input and the outcome, the rows whose id is not the target id are
    the same rows in the same order afterwards, and an edit keeps the
    number of rows. *)
Theorem edit_and_delete_leave_other_ids :
  forall (auth : option string) (now : Z) (db : Db)
         (e : EditLinkInput.t) (d : DeleteLinkInput.t),
    (nextId (snd (editLink isUrl pgMessage auth now db e)) = nextId db /\
     List.length (rows (snd (editLink isUrl pgMessage auth now db e)))
       = List.length (rows db) /\
     filter (fun r => negb (id r =? EditLinkInput.id e))
            (rows (snd (editLink isUrl pgMessage auth now db e)))
       = filter (fun r => negb (id r =? EditLinkInput.id e)) (rows db)) /\
    (nextId (snd (deleteLinkAction auth db d)) = nextId db /\
     filter (fun r => negb (id r =? DeleteLinkInput.id d))
            (rows (snd (deleteLinkAction auth db d)))
       = filter (fun r => negb (id r =? DeleteLinkInput.id d)) (rows db)).
Proof.
  intros auth now db e d. split.
  - unfold editLink. destruct (signedIn auth) as [u|]; [| repeat split].
    destruct (editLinkSchema isUrl _ _ _); [| repeat split].
    unfold updateLink. destruct (selectOwned db _ u); [repeat split |].
    destruct (updateOwned_rows pgMessage now db (EditLinkInput.id e) u
                (EditLinkInput.url e) (EditLinkInput.shortCode e)) as [Hn Hrows].
    destruct (updateOwned pgMessage now db _ u _ _) as [[[message|] | returned] db'];
      cbn [snd] in *.
    1: destruct (includes message "unique"); cbn [snd].
    4: destruct (hd_error returned); cbn [snd].
    all: split; [exact Hn |]; destruct Hrows as [-> | ->];
      [split; reflexivity | split; [apply length_map |]];
      apply filter_outside_update;
      [ intros r Hr; apply negb_true_iff in Hr; unfold ownedBy; rewrite Hr; reflexivity
      | intros r; apply ownedBy_setFields ].
  - unfold deleteLinkAction. destruct (signedIn auth) as [u|]; [| repeat split].
    cbn [deleteLinkSchema idIssues]. unfold deleteLinkById.
    destruct (selectOwned db _ u); [repeat split |].
    cbn [snd deleteOwned nextId rows]. split; [reflexivity |].
    apply filter_outside_delete.
    intros r Hr. apply negb_true_iff in Hr. unfold ownedBy. rewrite Hr. reflexivity.
Qed.

(** X25.  Renaming a Link moves its redirect: after a successful edit of
    one's own Link, the route redirects the new short code to the new url
    with status 307, and answers the old short code, when it differs, with
    the 404 body. *)
Theorem renamed_link_resolves_under_the_new_short_code :
  forall (auth : option string) (u : string) (now : Z) (db : Db)
         (r : Link) (url' code : string),
    signedIn auth = Some u ->
    isUrl url' = true ->
    shortCodeOk code ->
    keysFresh db ->
    uniqueShortCodes db ->
    In r (rows db) -> userId r = u ->
    (forall o, In o (rows db) -> shortCode o = code -> o = r) ->
    GET isUrl (snd (editLink isUrl pgMessage auth now db
                      (EditLinkInput.mk (id r) url' code))) code
      = inr (Redirect url' 307) /\
    (shortCode r <> code ->
     GET isUrl (snd (editLink isUrl pgMessage auth now db
                       (EditLinkInput.mk (id r) url' code))) (shortCode r)
       = inr (Json "error" "Link not found" 404)).
Proof.
  intros auth u now db r url' code Hu Hurl Hok [Hnd _] Huniq Hin Hru Hcode.
  pose proof (serve_unique isUrl pgMessage db
                (mkRequest auth now (EditCall (EditLinkInput.mk (id r) url' code)))
                Huniq) as Huniq'.
  unfold serve in Huniq'. cbn [call caller time] in Huniq'.
  rewrite (editLink_owned isUrl pgMessage auth u now db r url' code) in *; try assumption.
  2, 4: apply createLinkSchema_ok; split; assumption.
  2, 3: intros o Ho Hc; rewrite (Hcode o Ho Hc); reflexivity.
  cbn [snd] in *.
  assert (ownedBy (id r) u r = true) as Hown by (apply ownedBy_true; auto).
  split.
  - unfold GET.
    rewrite (getLinkByShortCode_found _ code (setFields url' code now r) Huniq').
    + unfold NextResponse_redirect. cbn [url setFields]. rewrite Hurl. reflexivity.
    + cbn [rows]. apply in_map_iff. exists r. rewrite Hown. split; [reflexivity | exact Hin].
    + reflexivity.
  - intros Hneq. unfold GET. rewrite getLinkByShortCode_none; [reflexivity |].
    intros x' Hx' Hc. cbn [rows] in Hx'. apply in_map_iff in Hx'.
    destruct Hx' as (x & Hx & Hxin). destruct (ownedBy (id r) u x) eqn:E.
    + subst x'. cbn [setFields shortCode] in Hc. congruence.
    + subst x'.
      assert (x = r) as -> by (apply (NoDup_map_inj shortCode (rows db)); assumption).
      congruence.
Qed.

End Frames.

Lemma failedQueryMessage_lacks_the_word :
  includes (failedQueryMessage (UniqueViolation links_short_code_unique)) "unique" = false.
Proof. reflexivity. Qed.

(** X22 on the scenario: user B asks for "abc123" through a store layer
    whose error does not say "unique". *)
Lemma unique_violation_is_passed_through_without_the_word_witness :
  includes (failedQueryMessage (UniqueViolation links_short_code_unique)) "unique"
    = false /\
  signedIn (Some "userB") = Some "userB" /\
  httpUrl "https://b.com" = true /\
  shortCodeOk "abc123" /\
  keysFresh scenarioDb /\
  In scenarioLink (rows scenarioDb) /\
  shortCode scenarioLink = "abc123" /\
  fst (createLink httpUrl failedQueryMessage (Some "userB") 20 scenarioDb
         (CreateLinkInput.mk "https://b.com" "abc123"))
    = Failure "Failed query".
Proof.
  repeat (split; [first [ reflexivity | exact shortCodeOk_abc123
                        | exact scenarioDb_keysFresh | exact scenarioLink_in ] |]).
  exact (f_equal fst
           (proj1 (unique_violation_is_passed_through_without_the_word httpUrl
                     failedQueryMessage (Some "userB") "userB" 20 scenarioDb
                     "https://b.com" "abc123" scenarioLink
                     failedQueryMessage_lacks_the_word eq_refl eq_refl
                     shortCodeOk_abc123 scenarioDb_keysFresh scenarioLink_in eq_refl))).
Defined.

(** X25 on the scenario: user A renames "abc123" to "mine". *)
Lemma renamed_link_resolves_under_the_new_short_code_witness :
  signedIn (Some "userA") = Some "userA" /\
  httpUrl "https://a.org" = true /\
  shortCodeOk "mine" /\
  keysFresh scenarioDb /\
  uniqueShortCodes scenarioDb /\
  In scenarioLink (rows scenarioDb) /\
  userId scenarioLink = "userA" /\
  (forall o, In o (rows scenarioDb) -> shortCode o = "mine" -> o = scenarioLink) /\
  GET httpUrl (snd (editLink httpUrl postgresMessage (Some "userA") 20 scenarioDb
                      (EditLinkInput.mk 5 "https://a.org" "mine"))) "mine"
    = inr (Redirect "https://a.org" 307) /\
  GET httpUrl (snd (editLink httpUrl postgresMessage (Some "userA") 20 scenarioDb
                      (EditLinkInput.mk 5 "https://a.org" "mine"))) "abc123"
    = inr (Json "error" "Link not found" 404).
Proof.
  repeat (split; [first [ reflexivity | exact shortCodeOk_mine
                        | exact scenarioDb_keysFresh | exact scenarioDb_unique
                        | exact scenarioLink_in | exact scenarioDb_mine_is_free ] |]).
  pose proof (renamed_link_resolves_under_the_new_short_code httpUrl postgresMessage
                (Some "userA") "userA" 20 scenarioDb scenarioLink "https://a.org" "mine"
                eq_refl eq_refl shortCodeOk_mine scenarioDb_keysFresh scenarioDb_unique
                scenarioLink_in eq_refl scenarioDb_mine_is_free) as [_ H2].
  apply H2. discriminate.
Defined.
